(** * Slidescape: tile decoding and OpenSlide pyramid level mapping

    A shallow embedding of [load_tile_func], [load_wsi] and the OpenSlide
    branch of [load_image_from_file] (src/core/viewer_io_file.cpp), with the
    properties of the tile pyramid engine stated over it.

    Conventions.
    - C [i32]/[i64] values are [Z]; arithmetic done by the source in [i32] is
      wrapped by [wrap32], narrowing casts are written out.
    - C [float] is IEEE 754 binary32, modelled with the standard library's
      [spec_float] at precision 24 and exponent bound 128, so the float
      expressions of the source are evaluated bit-exactly.
    - Arrays ([levels], [level_images], [tiles], pixel buffers) are lists
      read with stdpp's lookup and written with stdpp's insert.
    - A call either returns, trips an [ASSERT], calls [panic()], or leaves
      defined behaviour: see [outcome]. *)

From Stdlib Require Import ZArith String.
From Stdlib Require Import Init.Byte.
From Stdlib Require Import Floats.SpecFloat.
From stdpp Require Import prelude gmap strings.

Local Open Scope Z_scope.

(** ** Machine integers *)

Definition INT32_MIN : Z := - 2 ^ 31.
Definition INT32_MAX : Z := 2 ^ 31 - 1.

(** Two's complement wrap-around of a 32-bit signed integer. *)
Definition wrap32 (z : Z) : Z := (z + 2 ^ 31) mod 2 ^ 32 - 2 ^ 31.

Definition in_i32 (z : Z) : bool := (INT32_MIN <=? z) && (z <=? INT32_MAX).

(** Division rounded up, for positive operands. *)
Definition ceil_div (a b : Z) : Z := (a + b - 1) / b.

(** ** binary32 arithmetic *)

Module F32.
Definition prec : Z := 24.
Definition emax : Z := 128.

Definition mul : spec_float -> spec_float -> spec_float := SFmul prec emax.
Definition div : spec_float -> spec_float -> spec_float := SFdiv prec emax.
Definition sub : spec_float -> spec_float -> spec_float := SFsub prec emax.

(** [a > b] of C; false as soon as one side is a NaN. *)
Definition gtb (a b : spec_float) : bool := SFltb b a.

(** Integer to float conversion, round to nearest even. *)
Definition of_Z (n : Z) : spec_float := binary_normalize prec emax n 0 false.

(** double to float conversion of an assignment [float x = <double>]. *)
Definition of_double (d : spec_float) : spec_float :=
  match d with
  | S754_finite s m e => binary_normalize prec emax (cond_Zopp s (Zpos m)) e s
  | _ => d
  end.

Definition zero : spec_float := S754_zero false.
Definition one : spec_float := of_Z 1.

(** The cast [(int) f]: truncation toward zero.  NaN, the infinities and
    values outside the range of [int] have no defined result. *)
Definition to_int (f : spec_float) : option Z :=
  match f with
  | S754_zero _ => Some 0
  | S754_finite s m e =>
      let v := if 0 <=? e then Zpos m * 2 ^ e else Zpos m ÷ 2 ^ (- e) in
      let r := cond_Zopp s v in
      if in_i32 r then Some r else None
  | _ => None
  end.

(** [exp2f((float) n)] for an integer [n]: the power of two itself, which
    libm returns exactly (an infinity above the range, a subnormal or zero
    below it). *)
Definition exp2f_int (n : Z) : spec_float := binary_round prec emax false 1 n.

(** The integer a float denotes, when it denotes one. *)
Definition exact_Z (f : spec_float) : option Z :=
  match f with
  | S754_zero _ => Some 0
  | S754_finite s m e =>
      if 0 <=? e then Some (cond_Zopp s (Zpos m * 2 ^ e))
      else if Zpos m mod 2 ^ (- e) =? 0
           then Some (cond_Zopp s (Zpos m / 2 ^ (- e)))
           else None
  | _ => None
  end.
End F32.

(** ** Outcomes of a call *)

(** Modelled from the spec: the [ASSERT] macro and [panic()] are declared in
    common.h, which is not among the sources verified here.  Following
    section 7 of the specification, a failed assertion is a fatal invariant
    violation and [panic()] aborts the call path; neither returns to the
    caller. *)
Inductive outcome (A : Type) : Type :=
  | Returned (a : A)
  | AssertionFailed
  | Panicked
  | Undefined.
Arguments Returned {A} a.
Arguments AssertionFailed {A}.
Arguments Panicked {A}.
Arguments Undefined {A}.

Definition obind {A B : Type} (m : outcome A) (k : A -> outcome B) : outcome B :=
  match m with
  | Returned a => k a
  | AssertionFailed => AssertionFailed
  | Panicked => Panicked
  | Undefined => Undefined
  end.

Definition ASSERT (b : bool) : outcome unit :=
  if b then Returned tt else AssertionFailed.

Definition panic_if (b : bool) : outcome unit :=
  if b then Panicked else Returned tt.

Definition defined {A : Type} (o : option A) : outcome A :=
  match o with Some a => Returned a | None => Undefined end.

Declare Scope outcome_scope.
Delimit Scope outcome_scope with outcome.
Notation "x <- m ;; k" := (obind m (fun x => k))
  (at level 100, m at next level, right associativity) : outcome_scope.
Notation "m ;;; k" := (obind m (fun _ => k))
  (at level 100, right associativity) : outcome_scope.

(** ** Data model *)

(** [wsi_level_t]: one native level as OpenSlide reports it.  The struct is
    declared in a header not at hand; the tile counts are taken as [i32],
    the type the source casts them to. *)
Module wsi_level.
Record t : Type := mk {
  width : Z;
  height : Z;
  width_in_tiles : Z;
  height_in_tiles : Z;
  tile_width : Z;
  tile_height : Z;
  tile_count : Z;
  um_per_pixel_x : spec_float;
  um_per_pixel_y : spec_float;
  x_tile_side_in_um : spec_float;
  y_tile_side_in_um : spec_float;
  downsample_level : Z;
  downsample_factor : spec_float
}.
(** The all-zero struct of [image_t image = {}]. *)
Definition zero : t :=
  mk 0 0 0 0 0 0 0 F32.zero F32.zero F32.zero F32.zero 0 F32.zero.
End wsi_level.
Abbreviation wsi_level_t := wsi_level.t.

#[export] Instance wsi_level_inhabited : Inhabited wsi_level_t :=
  populate wsi_level.zero.

(** [wsi_t]: an OpenSlide slide; [osr] is the library handle, [None] for
    the null pointer. *)
Module wsi.
Record t : Type := mk {
  osr : option nat;
  level_count : Z;
  width : Z;
  height : Z;
  tile_width : Z;
  tile_height : Z;
  mpp_x : spec_float;
  mpp_y : spec_float;
  is_mpp_known : bool;
  levels : list wsi_level_t;
  max_downsample_level : Z
}.
End wsi.
Abbreviation wsi_t := wsi.t.

(** [tile_t], restricted to the self-referential fields set at image-open
    and to the cache fields of [tile_release_cache]. *)
Module tile.
Record t : Type := mk {
  tile_index : Z;
  tile_x : Z;
  tile_y : Z;
  pixels : option nat;
  is_cached : bool;
  need_keep_in_cache : bool
}.
(** A slot as [calloc] leaves it. *)
Definition zero : t := mk 0 0 0 None false false.
End tile.
Abbreviation tile_t := tile.t.

#[export] Instance tile_inhabited : Inhabited tile_t := populate tile.zero.

(** [level_image_t]: one logical level of an opened image. *)
Module level_image.
Record t : Type := mk {
  exists_ : bool;
  pyramid_image_index : Z;
  downsample_factor : spec_float;
  tile_count : Z;
  width_in_tiles : Z;
  height_in_tiles : Z;
  tile_width : Z;
  tile_height : Z;
  um_per_pixel_x : spec_float;
  um_per_pixel_y : spec_float;
  x_tile_side_in_um : spec_float;
  y_tile_side_in_um : spec_float;
  tiles : list tile_t
}.
(** A level as [memset(image.level_images, 0, ...)] leaves it. *)
Definition zero : t :=
  mk false 0 F32.zero 0 0 0 0 0 F32.zero F32.zero F32.zero F32.zero [].
End level_image.
Abbreviation level_image_t := level_image.t.

#[export] Instance level_image_inhabited : Inhabited level_image_t :=
  populate level_image.zero.

Inductive image_type_enum : Type := IMAGE_TYPE_NONE | IMAGE_TYPE_WSI.

Inductive image_backend_enum : Type :=
  | IMAGE_BACKEND_NONE
  | IMAGE_BACKEND_STBI
  | IMAGE_BACKEND_TIFF
  | IMAGE_BACKEND_ISYNTAX
  | IMAGE_BACKEND_OPENSLIDE
  | IMAGE_BACKEND_DICOM.

#[export] Instance image_backend_eq_dec : EqDecision image_backend_enum.
Proof. solve_decision. Defined.

#[export] Instance image_type_eq_dec : EqDecision image_type_enum.
Proof. solve_decision. Defined.

(** [image_t], restricted to the fields the modelled functions touch. *)
Module image.
Record t : Type := mk {
  type : image_type_enum;
  backend : image_backend_enum;
  is_valid : bool;
  is_freshly_loaded : bool;
  resource_id : Z;
  wsi : wsi_t;
  mpp_x : spec_float;
  mpp_y : spec_float;
  is_mpp_known : bool;
  tile_width : Z;
  tile_height : Z;
  width_in_pixels : Z;
  width_in_um : spec_float;
  height_in_pixels : Z;
  height_in_um : spec_float;
  level_count : Z;
  level_images : list level_image_t
}.
End image.
Abbreviation image_t := image.t.

(** The [openslide] table of entry points of the OpenSlide library.  Handles
    are numbers; a [double] result is a binary64 [spec_float].
    [openslide_read_region] maps the destination buffer to its contents after
    the call. *)
Record openslide_api : Type := {
  openslide_open : string -> option nat;
  openslide_get_error : nat -> option string;
  openslide_get_level_count : nat -> Z;
  openslide_get_level0_dimensions : nat -> Z * Z;
  openslide_get_level_dimensions : nat -> Z -> Z * Z;
  openslide_get_level_downsample : nat -> Z -> spec_float;
  openslide_get_property_value : nat -> string -> option string;
  openslide_read_region :
    nat -> list byte -> Z -> Z -> Z -> Z -> Z -> list byte
}.

Inductive viewer_file_type_enum : Type :=
  | VIEWER_FILE_TYPE_UNKNOWN
  | VIEWER_FILE_TYPE_SIMPLE_IMAGE
  | VIEWER_FILE_TYPE_TIFF
  | VIEWER_FILE_TYPE_DICOM
  | VIEWER_FILE_TYPE_ISYNTAX
  | VIEWER_FILE_TYPE_OPENSLIDE_COMPATIBLE
  | VIEWER_FILE_TYPE_XML
  | VIEWER_FILE_TYPE_JSON.

#[export] Instance viewer_file_type_eq_dec : EqDecision viewer_file_type_enum.
Proof. solve_decision. Defined.

(** ** Tile loading: tasks, memory and the completion queue *)

(** Modelled from the spec: [BYTES_PER_PIXEL] is defined in a header not at
    hand; the specification fixes the pixel format at 4 bytes per pixel. *)
Definition BYTES_PER_PIXEL : Z := 4.

(** The functions stored in [completion_callback] fields and queue entries;
    both are defined in viewer_io_file.cpp. *)
Inductive work_queue_callback_t : Type :=
  | CB_viewer_notify_load_tile_completed
  | CB_viewer_upload_already_cached_tile_to_gpu.

(** [viewer_notify_tile_completed_task_t]; [pixel_memory] is a pointer into
    the heap, [None] for [NULL]. *)
Module completion_task.
Record t : Type := mk {
  resource_id : Z;
  pixel_memory : option nat;
  tile_width : Z;
  tile_height : Z;
  scale : Z;
  tile_index : Z;
  want_gpu_residency : bool
}.
End completion_task.
Abbreviation viewer_notify_tile_completed_task_t := completion_task.t.

(** [load_tile_task_t]. *)
Module load_tile_task.
Record t : Type := mk {
  resource_id : Z;
  image : image_t;
  level : Z;
  tile_x : Z;
  tile_y : Z;
  completion_callback : option work_queue_callback_t
}.
End load_tile_task.
Abbreviation load_tile_task_t := load_tile_task.t.

(** Modelled from the spec: the work queue of the platform layer, whose
    implementation is not among the sources verified here, is a bounded
    buffer of jobs; an entry is a callback with a copy of its user data, and
    [add_work_queue_entry] on a full queue rejects the entry and reports
    it. *)
Module work_queue.
Record t : Type := mk {
  entries : list (work_queue_callback_t * viewer_notify_tile_completed_task_t);
  capacity : nat
}.
End work_queue.
Abbreviation work_queue_t := work_queue.t.

Definition add_work_queue_entry (queue : work_queue_t)
    (callback : work_queue_callback_t)
    (userdata : viewer_notify_tile_completed_task_t) : work_queue_t * bool :=
  if bool_decide (length (work_queue.entries queue) < work_queue.capacity queue)%nat
  then (work_queue.mk (work_queue.entries queue ++ [(callback, userdata)])
                      (work_queue.capacity queue), true)
  else (queue, false).

(** What a worker shares with the rest of the program: the C heap (live
    blocks by address) and [global_completion_queue]. *)
Module world.
Record t : Type := mk {
  heap : gmap nat (list byte);
  next_block : nat;
  global_completion_queue : work_queue_t
}.
End world.
Abbreviation world_t := world.t.

(** [malloc]: a fresh block; its contents are whatever [init] says. *)
Definition malloc (init : list byte) (s : world_t) : world_t * nat :=
  let p := world.next_block s in
  (world.mk (<[p := init]> (world.heap s)) (S p)
            (world.global_completion_queue s), p).

(** [free] of a live block; anything else is undefined. *)
Definition free (p : nat) (s : world_t) : outcome world_t :=
  match world.heap s !! p with
  | Some _ =>
      Returned (world.mk (delete p (world.heap s)) (world.next_block s)
                         (world.global_completion_queue s))
  | None => Undefined
  end.

Definition store (p : nat) (buf : list byte) (s : world_t) : world_t :=
  world.mk (<[p := buf]> (world.heap s)) (world.next_block s)
           (world.global_completion_queue s).

(** [memset(buf + off, c, n)] on a block of [length buf] bytes; writing
    outside the block is undefined. *)
Definition memset (buf : list byte) (off : Z) (c : byte) (n : Z)
    : option (list byte) :=
  if (0 <=? off) && (0 <=? n) && (off + n <=? Z.of_nat (length buf))
  then Some (take (Z.to_nat off) buf ++ replicate (Z.to_nat n) c
             ++ drop (Z.to_nat (off + n)) buf)
  else None.

(** [array + i] dereferenced: defined inside the array only. *)
Definition array_at {A : Type} (l : list A) (i : Z) : option A :=
  if i <? 0 then None else l !! Z.to_nat i.

(** ** Opening a slide *)

(** What the modelled functions take from the rest of the program:
    constants of headers, libc and libm ([atof] returns a binary64 value),
    the table of OpenSlide entry points, the image openers of the other
    backends
    ([stbi_load], [init_image_from_tiff], [init_image_from_isyntax],
    [init_image_from_dicom]) and the tile decoders of the TIFF and DICOM
    backends.  A decoder yields the contents of the buffer it allocates, or
    [None] for a null result; [tiff_decode_tile] is given the index of the
    level's IFD in place of the pointer to it. *)
Class Platform : Type := {
  WSI_MAX_LEVELS : Z;
  WSI_TILE_DIM : Z;
  atof : string -> spec_float;
  log2f : spec_float -> spec_float;
  roundf : spec_float -> spec_float;
  openslide : openslide_api;
  load_image_with_other_backend :
    viewer_file_type_enum -> image_t -> string -> outcome image_t;
  tiff_decode_tile : Z -> Z -> Z -> Z -> Z -> Z -> option (list byte);
  dicom_wsi_decode_tile_to_bgra : Z -> Z -> option (list byte)
}.

Section viewer_io_file.
Context {platform : Platform}.

Local Open Scope outcome_scope.

(** [wsi_t] as [image_t image = {}] zero-initialises it; [levels] is an
    array of [WSI_MAX_LEVELS] structs, as is [level_images] of [image_t]. *)
Definition zero_wsi : wsi_t :=
  wsi.mk None 0 0 0 0 0 F32.zero F32.zero false
         (replicate (Z.to_nat WSI_MAX_LEVELS) wsi_level.zero) 0.

Definition unload_wsi (w : wsi_t) : wsi_t :=
  match wsi.osr w with
  | Some _ =>
      wsi.mk None (wsi.level_count w) (wsi.width w) (wsi.height w)
             (wsi.tile_width w) (wsi.tile_height w) (wsi.mpp_x w)
             (wsi.mpp_y w) (wsi.is_mpp_known w) (wsi.levels w)
             (wsi.max_downsample_level w)
  | None => w
  end.

(** The two [if (mpp_*_string)] blocks of [load_wsi]: an axis keeps its
    current value unless the property is present and parses to a positive
    float. *)
Definition parse_mpp (property_value : option string)
    (mpp_cur : spec_float) (is_mpp_known : bool) : spec_float * bool :=
  match property_value with
  | Some s =>
      let mpp := F32.of_double (atof s) in
      if F32.gtb mpp F32.zero then (mpp, true) else (mpp_cur, is_mpp_known)
  | None => (mpp_cur, is_mpp_known)
  end.

(** The value an axis's property yields: present and parsed to a positive
    float, or nothing. *)
Definition reported_mpp (property_value : option string)
    : option spec_float :=
  match property_value with
  | Some s =>
      let mpp := F32.of_double (atof s) in
      if F32.gtb mpp F32.zero then Some mpp else None
  | None => None
  end.

(** The tile grid of a [width] x [height] level has a tile count that an
    [i32] holds. *)
Definition tile_grid_fits_i32 (width height : Z) : Prop :=
  ceil_div width WSI_TILE_DIM * ceil_div height WSI_TILE_DIM <= INT32_MAX.

(** Body of the level loop of [load_wsi] for native level [i]. *)
Definition load_wsi_level (osr : nat) (mpp_x mpp_y : spec_float) (i : Z)
    : outcome wsi_level_t :=
  let '(width, height) := openslide_get_level_dimensions openslide osr i in
  ASSERT (0 <? width) ;;;
  ASSERT (0 <? height) ;;;
  let partial_block_x := Z.rem width WSI_TILE_DIM in
  let partial_block_y := Z.rem height WSI_TILE_DIM in
  let width_in_tiles :=
    wrap32 (wrap32 (width ÷ WSI_TILE_DIM)
            + Z.b2z (negb (partial_block_x =? 0))) in
  let height_in_tiles :=
    wrap32 (wrap32 (height ÷ WSI_TILE_DIM)
            + Z.b2z (negb (partial_block_y =? 0))) in
  let raw_downsample_factor :=
    F32.of_double (openslide_get_level_downsample openslide osr i) in
  let raw_downsample_level := log2f raw_downsample_factor in
  downsample_level <- defined (F32.to_int (roundf raw_downsample_level)) ;;
  let downsample_factor := F32.exp2f_int downsample_level in
  let um_per_pixel_x := F32.mul downsample_factor mpp_x in
  let um_per_pixel_y := F32.mul downsample_factor mpp_y in
  Returned
    {| wsi_level.width := width;
       wsi_level.height := height;
       wsi_level.width_in_tiles := width_in_tiles;
       wsi_level.height_in_tiles := height_in_tiles;
       wsi_level.tile_width := WSI_TILE_DIM;
       wsi_level.tile_height := WSI_TILE_DIM;
       wsi_level.tile_count := wrap32 (width_in_tiles * height_in_tiles);
       wsi_level.um_per_pixel_x := um_per_pixel_x;
       wsi_level.um_per_pixel_y := um_per_pixel_y;
       wsi_level.x_tile_side_in_um :=
         F32.mul um_per_pixel_x (F32.of_Z WSI_TILE_DIM);
       wsi_level.y_tile_side_in_um :=
         F32.mul um_per_pixel_y (F32.of_Z WSI_TILE_DIM);
       wsi_level.downsample_level := downsample_level;
       wsi_level.downsample_factor := downsample_factor |}.

(** [for (i32 i = 0; i < wsi->level_count; ++i)]: [n] iterations remain,
    the next one is for level [i]. *)
Fixpoint load_wsi_levels (n : nat) (osr : nat) (mpp_x mpp_y : spec_float)
    (i : Z) (levels : list wsi_level_t) (max_downsample_level : Z)
    : outcome (list wsi_level_t * Z) :=
  match n with
  | O => Returned (levels, max_downsample_level)
  | S n' =>
      level <- load_wsi_level osr mpp_x mpp_y i ;;
      load_wsi_levels n' osr mpp_x mpp_y (i + 1)
        (<[Z.to_nat i := level]> levels)
        (Z.max (wsi_level.downsample_level level) max_downsample_level)
  end.

(** [load_wsi]; console output, the barcode and the enumeration of
    properties and associated images, which only print, are left out. *)
Definition load_wsi (w0 : wsi_t) (filename : string) : outcome wsi_t :=
  let w := unload_wsi w0 in
  match openslide_open openslide filename with
  | None => Returned w
  | Some osr =>
      match openslide_get_error openslide osr with
      | Some _ => Returned w
      | None =>
          let level_count := openslide_get_level_count openslide osr in
          if level_count =? -1 then
            Returned
              (wsi.mk None level_count (wsi.width w) (wsi.height w)
                      (wsi.tile_width w) (wsi.tile_height w) (wsi.mpp_x w)
                      (wsi.mpp_y w) (wsi.is_mpp_known w) (wsi.levels w)
                      (wsi.max_downsample_level w))
          else
            panic_if (WSI_MAX_LEVELS <? level_count) ;;;
            let '(width, height) :=
              openslide_get_level0_dimensions openslide osr in
            ASSERT (0 <? width) ;;;
            ASSERT (0 <? height) ;;;
            let mpp_x := F32.one in
            let mpp_y := F32.one in
            let is_mpp_known := false in
            let mpp_x_string :=
              openslide_get_property_value openslide osr "openslide.mpp-x" in
            let mpp_y_string :=
              openslide_get_property_value openslide osr "openslide.mpp-y" in
            let '(mpp_x, is_mpp_known) :=
              parse_mpp mpp_x_string mpp_x is_mpp_known in
            let '(mpp_y, is_mpp_known) :=
              parse_mpp mpp_y_string mpp_y is_mpp_known in
            r <- load_wsi_levels (Z.to_nat level_count) osr mpp_x mpp_y 0
                   (wsi.levels w) (wsi.max_downsample_level w) ;;
            Returned
              {| wsi.osr := Some osr;
                 wsi.level_count := level_count;
                 wsi.width := width;
                 wsi.height := height;
                 wsi.tile_width := WSI_TILE_DIM;
                 wsi.tile_height := WSI_TILE_DIM;
                 wsi.mpp_x := mpp_x;
                 wsi.mpp_y := mpp_y;
                 wsi.is_mpp_known := is_mpp_known;
                 wsi.levels := r.1;
                 wsi.max_downsample_level := r.2 |}
      end
  end.

(** ** The pyramid level mapper *)

(** The inner [for] of the mapper: scan the native levels from
    [wsi_level_index] on, [n] of them remaining, for the first whose
    [downsample_level] is the wanted one.  Returns its index and the
    level, or [None] when the scan runs off the end. *)
Fixpoint find_wsi_level (n : nat) (levels : list wsi_level_t)
    (wanted_downsample_level : Z) (wsi_level_index : Z)
    : option (Z * wsi_level_t) :=
  match n with
  | O => None
  | S n' =>
      let wsi_file_level := levels !!! Z.to_nat wsi_level_index in
      if wsi_level.downsample_level wsi_file_level =? wanted_downsample_level
      then Some (wsi_level_index, wsi_file_level)
      else find_wsi_level n' levels wanted_downsample_level
             (wsi_level_index + 1)
  end.

(** [for (tile_index = 0; tile_index < tile_count; ++tile_index)]:
    store in every slot its own index and grid coordinates. *)
Fixpoint init_tiles (n : nat) (tile_index : Z) (width_in_tiles : Z)
    (tiles : list tile_t) : list tile_t :=
  match n with
  | O => tiles
  | S n' =>
      let tile := tiles !!! Z.to_nat tile_index in
      let tile' :=
        {| tile.tile_index := tile_index;
           tile.tile_x := Z.rem tile_index width_in_tiles;
           tile.tile_y := tile_index ÷ width_in_tiles;
           tile.pixels := tile.pixels tile;
           tile.is_cached := tile.is_cached tile;
           tile.need_keep_in_cache := tile.need_keep_in_cache tile |} in
      init_tiles n' (tile_index + 1) width_in_tiles
        (<[Z.to_nat tile_index := tile']> tiles)
  end.

(** The branch taken when a native level matched. *)
Definition level_image_from_wsi_level (wsi_level_index : Z)
    (wsi_file_level : wsi_level_t) : outcome level_image_t :=
  let width_in_tiles := wsi_level.width_in_tiles wsi_file_level in
  let tile_count := wsi_level.tile_count wsi_file_level in
  ASSERT (0 <? width_in_tiles) ;;;
  ASSERT (F32.gtb (wsi_level.x_tile_side_in_um wsi_file_level) F32.zero) ;;;
  ASSERT (F32.gtb (wsi_level.y_tile_side_in_um wsi_file_level) F32.zero) ;;;
  let tiles := replicate (Z.to_nat tile_count) tile.zero in
  Returned
    {| level_image.exists_ := true;
       level_image.pyramid_image_index := wsi_level_index;
       level_image.downsample_factor :=
         wsi_level.downsample_factor wsi_file_level;
       level_image.tile_count := tile_count;
       level_image.width_in_tiles := width_in_tiles;
       level_image.height_in_tiles :=
         wsi_level.height_in_tiles wsi_file_level;
       level_image.tile_width := wsi_level.tile_width wsi_file_level;
       level_image.tile_height := wsi_level.tile_height wsi_file_level;
       level_image.um_per_pixel_x := wsi_level.um_per_pixel_x wsi_file_level;
       level_image.um_per_pixel_y := wsi_level.um_per_pixel_y wsi_file_level;
       level_image.x_tile_side_in_um :=
         wsi_level.x_tile_side_in_um wsi_file_level;
       level_image.y_tile_side_in_um :=
         wsi_level.y_tile_side_in_um wsi_file_level;
       level_image.tiles :=
         init_tiles (Z.to_nat tile_count) 0 width_in_tiles tiles |}.

(** The branch taken when no native level matched: a placeholder over the
    zeroed struct. *)
Definition placeholder_level_image (image_tile_width image_tile_height : Z)
    (image_mpp_x image_mpp_y : spec_float) (level0 : wsi_level_t)
    (wanted_downsample_level : Z) : level_image_t :=
  let downsample_factor := F32.exp2f_int wanted_downsample_level in
  let um_per_pixel_x := F32.mul image_mpp_x downsample_factor in
  let um_per_pixel_y := F32.mul image_mpp_y downsample_factor in
  {| level_image.exists_ := false;
     level_image.pyramid_image_index := 0;
     level_image.downsample_factor := downsample_factor;
     level_image.tile_count := 0;
     level_image.width_in_tiles := 0;
     level_image.height_in_tiles := 0;
     level_image.tile_width := image_tile_width;
     level_image.tile_height := image_tile_height;
     level_image.um_per_pixel_x := um_per_pixel_x;
     level_image.um_per_pixel_y := um_per_pixel_y;
     level_image.x_tile_side_in_um :=
       F32.mul um_per_pixel_x (F32.of_Z (wsi_level.tile_width level0));
     level_image.y_tile_side_in_um :=
       F32.mul um_per_pixel_y (F32.of_Z (wsi_level.tile_height level0));
     level_image.tiles := [] |}.

(** The outer [for] of the mapper: [n] logical levels remain, the next
    is [downsample_level]; [next_wsi_level_index_to_check_for_match] is
    the scan cursor. *)
Fixpoint map_levels (n : nat) (w : wsi_t) (downsample_level : Z)
    (next_wsi_level_index_to_check_for_match : Z)
    (level_images : list level_image_t) : outcome (list level_image_t) :=
  match n with
  | O => Returned level_images
  | S n' =>
      let wanted_downsample_level := downsample_level in
      match find_wsi_level
              (Z.to_nat (wsi.level_count w
                         - next_wsi_level_index_to_check_for_match))
              (wsi.levels w) wanted_downsample_level
              next_wsi_level_index_to_check_for_match with
      | Some (wsi_level_index, wsi_file_level) =>
          downsample_level_image <-
            level_image_from_wsi_level wsi_level_index wsi_file_level ;;
          map_levels n' w (downsample_level + 1) (wsi_level_index + 1)
            (<[Z.to_nat downsample_level := downsample_level_image]>
               level_images)
      | None =>
          let downsample_level_image :=
            placeholder_level_image (wsi.tile_width w) (wsi.tile_height w)
              (wsi.mpp_x w) (wsi.mpp_y w) (wsi.levels w !!! 0%nat)
              wanted_downsample_level in
          map_levels n' w (downsample_level + 1)
            next_wsi_level_index_to_check_for_match
            (<[Z.to_nat downsample_level := downsample_level_image]>
               level_images)
      end
  end.

(** How the mapper fills logical level [L] when its scan cursor is at
    [next]: a placeholder, or the image of a native level at or after the
    cursor whose downsample level is [L]. *)
Definition mapped_level (w : wsi_t) (next L : Z) (li : level_image_t)
    : Prop :=
  li = placeholder_level_image (wsi.tile_width w) (wsi.tile_height w)
         (wsi.mpp_x w) (wsi.mpp_y w) (wsi.levels w !!! 0%nat) L
  \/ exists idx,
       next <= idx < wsi.level_count w
       /\ wsi_level.downsample_level (wsi.levels w !!! Z.to_nat idx) = L
       /\ level_image_from_wsi_level idx (wsi.levels w !!! Z.to_nat idx)
          = Returned li.

(** The OpenSlide branch of [load_image_from_file], after the library was
    found available: [image] is the zeroed struct with its name and
    resource id filled in. *)
Definition load_image_with_openslide (image0 : image_t) (filename : string)
    : outcome image_t :=
  w <- load_wsi (image.wsi image0) filename ;;
  match wsi.osr w with
  | None =>
      Returned
        {| image.type := IMAGE_TYPE_WSI;
           image.backend := IMAGE_BACKEND_OPENSLIDE;
           image.is_valid := image.is_valid image0;
           image.is_freshly_loaded := image.is_freshly_loaded image0;
           image.resource_id := image.resource_id image0;
           image.wsi := w;
           image.mpp_x := image.mpp_x image0;
           image.mpp_y := image.mpp_y image0;
           image.is_mpp_known := image.is_mpp_known image0;
           image.tile_width := image.tile_width image0;
           image.tile_height := image.tile_height image0;
           image.width_in_pixels := image.width_in_pixels image0;
           image.width_in_um := image.width_in_um image0;
           image.height_in_pixels := image.height_in_pixels image0;
           image.height_in_um := image.height_in_um image0;
           image.level_count := image.level_count image0;
           image.level_images := image.level_images image0 |}
  | Some _ =>
      let level0 := wsi.levels w !!! 0%nat in
      ASSERT (F32.gtb (wsi_level.x_tile_side_in_um level0) F32.zero) ;;;
      r <- (if (0 <? wsi.level_count w)
               && F32.gtb (wsi_level.x_tile_side_in_um level0) F32.zero
            then
              ASSERT (0 <=? wsi.max_downsample_level w) ;;;
              let level_images :=
                replicate (Z.to_nat WSI_MAX_LEVELS) level_image.zero in
              let level_count := wrap32 (wsi.max_downsample_level w + 1) in
              panic_if (level_count <? wsi.level_count w) ;;;
              panic_if (WSI_MAX_LEVELS <? level_count) ;;;
              level_images <-
                map_levels (Z.to_nat level_count) w 0 0 level_images ;;
              Returned (level_count, level_images)
            else
              Returned (image.level_count image0,
                        image.level_images image0)) ;;
      ASSERT (0 <? r.1) ;;;
      Returned
        {| image.type := IMAGE_TYPE_WSI;
           image.backend := IMAGE_BACKEND_OPENSLIDE;
           image.is_valid := true;
           image.is_freshly_loaded := true;
           image.resource_id := image.resource_id image0;
           image.wsi := w;
           image.mpp_x := wsi.mpp_x w;
           image.mpp_y := wsi.mpp_y w;
           image.is_mpp_known := wsi.is_mpp_known w;
           image.tile_width := wsi.tile_width w;
           image.tile_height := wsi.tile_height w;
           image.width_in_pixels := wsi.width w;
           image.width_in_um := F32.mul (F32.of_Z (wsi.width w)) (wsi.mpp_x w);
           image.height_in_pixels := wsi.height w;
           image.height_in_um :=
             F32.mul (F32.of_Z (wsi.height w)) (wsi.mpp_y w);
           image.level_count := r.1;
           image.level_images := r.2 |}
  end.

(** [image_t image = {}] with its resource id filled in. *)
Definition fresh_image (resource_id : Z) : image_t :=
  {| image.type := IMAGE_TYPE_NONE;
     image.backend := IMAGE_BACKEND_NONE;
     image.is_valid := false;
     image.is_freshly_loaded := false;
     image.resource_id := resource_id;
     image.wsi := zero_wsi;
     image.mpp_x := F32.zero;
     image.mpp_y := F32.zero;
     image.is_mpp_known := false;
     image.tile_width := 0;
     image.tile_height := 0;
     image.width_in_pixels := 0;
     image.width_in_um := F32.zero;
     image.height_in_pixels := 0;
     image.height_in_um := F32.zero;
     image.level_count := 0;
     image.level_images :=
       replicate (Z.to_nat WSI_MAX_LEVELS) level_image.zero |}.

(** The file types [load_image_from_file] hands to a backend other than
    OpenSlide. *)
Definition uses_other_backend (use_builtin_tiff_backend : bool)
    (file_type : viewer_file_type_enum) : bool :=
  bool_decide (file_type = VIEWER_FILE_TYPE_SIMPLE_IMAGE)
  || (use_builtin_tiff_backend
      && bool_decide (file_type = VIEWER_FILE_TYPE_TIFF))
  || bool_decide (file_type = VIEWER_FILE_TYPE_ISYNTAX)
  || bool_decide (file_type = VIEWER_FILE_TYPE_DICOM).

(** [load_image_from_file]: dispatch on the file type.
    [is_openslide_available] is the flag as read once the loader task has
    finished. *)
Definition load_image_from_file (use_builtin_tiff_backend : bool)
    (is_openslide_available : bool) (resource_id : Z)
    (file_type : viewer_file_type_enum) (filename : string)
    : outcome image_t :=
  let image0 := fresh_image resource_id in
  if uses_other_backend use_builtin_tiff_backend file_type
  then load_image_with_other_backend file_type image0 filename
  else if negb is_openslide_available then Returned image0
  else load_image_with_openslide image0 filename.
(** ** Decoding a tile *)

Definition viewer_upload_already_cached_tile_to_gpu
    (logical_thread_index : Z) (userdata : viewer_notify_tile_completed_task_t)
    (s : world_t) : world_t := s.

Definition viewer_notify_load_tile_completed
    (logical_thread_index : Z) (task : viewer_notify_tile_completed_task_t)
    (s : world_t) : world_t :=
  world.mk (world.heap s) (world.next_block s)
    (add_work_queue_entry (world.global_completion_queue s)
       CB_viewer_notify_load_tile_completed task).1.

(** A call through a [work_queue_callback_t] pointer. *)
Definition call_callback (callback : work_queue_callback_t)
    : Z -> viewer_notify_tile_completed_task_t -> world_t -> world_t :=
  match callback with
  | CB_viewer_notify_load_tile_completed => viewer_notify_load_tile_completed
  | CB_viewer_upload_already_cached_tile_to_gpu =>
      viewer_upload_already_cached_tile_to_gpu
  end.

(** [(int)((excess / tile_side_in_um) * tile_dim)]: the number of pixel
    rows or columns to clear. *)
Definition excess_count (excess tile_side_in_um : spec_float) (tile_dim : Z)
    : option Z :=
  F32.to_int (F32.mul (F32.div excess tile_side_in_um) (F32.of_Z tile_dim)).

(** [for (row = 0; row < new_tile_height; ++row)]: clear the last
    [excess_pixels] pixels of each kept row. *)
Fixpoint trim_columns (n : nat) (row : Z)
    (pitch new_tile_width excess_pixels : Z) (buf : list byte)
    : option (list byte) :=
  match n with
  | O => Some buf
  | S n' =>
      match memset buf
              (wrap32 (row * pitch) + wrap32 (new_tile_width * BYTES_PER_PIXEL))
              x00 (wrap32 (excess_pixels * BYTES_PER_PIXEL)) with
      | Some buf' =>
          trim_columns n' (row + 1) pitch new_tile_width excess_pixels buf'
      | None => None
      end
  end.

(** The trimming step of the TIFF branch, on the contents of
    [temp_memory]. *)
Definition trim_tile (level_image : level_image_t)
    (tile_x_excess tile_y_excess : spec_float) (buf : list byte)
    : outcome (list byte) :=
  let tile_width := level_image.tile_width level_image in
  let tile_height := level_image.tile_height level_image in
  let pitch := wrap32 (tile_width * BYTES_PER_PIXEL) in
  r <- (if F32.gtb tile_y_excess F32.zero then
          excess_rows <-
            defined (excess_count tile_y_excess
                       (level_image.y_tile_side_in_um level_image)
                       tile_height) ;;
          ASSERT (0 <=? excess_rows) ;;;
          let new_tile_height := wrap32 (tile_height - excess_rows) in
          buf' <-
            defined (memset buf (wrap32 (new_tile_height * pitch))
                       x00 (wrap32 (excess_rows * pitch))) ;;
          Returned (new_tile_height, buf')
        else Returned (tile_height, buf)) ;;
  if F32.gtb tile_x_excess F32.zero then
    excess_pixels <-
      defined (excess_count tile_x_excess
                 (level_image.x_tile_side_in_um level_image) tile_width) ;;
    ASSERT (0 <=? excess_pixels) ;;;
    let new_tile_width := wrap32 (tile_width - excess_pixels) in
    defined (trim_columns (Z.to_nat r.1) 0 pitch new_tile_width
               excess_pixels r.2)
  else Returned r.2.

(** [load_tile_func], in the build that reports through the completion
    queue ([USE_MULTIPLE_OPENGL_CONTEXTS] off). *)
Definition load_tile_func (logical_thread_index : Z)
    (task : load_tile_task_t) (s : world_t) : outcome world_t :=
  let level := load_tile_task.level task in
  let tile_x := load_tile_task.tile_x task in
  let tile_y := load_tile_task.tile_y task in
  let image := load_tile_task.image task in
  level_image <- defined (array_at (image.level_images image) level) ;;
  ASSERT (level_image.exists_ level_image) ;;;
  let tile_index :=
    wrap32 (wrap32 (tile_y * level_image.width_in_tiles level_image)
            + tile_x) in
  ASSERT (F32.gtb (level_image.x_tile_side_in_um level_image) F32.zero
          && F32.gtb (level_image.y_tile_side_in_um level_image) F32.zero) ;;;
  let tile_world_pos_x_end :=
    F32.mul (F32.of_Z (wrap32 (tile_x + 1)))
            (level_image.x_tile_side_in_um level_image) in
  let tile_world_pos_y_end :=
    F32.mul (F32.of_Z (wrap32 (tile_y + 1)))
            (level_image.y_tile_side_in_um level_image) in
  let tile_x_excess :=
    F32.sub tile_world_pos_x_end (image.width_in_um image) in
  let tile_y_excess :=
    F32.sub tile_world_pos_y_end (image.height_in_um image) in
  let pixel_memory_size :=
    wrap32 (wrap32 (level_image.tile_width level_image
                    * level_image.tile_height level_image)
            * BYTES_PER_PIXEL) in
  (if pixel_memory_size <? 0 then Undefined else Returned tt) ;;;
  let '(s, temp_memory) :=
    malloc (replicate (Z.to_nat pixel_memory_size) xff) s in
  ASSERT (bool_decide (image.type image = IMAGE_TYPE_WSI)) ;;;
  r <- match image.backend image with
       | IMAGE_BACKEND_TIFF =>
           let pixels :=
             tiff_decode_tile logical_thread_index
               (level_image.pyramid_image_index level_image)
               tile_index level tile_x tile_y in
           r <- match pixels with
                | Some px =>
                    s <- free temp_memory s ;;
                    Returned (malloc px s, false)
                | None => Returned ((s, temp_memory), true)
                end ;;
           let '((s, temp_memory), failed) := r in
           buf <- defined (world.heap s !! temp_memory) ;;
           buf' <- trim_tile level_image tile_x_excess tile_y_excess buf ;;
           Returned (store temp_memory buf' s, temp_memory, failed)
       | IMAGE_BACKEND_OPENSLIDE =>
           let wsi_file_level :=
             level_image.pyramid_image_index level_image in
           let x :=
             wrap32
               (Z.shiftl (wrap32 (tile_x * level_image.tile_width level_image))
                         level) in
           let y :=
             wrap32
               (Z.shiftl (wrap32 (tile_y * level_image.tile_height level_image))
                         level) in
           osr <- defined (wsi.osr (image.wsi image)) ;;
           buf <- defined (world.heap s !! temp_memory) ;;
           Returned
             (store temp_memory
                (openslide_read_region openslide osr buf x y wsi_file_level
                   (level_image.tile_width level_image)
                   (level_image.tile_height level_image)) s,
              temp_memory, false)
       | IMAGE_BACKEND_DICOM =>
           match dicom_wsi_decode_tile_to_bgra level tile_index with
           | Some px =>
               s <- free temp_memory s ;;
               Returned (malloc px s, false)
           | None => Returned (s, temp_memory, true)
           end
       | IMAGE_BACKEND_ISYNTAX => AssertionFailed
       | IMAGE_BACKEND_STBI => AssertionFailed
       | IMAGE_BACKEND_NONE => Returned (s, temp_memory, true)
       end ;;
  let '(s, temp_memory, failed) := r in
  r <- (if failed then
          s <- free temp_memory s ;; Returned (s, None)
        else Returned (s, Some temp_memory)) ;;
  let '(s, temp_memory) := r in
  let completion_task :=
    {| completion_task.resource_id := load_tile_task.resource_id task;
       completion_task.pixel_memory := temp_memory;
       completion_task.tile_width := level_image.tile_width level_image;
       completion_task.tile_height := level_image.tile_height level_image;
       completion_task.scale := level;
       completion_task.tile_index := tile_index;
       completion_task.want_gpu_residency := true |} in
  match load_tile_task.completion_callback task with
  | None => AssertionFailed
  | Some callback =>
      Returned (call_callback callback logical_thread_index completion_task s)
  end.

(** ** The locals of [load_tile_func] that its properties speak about *)

Definition tile_index_of (task : load_tile_task_t) (level_image : level_image_t)
    : Z :=
  wrap32 (wrap32 (load_tile_task.tile_y task
                  * level_image.width_in_tiles level_image)
          + load_tile_task.tile_x task).

Definition tile_x_excess_of (task : load_tile_task_t)
    (level_image : level_image_t) : spec_float :=
  F32.sub
    (F32.mul (F32.of_Z (wrap32 (load_tile_task.tile_x task + 1)))
             (level_image.x_tile_side_in_um level_image))
    (image.width_in_um (load_tile_task.image task)).

Definition tile_y_excess_of (task : load_tile_task_t)
    (level_image : level_image_t) : spec_float :=
  F32.sub
    (F32.mul (F32.of_Z (wrap32 (load_tile_task.tile_y task + 1)))
             (level_image.y_tile_side_in_um level_image))
    (image.height_in_um (load_tile_task.image task)).

Definition pixel_memory_size_of (level_image : level_image_t) : Z :=
  wrap32 (wrap32 (level_image.tile_width level_image
                  * level_image.tile_height level_image)
          * BYTES_PER_PIXEL).



(** The backend call of the job failed: a null result of the TIFF or
    DICOM decoder, or a backend [load_tile_func] has no decoder for. *)
Definition backend_decode_failed (logical_thread_index : Z)
    (task : load_tile_task_t) (level_image : level_image_t) : bool :=
  match image.backend (load_tile_task.image task) with
  | IMAGE_BACKEND_TIFF =>
      match tiff_decode_tile logical_thread_index
              (level_image.pyramid_image_index level_image)
              (tile_index_of task level_image) (load_tile_task.level task)
              (load_tile_task.tile_x task) (load_tile_task.tile_y task) with
      | None => true
      | Some _ => false
      end
  | IMAGE_BACKEND_DICOM =>
      match dicom_wsi_decode_tile_to_bgra (load_tile_task.level task)
              (tile_index_of task level_image) with
      | None => true
      | Some _ => false
      end
  | IMAGE_BACKEND_NONE => true
  | _ => false
  end.

(** The completion message [load_tile_func] builds. *)
Definition completion_message (task : load_tile_task_t)
    (level_image : level_image_t) (pixel_memory : option nat)
    : viewer_notify_tile_completed_task_t :=
  {| completion_task.resource_id := load_tile_task.resource_id task;
     completion_task.pixel_memory := pixel_memory;
     completion_task.tile_width := level_image.tile_width level_image;
     completion_task.tile_height := level_image.tile_height level_image;
     completion_task.scale := load_tile_task.level task;
     completion_task.tile_index := tile_index_of task level_image;
     completion_task.want_gpu_residency := true |}.

End viewer_io_file.

(** * Further definitions *)

From Stdlib Require Import Ascii.

Section ladder.
Context {platform : Platform}.

(** The downsample level [load_wsi] recorded for native level [i]. *)
Definition native_downsample_level (w : wsi_t) (i : Z) : Z :=
  wsi_level.downsample_level (wsi.levels w !!! Z.to_nat i).

(** The native levels come finest first, each coarser than the one
    before. *)
Definition ladder_sorted (w : wsi_t) : Prop :=
  0 <= native_downsample_level w 0
  /\ forall i j, 0 <= i -> i < j -> j < wsi.level_count w ->
       native_downsample_level w i < native_downsample_level w j.

End ladder.

(** * Signs of the float arithmetic *)

(** A float that is not below zero: a zero, a positive number or plus
    infinity; a NaN, which no comparison tells from them, counts as well. *)
Definition sign_clear (f : spec_float) : bool :=
  match f with
  | S754_zero _ | S754_nan => true
  | S754_infinity s | S754_finite s _ _ => negb s
  end.

(** * Releasing a tile *)

(** [tile_release_cache]: [tile] is the pointer passed in, [None] for
    NULL. *)
Definition tile_release_cache (tile : option tile_t) (s : world_t)
    : outcome (tile_t * world_t) :=
  match tile with
  | None => AssertionFailed
  | Some tile =>
      obind (match tile.pixels tile with
             | Some pixels => free pixels s
             | None => Returned s
             end)
        (fun s =>
         Returned (tile.mk (tile.tile_index tile) (tile.tile_x tile)
                     (tile.tile_y tile) None false false, s))
  end.

(** * The C library's character and number functions *)

(** Strings stand for the characters of a C string before its terminating
    NUL. *)
Module libc.

Definition code (c : ascii) : Z := Z.of_N (N_of_ascii c).

Definition isupper (c : ascii) : bool := (65 <=? code c) && (code c <=? 90).

Definition tolower (c : ascii) : ascii :=
  if isupper c then ascii_of_N (N_of_ascii c + 32) else c.

(** [isspace] in the C locale. *)
Definition isspace (c : ascii) : bool :=
  (code c =? 32) || ((9 <=? code c) && (code c <=? 13)).

Fixpoint lower (s : string) : string :=
  match s with
  | EmptyString => EmptyString
  | String c s' => String (tolower c) (lower s')
  end.

(** [strcasecmp]: the difference of the first pair of characters that
    differ once lower-cased, the end of a string counting as 0. *)
Fixpoint strcasecmp (a b : string) : Z :=
  match a, b with
  | EmptyString, EmptyString => 0
  | EmptyString, String y _ => 0 - code (tolower y)
  | String x _, EmptyString => code (tolower x)
  | String x a', String y b' =>
      let d := code (tolower x) - code (tolower y) in
      if d =? 0 then strcasecmp a' b' else d
  end.

(** [strncpy(dst, src, n)] into a zeroed buffer, read back as a string: the
    first [n] characters of [src]. *)
Definition strncpy (src : string) (n : Z) : string :=
  String.substring 0 (Z.to_nat n) src.

(** The value of a hexadecimal digit. *)
Definition digit_value (c : ascii) : option Z :=
  let n := code c in
  if (48 <=? n) && (n <=? 57) then Some (n - 48)
  else if (97 <=? n) && (n <=? 102) then Some (n - 87)
  else if (65 <=? n) && (n <=? 70) then Some (n - 55)
  else None.

Definition ULONG_MAX : Z := 2 ^ 64 - 1.

Fixpoint skip_space (s : string) (n : Z) : string * Z :=
  match s with
  | String c s' => if isspace c then skip_space s' (n + 1) else (s, n)
  | EmptyString => (s, n)
  end.

(** The run of hexadecimal digits [s] starts with: its value and its
    length. *)
Fixpoint digits16 (s : string) (acc count : Z) : Z * Z :=
  match s with
  | String c s' =>
      match digit_value c with
      | Some d => digits16 s' (acc * 16 + d) (count + 1)
      | None => (acc, count)
      end
  | EmptyString => (acc, count)
  end.

(** [strtoul(nptr, &endptr, 16)] where [unsigned long] has 64 bits: the
    value and [endptr - nptr].  White space is skipped, a sign and a "0x"
    prefix before a digit are accepted, the digits stop at the first
    character that is none; without a digit nothing is consumed. *)
Definition strtoul16 (nptr : string) : Z * Z :=
  let '(s, n) := skip_space nptr 0 in
  let '(neg, s, n) :=
    match s with
    | String c s' =>
        if Ascii.eqb c "-" then (true, s', n + 1)
        else if Ascii.eqb c "+" then (false, s', n + 1)
        else (false, s, n)
    | EmptyString => (false, s, n)
    end in
  let '(s, n) :=
    match s with
    | String c (String x (String d s')) =>
        if Ascii.eqb c "0" && (Ascii.eqb x "x" || Ascii.eqb x "X")
           && bool_decide (is_Some (digit_value d))
        then (String d s', n + 2) else (s, n)
    | _ => (s, n)
    end in
  let '(v, k) := digits16 s 0 0 in
  if k =? 0 then (0, 0)
  else (if ULONG_MAX <? v then ULONG_MAX
        else if neg then (2 ^ 64 - v) mod 2 ^ 64 else v,
        n + k).

(** The digit [printf] writes for [d] under [%x]. *)
Definition hex_digit (d : Z) : ascii :=
  ascii_of_N (Z.to_N (if d <? 10 then 48 + d else 87 + d)).

(** [%02x] of a value below 256. *)
Definition printf_02x (v : Z) : string :=
  String (hex_digit (v / 16)) (String (hex_digit (v mod 16)) EmptyString).

(** What [snprintf] leaves in a buffer of [bufsize] bytes when the
    formatted text is [s]. *)
Definition snprintf (bufsize : Z) (s : string) : string :=
  String.substring 0 (Z.to_nat (bufsize - 1)) s.

End libc.

(** * File information *)

(** What [S_ISDIR] and [S_ISREG] tell about [st_mode]: a file is of one
    kind. *)
Inductive st_mode_t : Type := S_IFDIR | S_IFREG | S_IFOTHER.

#[export] Instance st_mode_eq_dec : EqDecision st_mode_t.
Proof. solve_decision. Defined.

Definition S_ISDIR (m : st_mode_t) : bool := bool_decide (m = S_IFDIR).
Definition S_ISREG (m : st_mode_t) : bool := bool_decide (m = S_IFREG).

Module stat.
Record t : Type := mk { st_mode : st_mode_t; st_size : Z }.
End stat.

(** The fields of [file_info_t] that viewer_io_file.cpp reads and
    writes. *)
Module file_info.
Record t : Type := mk {
  filename : string;
  ext : string;
  is_valid : bool;
  is_directory : bool;
  is_regular_file : bool;
  filesize : Z;
  header : list byte;
  type : viewer_file_type_enum;
  is_image : bool
}.
End file_info.
Abbreviation file_info_t := file_info.t.

(** The file system and the functions of other modules that
    [viewer_get_file_info] calls; sizes are not negative. *)
Class FileSystem : Type := {
  (** [sizeof] of the [filename], [ext] and [header] arrays. *)
  FILENAME_SIZE : Z;
  EXT_SIZE : Z;
  HEADER_SIZE : Z;
  get_file_extension : string -> string;
  (** [None] when [platform_stat] does not return 0. *)
  platform_stat : string -> option stat.t;
  (** The bytes [file_stream_read] delivers when asked for so many, [None]
      when the file cannot be opened. *)
  file_stream_read : string -> Z -> option (list byte);
  is_file_a_dicom_file : list byte -> Z -> bool
}.

Section file_info.
Context {fs : FileSystem}.

(** [file_info_t file = {}]. *)
Definition zero_file_info : file_info_t :=
  file_info.mk EmptyString EmptyString false false false 0
    (replicate (Z.to_nat HEADER_SIZE) x00) VIEWER_FILE_TYPE_UNKNOWN false.

Definition viewer_determine_file_type (file : file_info_t)
    : viewer_file_type_enum :=
  let ext := file_info.ext file in
  let sniff :=
    is_file_a_dicom_file (file_info.header file)
      (Z.min (file_info.filesize file) HEADER_SIZE) in
  if file_info.is_regular_file file then
    if Z.of_nat (String.length ext) =? 0 then
      if sniff then VIEWER_FILE_TYPE_DICOM else VIEWER_FILE_TYPE_UNKNOWN
    else if (libc.strcasecmp ext "tiff" =? 0)
            || (libc.strcasecmp ext "tif" =? 0)
            || (libc.strcasecmp ext "ptif" =? 0)
    then VIEWER_FILE_TYPE_TIFF
    else if (libc.strcasecmp ext "png" =? 0)
            || (libc.strcasecmp ext "jpg" =? 0)
            || (libc.strcasecmp ext "jpeg" =? 0)
            || (libc.strcasecmp ext "bmp" =? 0)
            || (libc.strcasecmp ext "ppm" =? 0)
    then VIEWER_FILE_TYPE_SIMPLE_IMAGE
    else if libc.strcasecmp ext "xml" =? 0 then VIEWER_FILE_TYPE_XML
    else if libc.strcasecmp ext "json" =? 0 then VIEWER_FILE_TYPE_JSON
    else if libc.strcasecmp ext "dcm" =? 0 then VIEWER_FILE_TYPE_DICOM
    else if (libc.strcasecmp ext "isyntax" =? 0)
            || (libc.strcasecmp ext "i2syntax" =? 0)
    then VIEWER_FILE_TYPE_ISYNTAX
    else if sniff then VIEWER_FILE_TYPE_DICOM
    else VIEWER_FILE_TYPE_OPENSLIDE_COMPATIBLE
  else VIEWER_FILE_TYPE_UNKNOWN.

(** The [switch] of [viewer_get_file_info]. *)
Definition type_is_image (type : viewer_file_type_enum) : bool :=
  match type with
  | VIEWER_FILE_TYPE_SIMPLE_IMAGE
  | VIEWER_FILE_TYPE_TIFF
  | VIEWER_FILE_TYPE_DICOM
  | VIEWER_FILE_TYPE_ISYNTAX
  | VIEWER_FILE_TYPE_OPENSLIDE_COMPATIBLE => true
  | _ => false
  end.

Definition viewer_get_file_info (filename : string) : file_info_t :=
  let file := zero_file_info in
  let no_header := file_info.header file in
  let filename_len := Z.of_nat (String.length filename) in
  if FILENAME_SIZE <=? filename_len then file
  else
    let ext := libc.strncpy (get_file_extension filename) (EXT_SIZE - 1) in
    match platform_stat filename with
    | Some st =>
        let is_directory := S_ISDIR (stat.st_mode st) in
        let is_regular_file := S_ISREG (stat.st_mode st) in
        if is_regular_file then
          let filesize := stat.st_size st in
          let bytes_to_read := Z.min filesize HEADER_SIZE in
          match file_stream_read filename bytes_to_read with
          | Some bytes =>
              let header :=
                bytes ++ replicate (Z.to_nat HEADER_SIZE - length bytes) x00 in
              if Z.of_nat (length bytes) =? bytes_to_read then
                let type :=
                  viewer_determine_file_type
                    (file_info.mk filename ext true is_directory
                       is_regular_file filesize header
                       VIEWER_FILE_TYPE_UNKNOWN false) in
                file_info.mk filename ext true is_directory is_regular_file
                  filesize header type (type_is_image type)
              else
                file_info.mk filename ext false is_directory is_regular_file
                  filesize header VIEWER_FILE_TYPE_UNKNOWN false
          | None =>
              file_info.mk filename ext false is_directory is_regular_file
                filesize no_header VIEWER_FILE_TYPE_UNKNOWN false
          end
        else
          file_info.mk filename ext true is_directory is_regular_file 0
            no_header VIEWER_FILE_TYPE_UNKNOWN false
    | None =>
        file_info.mk filename ext false false false 0 no_header
          VIEWER_FILE_TYPE_UNKNOWN false
    end.

End file_info.

(** * Directory information *)

(** The fields of [directory_info_t] that viewer_io_file.cpp reads and
    writes; [dicom_files] is the array [arrput] appends to. *)
Module directory_info.
Record t : Type := mk {
  is_valid : bool;
  contains_dicom_files : bool;
  contains_nondicom_images : bool;
  dicom_files : list file_info_t
}.
(** [directory_info_t directory = {}]. *)
Definition zero : t := mk false false false [].
End directory_info.
Abbreviation directory_info_t := directory_info.t.

Definition viewer_directory_info_destroy (info : directory_info_t)
    : directory_info_t :=
  directory_info.mk false (directory_info.contains_dicom_files info)
    (directory_info.contains_nondicom_images info) [].

(** The directory listings of the platform layer. *)
Class DirectoryListing : Type := {
  PATH_SEP : string;
  (** The names a listing of [path] goes through, the first one and those
      [find_next_file] moves on to; [None] when no listing can be made. *)
  create_directory_listing_and_find_first_file :
    string -> option (string * list string)
}.

Section directory_info.
Context {fs : FileSystem} {listings : DirectoryListing}.

(** [full_filename] after the [snprintf]. *)
Definition full_filename_of (path current_filename : string) : string :=
  libc.snprintf 512
    (String.append path (String.append PATH_SEP current_filename)).

(** The [do ... while (find_next_file(listing))] loop of
    [viewer_get_directory_info] over the names of the listing; [recurse] is
    the call of [viewer_get_directory_info] for a directory among them. *)
Fixpoint scan_entries (recurse : string -> option directory_info_t)
    (path : string) (entries : list string) (directory : directory_info_t)
    : option directory_info_t :=
  match entries with
  | [] => Some directory
  | current_filename :: entries =>
      let full_filename := full_filename_of path current_filename in
      let file := viewer_get_file_info full_filename in
      if file_info.is_valid file then
        if file_info.is_directory file then
          match recurse full_filename with
          | Some subdir_info =>
              let subdir_info := viewer_directory_info_destroy subdir_info in
              scan_entries recurse path entries directory
          | None => None
          end
        else if file_info.is_regular_file file then
          if bool_decide (file_info.type file = VIEWER_FILE_TYPE_DICOM) then
            scan_entries recurse path entries
              (directory_info.mk (directory_info.is_valid directory) true
                 (directory_info.contains_nondicom_images directory)
                 (directory_info.dicom_files directory ++ [file]))
          else if file_info.is_image file then
            scan_entries recurse path entries
              (directory_info.mk (directory_info.is_valid directory)
                 (directory_info.contains_dicom_files directory) true
                 (directory_info.dicom_files directory))
          else scan_entries recurse path entries directory
        else scan_entries recurse path entries directory
      else scan_entries recurse path entries directory
  end.

(** [viewer_get_directory_info]; [fuel] bounds the depth of the calls for
    directories inside directories, and the result is [None] when it does
    not suffice. *)
Fixpoint viewer_get_directory_info (fuel : nat) (path : string)
    : option directory_info_t :=
  match fuel with
  | O => None
  | S fuel =>
      match create_directory_listing_and_find_first_file path with
      | None => Some directory_info.zero
      | Some (first, rest) =>
          scan_entries (viewer_get_directory_info fuel) path (first :: rest)
            (directory_info.mk true false false [])
      end
  end.

(** The files of a listing, as [viewer_get_file_info] describes them. *)
Definition listed_files (path : string) : list file_info_t :=
  match create_directory_listing_and_find_first_file path with
  | Some (first, rest) =>
      map (fun current_filename =>
             viewer_get_file_info (full_filename_of path current_filename))
        (first :: rest)
  | None => []
  end.

(** Directories are nested less than [n] deep below [path]. *)
Inductive nesting_below : nat -> string -> Prop :=
  | nesting_below_S (n : nat) (path : string) :
      (forall file,
         file ∈ listed_files path ->
         file_info.is_valid file = true ->
         file_info.is_directory file = true ->
         nesting_below n (file_info.filename file)) ->
      nesting_below (S n) path.

Definition is_dicom_file (file : file_info_t) : bool :=
  file_info.is_valid file && negb (file_info.is_directory file)
  && file_info.is_regular_file file
  && bool_decide (file_info.type file = VIEWER_FILE_TYPE_DICOM).

Definition is_nondicom_image (file : file_info_t) : bool :=
  file_info.is_valid file && negb (file_info.is_directory file)
  && file_info.is_regular_file file
  && negb (bool_decide (file_info.type file = VIEWER_FILE_TYPE_DICOM))
  && file_info.is_image file.

End directory_info.

(** * ASAP XML annotations *)

(** [rgba_t]: four bytes. *)
Module rgba.
Record t : Type := mk { r : Z; g : Z; b : Z; a : Z }.
End rgba.
Abbreviation rgba_t := rgba.t.

(** The cast [(u8)]. *)
Definition to_u8 (z : Z) : Z := z mod 256.

(** The character of [value] at index [i]. *)
Definition char_at (value : string) (i : nat) : ascii :=
  match String.get i value with Some c => c | None => zero end.

(** [temp] of [asap_xml_parse_color] once two characters are stored in it. *)
Definition temp2 (c0 c1 : ascii) : string := String c0 (String c1 EmptyString).

Definition asap_xml_parse_color (value : string) : rgba_t :=
  let rgba := rgba.mk 0 0 0 255 in
  if negb (Z.of_nat (String.length value) =? 7)
     || negb (Ascii.eqb (char_at value 0) "#")
  then rgba
  else
    let r := to_u8 (libc.strtoul16 (temp2 (char_at value 1) (char_at value 2))).1 in
    let g := to_u8 (libc.strtoul16 (temp2 (char_at value 3) (char_at value 4))).1 in
    let b := to_u8 (libc.strtoul16 (temp2 (char_at value 5) (char_at value 6))).1 in
    rgba.mk r g b (rgba.a rgba).

(** [asap_xml_print_color]: what is left in [buf]. *)
Definition asap_xml_print_color (bufsize : Z) (rgba : rgba_t) : string :=
  libc.snprintf bufsize
    (String "#"
       (String.append (libc.printf_02x (rgba.r rgba))
          (String.append (libc.printf_02x (rgba.g rgba))
             (libc.printf_02x (rgba.b rgba))))).

(** The values of [annotation_type_enum] that annotation_asap_xml.cpp
    names; [ANNOTATION_OTHER_TYPE] stands for the remaining ones, which it
    handles under [default]. *)
Inductive annotation_type_enum : Type :=
  | ANNOTATION_UNKNOWN_TYPE
  | ANNOTATION_RECTANGLE
  | ANNOTATION_POLYGON
  | ANNOTATION_SPLINE
  | ANNOTATION_POINT
  | ANNOTATION_OTHER_TYPE.

#[export] Instance annotation_type_eq_dec : EqDecision annotation_type_enum.
Proof. solve_decision. Defined.

Definition get_annotation_type_name (type : annotation_type_enum) : string :=
  match type with
  | ANNOTATION_RECTANGLE => "Rectangle"
  | ANNOTATION_POLYGON => "Polygon"
  | ANNOTATION_SPLINE => "Spline"
  | ANNOTATION_POINT => "Dot"
  | _ => ""
  end.

(** The fields of [annotation_t] that [annotation_set_attribute] writes. *)
Module annotation.
Record t : Type := mk {
  color : rgba_t;
  name : string;
  group_id : Z;
  type : annotation_type_enum
}.
End annotation.
Abbreviation annotation_t := annotation.t.

(** The annotation set and the group lookup of annotation.cpp. *)
Class AnnotationStore : Type := {
  annotation_set_t : Type;
  (** [sizeof(annotation->name)]. *)
  ANNOTATION_NAME_SIZE : Z;
  find_annotation_group_or_create_if_not_found :
    annotation_set_t -> string -> annotation_set_t * Z
}.

Section annotation_attributes.
Context {store : AnnotationStore}.

Definition annotation_set_attribute (annotation_set : annotation_set_t)
    (annotation : annotation_t) (attr value : string)
    : annotation_set_t * annotation_t :=
  if String.eqb attr "Color" then
    (annotation_set,
     annotation.mk (asap_xml_parse_color value) (annotation.name annotation)
       (annotation.group_id annotation) (annotation.type annotation))
  else if String.eqb attr "Name" then
    (annotation_set,
     annotation.mk (annotation.color annotation)
       (libc.strncpy value ANNOTATION_NAME_SIZE)
       (annotation.group_id annotation) (annotation.type annotation))
  else if String.eqb attr "PartOfGroup" then
    let '(annotation_set, group_id) :=
      find_annotation_group_or_create_if_not_found annotation_set value in
    (annotation_set,
     annotation.mk (annotation.color annotation) (annotation.name annotation)
       group_id (annotation.type annotation))
  else if String.eqb attr "Type" then
    let type :=
      if String.eqb value "Rectangle" then ANNOTATION_RECTANGLE
      else if String.eqb value "Polygon" then ANNOTATION_POLYGON
      else if String.eqb value "Spline" then ANNOTATION_SPLINE
      else if String.eqb value "Dot" then ANNOTATION_POINT
      else ANNOTATION_POLYGON in
    (annotation_set,
     annotation.mk (annotation.color annotation) (annotation.name annotation)
       (annotation.group_id annotation) type)
  else (annotation_set, annotation).

End annotation_attributes.

(** ** Collecting an attribute value *)

Definition ATTRBUF_SIZE : Z := 128.

(** [*(attrcur++) = *(tmp++)] for each byte of [x->data] before its NUL;
    [attrbuf < attrbuf_end] holds throughout.  A store past the end of
    [attrbuf] is undefined. *)
Fixpoint copy_data (attrbuf : list byte) (attrcur : Z) (data : list byte)
    : option (list byte * Z) :=
  match data with
  | [] => Some (attrbuf, attrcur)
  | c :: data' =>
      if (0 <=? attrcur) && (attrcur <? Z.of_nat (length attrbuf))
      then copy_data (<[Z.to_nat attrcur := c]> attrbuf) (attrcur + 1) data'
      else None
  end.

(** [case YXML_ATTRVAL] of [load_asap_xml_annotations]: [attrcur] is [None]
    for NULL, an offset into [attrbuf] otherwise; [data] holds the bytes of
    [x->data] before its NUL.  The result is [None] after [goto failed]. *)
Definition attrval (attrbuf : list byte) (attrcur : option Z)
    (data : list byte) : outcome (option (list byte * option Z)) :=
  match attrcur with
  | None => Returned (Some (attrbuf, None))
  | Some cur =>
      obind (defined (copy_data attrbuf cur data))
        (fun r =>
         let '(attrbuf, cur) := r in
         if cur =? ATTRBUF_SIZE then Returned None
         else
           obind (defined (memset attrbuf cur x00 1))
             (fun attrbuf => Returned (Some (attrbuf, Some cur))))
  end.

(** * The DICOM dictionary generator *)

(** [spaces] of [get_spaces]: 34 blanks. *)
Definition spaces : string := "                                  ".

(** [get_spaces]: the string the returned pointer points to. *)
Definition get_spaces (length : Z) : outcome string :=
  obind (ASSERT (0 <=? length))
    (fun _ =>
     let spaces_len := Z.of_nat (String.length spaces + 1) - 1 in
     let offset_from_end := Z.min spaces_len length in
     let offset := spaces_len - offset_from_end in
     Returned
       (String.substring (Z.to_nat offset)
          (String.length spaces - Z.to_nat offset) spaces)).

(** The casts [(u16)] and [(u32)]. *)
Definition to_u16 (z : Z) : Z := z mod 2 ^ 16.
Definition to_u32 (z : Z) : Z := z mod 2 ^ 32.

(** [DICOM_TAG(g, e)] for [g] and [e] of type [u32]. *)
Definition DICOM_TAG (g e : Z) : Z :=
  to_u32 (Z.lor (to_u32 (Z.shiftl e 16)) (to_u16 g)).

(** The loop over [parser.contentbuf] that fills [cleaned]: bytes from 128
    on are dropped, as is white space before the first other character. *)
Fixpoint clean_loop (content : string) (only_whitespace : bool) : string :=
  match content with
  | EmptyString => EmptyString
  | String c content' =>
      if 128 <=? libc.code c then clean_loop content' only_whitespace
      else
        let is_whitespace :=
          (libc.code c =? 32) || (libc.code c =? 10) || (libc.code c =? 13)
          || (libc.code c =? 9) in
        if negb is_whitespace then String c (clean_loop content' false)
        else if only_whitespace then clean_loop content' only_whitespace
        else String c (clean_loop content' only_whitespace)
  end.

(** [cleaned] after the loop, for the [contentlen] bytes of [contentbuf]. *)
Definition cleaned (content : string) : string :=
  let len := Z.min (Z.of_nat (String.length content)) (256 - 1) in
  clean_loop (String.substring 0 (Z.to_nat len) content) true.

(** The fields of [dicom_dict_parser_t] that the cells of a table row set. *)
Module parser.
Record t : Type := mk {
  current_cleaned_content : string;
  current_cleaned_content_len : Z;
  td_index : Z;
  current_dicom_group : Z;
  current_dicom_element : Z;
  current_dicom_name : string;
  current_dicom_keyword : string;
  current_dicom_vr : Z;
  current_dicom_retired : bool;
  current_dicom_invalid : bool
}.
Definition with_td_index (v : Z) (p : t) : t :=
  mk (current_cleaned_content p) (current_cleaned_content_len p) v
     (current_dicom_group p) (current_dicom_element p) (current_dicom_name p)
     (current_dicom_keyword p) (current_dicom_vr p) (current_dicom_retired p)
     (current_dicom_invalid p).
Definition with_group (v : Z) (p : t) : t :=
  mk (current_cleaned_content p) (current_cleaned_content_len p) (td_index p)
     v (current_dicom_element p) (current_dicom_name p)
     (current_dicom_keyword p) (current_dicom_vr p) (current_dicom_retired p)
     (current_dicom_invalid p).
Definition with_element (v : Z) (p : t) : t :=
  mk (current_cleaned_content p) (current_cleaned_content_len p) (td_index p)
     (current_dicom_group p) v (current_dicom_name p)
     (current_dicom_keyword p) (current_dicom_vr p) (current_dicom_retired p)
     (current_dicom_invalid p).
Definition with_name (v : string) (p : t) : t :=
  mk (current_cleaned_content p) (current_cleaned_content_len p) (td_index p)
     (current_dicom_group p) (current_dicom_element p) v
     (current_dicom_keyword p) (current_dicom_vr p) (current_dicom_retired p)
     (current_dicom_invalid p).
Definition with_keyword (v : string) (p : t) : t :=
  mk (current_cleaned_content p) (current_cleaned_content_len p) (td_index p)
     (current_dicom_group p) (current_dicom_element p) (current_dicom_name p)
     v (current_dicom_vr p) (current_dicom_retired p)
     (current_dicom_invalid p).
Definition with_vr (v : Z) (p : t) : t :=
  mk (current_cleaned_content p) (current_cleaned_content_len p) (td_index p)
     (current_dicom_group p) (current_dicom_element p) (current_dicom_name p)
     (current_dicom_keyword p) v (current_dicom_retired p)
     (current_dicom_invalid p).
Definition with_retired (v : bool) (p : t) : t :=
  mk (current_cleaned_content p) (current_cleaned_content_len p) (td_index p)
     (current_dicom_group p) (current_dicom_element p) (current_dicom_name p)
     (current_dicom_keyword p) (current_dicom_vr p) v
     (current_dicom_invalid p).
Definition with_invalid (v : bool) (p : t) : t :=
  mk (current_cleaned_content p) (current_cleaned_content_len p) (td_index p)
     (current_dicom_group p) (current_dicom_element p) (current_dicom_name p)
     (current_dicom_keyword p) (current_dicom_vr p) (current_dicom_retired p)
     v.
End parser.
Abbreviation dicom_dict_parser_t := parser.t.

(** The value representation codes of dicom.h. *)
Class DicomVR : Type := {
  LE_2CHARS : ascii -> ascii -> Z;
  (** [DICOM_VR_AE] to [DICOM_VR_UV], in the order of [dicom_vr_tbl] and of
      the [case] labels of [dicom_dict_xml_parse_tag_td]. *)
  DICOM_VR : list Z
}.

Section dicom_dict.
Context {vrs : DicomVR}.

Definition DICOM_VR_OW : Z := DICOM_VR !!! 17%nat.
Definition DICOM_VR_SS : Z := DICOM_VR !!! 22%nat.
Definition DICOM_VR_US : Z := DICOM_VR !!! 31%nat.

Definition dicom_vr_tbl : list Z := 0 :: DICOM_VR.

(** The string at [content + i]. *)
Definition string_from (content : string) (i : nat) : string :=
  String.substring i (String.length content - i) content.

(** [strstr(content, needle) != NULL]. *)
Definition strstr_found (content needle : string) : bool :=
  match String.index 0 needle content with Some _ => true | None => false end.

Definition dicom_dict_xml_parse_tag_td (parser : dicom_dict_parser_t)
    : dicom_dict_parser_t :=
  let content := parser.current_cleaned_content parser in
  let content_len := parser.current_cleaned_content_len parser in
  let parser :=
    if parser.td_index parser =? 0 then
      if (content_len =? 11)
         && Ascii.eqb (char_at content 0) "("
         && Ascii.eqb (char_at content 10) ")"
         && Ascii.eqb (char_at content 5) ","
      then
        let '(parsed, consumed) := libc.strtoul16 (string_from content 1) in
        let parser :=
          if negb (consumed =? 4) then parser.with_invalid true parser
          else parser in
        let parser := parser.with_group (to_u32 parsed) parser in
        let '(parsed, consumed) := libc.strtoul16 (string_from content 6) in
        let parser :=
          if negb (consumed =? 4) then parser.with_invalid true parser
          else parser in
        parser.with_element (to_u32 parsed) parser
      else parser
    else if parser.td_index parser =? 1 then
      let parser := parser.with_name (libc.strncpy content 256) parser in
      if Z.of_nat (String.length content) =? 0
      then parser.with_invalid true parser else parser
    else if parser.td_index parser =? 2 then
      let parser := parser.with_keyword (libc.strncpy content 256) parser in
      if Z.of_nat (String.length content) =? 0
      then parser.with_invalid true parser else parser
    else if parser.td_index parser =? 3 then
      let r :=
        if content_len =? 2 then
          let vr := LE_2CHARS (char_at content 0) (char_at content 1) in
          if bool_decide (vr ∈ DICOM_VR)
          then (parser.with_vr vr parser, true) else (parser, false)
        else (parser, false) in
      let r :=
        if negb r.2 then
          if String.eqb content "OB or OW"
          then (parser.with_vr DICOM_VR_OW r.1, true)
          else if String.eqb content "US or SS"
          then (parser.with_vr DICOM_VR_SS r.1, true)
          else if String.eqb content "US or OW"
          then (parser.with_vr DICOM_VR_US r.1, true)
          else if String.eqb content "US or SS or OW"
          then (parser.with_vr DICOM_VR_US r.1, true)
          else if (parser.current_dicom_group r.1 =? 65534)
                  && ((parser.current_dicom_element r.1 =? 57344)
                      || (parser.current_dicom_element r.1 =? 57357)
                      || (parser.current_dicom_element r.1 =? 57565))
          then (parser.with_vr 0 r.1, true)
          else r
        else r in
      if negb r.2 then parser.with_invalid true r.1 else r.1
    else if parser.td_index parser =? 4 then parser
    else if parser.td_index parser =? 5 then
      if 0 <? content_len
      then parser.with_retired (strstr_found content "RET") parser
      else parser
    else parser in
  parser.with_td_index (wrap32 (parser.td_index parser + 1)) parser.

End dicom_dict.

(** The number four hexadecimal digits denote. *)
Definition hex4 (v1 v2 v3 v4 : Z) : Z := ((v1 * 16 + v2) * 16 + v3) * 16 + v4.

(** The text of a table cell that holds a tag: [(GGGG,EEEE)]. *)
Definition tag_cell (g1 g2 g3 g4 e1 e2 e3 e4 : ascii) : string :=
  String "(" (String g1 (String g2 (String g3 (String g4 (String ","
    (String e1 (String e2 (String e3 (String e4 (String ")"
       EmptyString)))))))))).

(** Blank, newline, carriage return or tab: [is_whitespace] of the cleaning
    loop. *)
Definition is_whitespace (c : ascii) : bool :=
  (libc.code c =? 32) || (libc.code c =? 10) || (libc.code c =? 13)
  || (libc.code c =? 9).

(** ** Collecting element content *)

(** The content buffer of [dicom_dict_parser_t]: [contentcur] is [None] for
    NULL, an offset into [contentbuf] otherwise. *)
Module content.
Record t : Type := mk {
  contentbuf : list byte;
  contentcur : option Z;
  contentlen : Z;
  contentbuf_capacity : Z
}.
End content.
Abbreviation content_t := content.t.

(** The cast to [size_t], of 64 bits. *)
Definition to_size_t (z : Z) : Z := z mod 2 ^ 64.

(** The [while] loop of [case YXML_CONTENT] in [parse_dicom_part06_xml] over
    the bytes of [x->data] before its NUL.  [realloc] gives the moved
    block, [None] for NULL, on which the code calls [fatal_error]; a store
    outside [contentbuf] is undefined. *)
Fixpoint content_loop (realloc : list byte -> Z -> option (list byte))
    (data : list byte) (contentbuf : list byte) (contentcur contentlen
    contentbuf_capacity : Z) : outcome content_t :=
  match data with
  | [] =>
      Returned
        (content.mk contentbuf (Some contentcur) contentlen
           contentbuf_capacity)
  | c :: data =>
      if contentlen <? contentbuf_capacity then
        if (0 <=? contentcur) && (contentcur <? Z.of_nat (length contentbuf))
        then
          let contentbuf := <[Z.to_nat contentcur := c]> contentbuf in
          let contentcur := contentcur + 1 in
          let contentlen := to_size_t (contentlen + 1) in
          if contentlen =? contentbuf_capacity then
            let new_capacity := to_size_t (contentbuf_capacity * 2) in
            match realloc contentbuf new_capacity with
            | Some new_ptr =>
                content_loop realloc data new_ptr contentlen contentlen
                  new_capacity
            | None => Panicked
            end
          else
            content_loop realloc data contentbuf contentcur contentlen
              contentbuf_capacity
        else Undefined
      else
        Returned
          (content.mk contentbuf (Some contentcur) contentlen
             contentbuf_capacity)
  end.

(** [case YXML_CONTENT] of [parse_dicom_part06_xml]. *)
Definition content_token (realloc : list byte -> Z -> option (list byte))
    (data : list byte) (parser : content_t) : outcome content_t :=
  match content.contentcur parser with
  | None => Returned parser
  | Some contentcur =>
      obind (content_loop realloc data (content.contentbuf parser) contentcur
               (content.contentlen parser)
               (content.contentbuf_capacity parser))
        (fun parser =>
         match content.contentcur parser with
         | Some contentcur =>
             obind (defined (memset (content.contentbuf parser) contentcur
                               x00 1))
               (fun contentbuf =>
                Returned
                  (content.mk contentbuf (Some contentcur)
                     (content.contentlen parser)
                     (content.contentbuf_capacity parser)))
         | None => Undefined
         end)
  end.

(** A [realloc] that succeeds: the block has the new size and starts with
    the old contents. *)
Definition realloc_succeeds (realloc : list byte -> Z -> option (list byte))
    : Prop :=
  forall (block : list byte) (size : Z),
    Z.of_nat (length block) <= size ->
    exists block',
      realloc block size = Some block'
      /\ Z.of_nat (length block') = size
      /\ take (length block) block' = block.

(** * Worker threads *)

(** The thread table of linux_main.cpp and [pthread_create], which says
    whether the thread of a slot could be created. *)
Class Threads : Type := {
  MAX_THREAD_COUNT : Z;
  pthread_create : Z -> bool
}.

(** What [linux_init_multithreading] leaves behind: the two counters, the
    [logical_thread_index] of each slot of [thread_infos], and the indices
    of the workers that run, in the order they were started. *)
Module threading.
Record t : Type := mk {
  global_worker_thread_count : Z;
  global_active_worker_thread_count : Z;
  thread_infos : list Z;
  started : list Z
}.
End threading.
Abbreviation threading_t := threading.t.

(** What a turn of the loop of [worker_thread] comes to. *)
Inductive worker_turn : Type := TURN_SLEEP | TURN_WORK.

(** One turn of the [for (;;)] loop of [worker_thread], for the values of
    [global_active_worker_thread_count] read at the top of the loop and
    after [sem_wait], and the answer of
    [is_queue_work_waiting_to_start]. *)
Definition worker_thread_turn (logical_thread_index : Z)
    (active_count_at_top : Z) (work_waiting : bool)
    (active_count_after_wait : Z) : worker_turn :=
  if active_count_at_top <? logical_thread_index then TURN_SLEEP
  else if negb work_waiting then
    if active_count_after_wait <? logical_thread_index then TURN_SLEEP
    else TURN_WORK
  else TURN_WORK.

Section threads.
Context {threads : Threads}.

(** The loop [for (i32 i = 1; i < suggested_total_thread_count; ++i)] of
    [linux_init_multithreading]; a store outside [thread_infos] is
    undefined. *)
Fixpoint spawn_workers (n : nat) (i : Z) (thread_infos started : list Z)
    : outcome (list Z * list Z) :=
  match n with
  | O => Returned (thread_infos, started)
  | S n =>
      if (0 <=? i) && (i <? Z.of_nat (length thread_infos)) then
        spawn_workers n (wrap32 (i + 1)) (<[Z.to_nat i := i]> thread_infos)
          (if pthread_create i then started ++ [i] else started)
      else Undefined
  end.

(** [linux_init_multithreading], as far as the counters and the thread
    table go. *)
Definition linux_init_multithreading (suggested_total_thread_count : Z)
    : outcome threading_t :=
  let global_worker_thread_count :=
    wrap32 (suggested_total_thread_count - 1) in
  let global_active_worker_thread_count := global_worker_thread_count in
  obind (spawn_workers (Z.to_nat (suggested_total_thread_count - 1)) 1
           (replicate (Z.to_nat MAX_THREAD_COUNT) 0) [])
    (fun r =>
     Returned
       (threading.mk global_worker_thread_count
          global_active_worker_thread_count r.1 r.2)).

End threads.

(** * Tiles at the edge of the image *)


(** * The worker pool at work *)


(** A turn of the loop of [worker_thread] as the scheduler grants it: the
    worker, and what the worker reads during the turn
    ([global_active_worker_thread_count] at the top of the loop and after
    [sem_wait], and [is_queue_work_waiting_to_start]). *)
Module turn.
Record t : Type := mk {
  logical_thread_index : Z;
  active_count_at_top : Z;
  work_waiting : bool;
  active_count_after_wait : Z
}.
End turn.
Abbreviation turn_t := turn.t.





(** * Example slides *)

Definition double_of_Z (n : Z) : spec_float :=
  binary_normalize 53 1024 n 0 false.

(** The binary64 value nearest to [n / d]. *)
Definition double_ratio (n d : Z) : spec_float :=
  SFdiv 53 1024 (double_of_Z n) (double_of_Z d).

(** A slide of 10000 x 8000 pixels read in tiles of 256 pixels, with two
    native levels at downsample factors 1 and 4 (so logical level 1 has no
    native level), whose properties give the resolution of the x axis
    only. *)
Module slide.
Definition api : openslide_api :=
  {| openslide_open := fun _ => Some 1%nat;
     openslide_get_error := fun _ => None;
     openslide_get_level_count := fun _ => 2;
     openslide_get_level0_dimensions := fun _ => (10000, 8000);
     openslide_get_level_dimensions :=
       fun _ i => if i =? 0 then (10000, 8000) else (2500, 2000);
     openslide_get_level_downsample :=
       fun _ i => if i =? 0 then double_of_Z 1 else double_of_Z 4;
     openslide_get_property_value :=
       fun _ name =>
         if String.eqb name "openslide.mpp-x" then Some "0.25"%string
         else None;
     openslide_read_region := fun _ buf _ _ _ _ _ => buf |}.

Definition platform : Platform :=
  {| WSI_MAX_LEVELS := 16;
     WSI_TILE_DIM := 256;
     atof := fun s =>
       if String.eqb s "0.25" then double_ratio 1 4 else double_of_Z 0;
     log2f := fun f =>
       if SFeqb f (F32.of_Z 4) then F32.of_Z 2 else F32.zero;
     roundf := fun f => f;
     openslide := api;
     load_image_with_other_backend := fun _ image0 _ => Returned image0;
     tiff_decode_tile := fun _ _ _ _ _ _ => None;
     dicom_wsi_decode_tile_to_bgra := fun _ _ => None |}.

Definition filename : string := "slide.svs".

Definition w : wsi_t :=
  Eval vm_compute in
    match load_wsi (platform := platform) (zero_wsi (platform := platform))
            filename with
    | Returned w => w
    | _ => zero_wsi (platform := platform)
    end.

Definition img : image_t :=
  Eval vm_compute in
    match load_image_from_file (platform := platform) false true 7
            VIEWER_FILE_TYPE_OPENSLIDE_COMPATIBLE filename with
    | Returned img => img
    | _ => fresh_image (platform := platform) 7
    end.
End slide.

(** The same slide when OpenSlide reports factor 1 for both native levels:
    two native levels, one logical level. *)
Module flat.
Definition platform : Platform :=
  {| WSI_MAX_LEVELS := 16;
     WSI_TILE_DIM := 256;
     atof := fun _ => double_of_Z 0;
     log2f := fun _ => F32.zero;
     roundf := fun f => f;
     openslide := slide.api;
     load_image_with_other_backend := fun _ image0 _ => Returned image0;
     tiff_decode_tile := fun _ _ _ _ _ _ => None;
     dicom_wsi_decode_tile_to_bgra := fun _ _ => None |}.

Definition w : wsi_t :=
  Eval vm_compute in
    match load_wsi (platform := platform) (zero_wsi (platform := platform))
            slide.filename with
    | Returned w => w
    | _ => zero_wsi (platform := platform)
    end.
End flat.

(** A 17 x 6 pixel image at 0.23 microns per pixel, in tiles of 4 x 4
    pixels.  The last tile column, [tile_x = 4], holds one pixel column of
    the image and three beyond it; the last tile row, [tile_y = 1], two rows
    of the image and two beyond.  The decoders return a tile of 0xFF
    bytes. *)
Module edge.
Definition mpp : spec_float := F32.of_double (double_ratio 23 100).

Definition li : level_image_t :=
  {| level_image.exists_ := true;
     level_image.pyramid_image_index := 0;
     level_image.downsample_factor := F32.one;
     level_image.tile_count := 10;
     level_image.width_in_tiles := 5;
     level_image.height_in_tiles := 2;
     level_image.tile_width := 4;
     level_image.tile_height := 4;
     level_image.um_per_pixel_x := mpp;
     level_image.um_per_pixel_y := mpp;
     level_image.x_tile_side_in_um := F32.mul mpp (F32.of_Z 4);
     level_image.y_tile_side_in_um := F32.mul mpp (F32.of_Z 4);
     level_image.tiles := replicate 10 tile.zero |}.

Definition img (backend : image_backend_enum) : image_t :=
  {| image.type := IMAGE_TYPE_WSI;
     image.backend := backend;
     image.is_valid := true;
     image.is_freshly_loaded := true;
     image.resource_id := 7;
     image.wsi := slide.w;
     image.mpp_x := mpp;
     image.mpp_y := mpp;
     image.is_mpp_known := true;
     image.tile_width := 4;
     image.tile_height := 4;
     image.width_in_pixels := 17;
     image.width_in_um := F32.mul (F32.of_Z 17) mpp;
     image.height_in_pixels := 6;
     image.height_in_um := F32.mul (F32.of_Z 6) mpp;
     image.level_count := 1;
     image.level_images := [li] |}.

Definition task (backend : image_backend_enum) : load_tile_task_t :=
  {| load_tile_task.resource_id := 7;
     load_tile_task.image := img backend;
     load_tile_task.level := 0;
     load_tile_task.tile_x := 4;
     load_tile_task.tile_y := 1;
     load_tile_task.completion_callback :=
       Some CB_viewer_notify_load_tile_completed |}.

Definition decoded : list byte := replicate 64 xff.

Definition platform : Platform :=
  {| WSI_MAX_LEVELS := 16;
     WSI_TILE_DIM := 256;
     atof := fun _ => double_of_Z 0;
     log2f := fun _ => F32.zero;
     roundf := fun f => f;
     openslide := slide.api;
     load_image_with_other_backend := fun _ image0 _ => Returned image0;
     tiff_decode_tile := fun _ _ _ _ _ _ => Some decoded;
     dicom_wsi_decode_tile_to_bgra := fun _ _ => Some decoded |}.

(** Nothing allocated, an empty completion queue of 1024 entries. *)
Definition world0 : world_t :=
  {| world.heap := ∅;
     world.next_block := 0;
     world.global_completion_queue := work_queue.mk [] 1024 |}.

(** A job for logical level 1 of the example slide, a placeholder. *)
Definition placeholder_task : load_tile_task_t :=
  {| load_tile_task.resource_id := 7;
     load_tile_task.image := slide.img;
     load_tile_task.level := 1;
     load_tile_task.tile_x := 0;
     load_tile_task.tile_y := 0;
     load_tile_task.completion_callback :=
       Some CB_viewer_notify_load_tile_completed |}.
End edge.

(** * Further examples *)

(** The example slide next to a file that OpenSlide cannot open. *)
Module closed.
Definition filename : string := "missing.svs".

Definition api : openslide_api :=
  {| openslide_open :=
       fun name => if String.eqb name filename then None else Some 1%nat;
     openslide_get_error := openslide_get_error slide.api;
     openslide_get_level_count := openslide_get_level_count slide.api;
     openslide_get_level0_dimensions :=
       openslide_get_level0_dimensions slide.api;
     openslide_get_level_dimensions :=
       openslide_get_level_dimensions slide.api;
     openslide_get_level_downsample :=
       openslide_get_level_downsample slide.api;
     openslide_get_property_value := openslide_get_property_value slide.api;
     openslide_read_region := openslide_read_region slide.api |}.

Definition platform : Platform :=
  {| WSI_MAX_LEVELS := 16;
     WSI_TILE_DIM := 256;
     atof := atof (Platform := slide.platform);
     log2f := log2f (Platform := slide.platform);
     roundf := fun f => f;
     openslide := api;
     load_image_with_other_backend := fun _ image0 _ => Returned image0;
     tiff_decode_tile := fun _ _ _ _ _ _ => None;
     dicom_wsi_decode_tile_to_bgra := fun _ _ => None |}.
End closed.

(** A job for tile (3, 1) of logical level 2 of the example slide, which
    native level 1 backs. *)
Module coarse.
Definition task : load_tile_task_t :=
  {| load_tile_task.resource_id := 7;
     load_tile_task.image := slide.img;
     load_tile_task.level := 2;
     load_tile_task.tile_x := 3;
     load_tile_task.tile_y := 1;
     load_tile_task.completion_callback :=
       Some CB_viewer_notify_load_tile_completed |}.
End coarse.

(** A cached tile whose pixels sit in block 0, the only block. *)
Module cached.
Definition tile : tile_t := tile.mk 45 5 1 (Some 0%nat) true true.

Definition world : world_t :=
  {| world.heap := {[ 0%nat := edge.decoded ]};
     world.next_block := 1;
     world.global_completion_queue := work_queue.mk [] 1024 |}.
End cached.

(** Two scans that differ in the case of their extension, on a file system
    without DICOM files. *)
Module scans.
Definition fs : FileSystem :=
  {| FILENAME_SIZE := 512;
     EXT_SIZE := 16;
     HEADER_SIZE := 256;
     get_file_extension := fun _ => "tiff"%string;
     platform_stat := fun _ => Some (stat.mk S_IFREG 1000);
     file_stream_read := fun _ n => Some (replicate (Z.to_nat n) x00);
     is_file_a_dicom_file := fun _ _ => false |}.

Definition upper : file_info_t :=
  file_info.mk "SCAN.TIFF" "TIFF" true false true 1000 [] VIEWER_FILE_TYPE_UNKNOWN
    false.

Definition lower : file_info_t :=
  file_info.mk "SCAN.TIFF" "tiff" true false true 1000 [] VIEWER_FILE_TYPE_UNKNOWN
    false.
End scans.

(** The first cell of the row of tag (300A,00A2); each value representation
    is coded by its two characters, the first in the low byte. *)
Module row.
Definition vrs : DicomVR :=
  {| LE_2CHARS := fun c0 c1 => libc.code c0 + 256 * libc.code c1;
     DICOM_VR :=
       map (fun s => libc.code (char_at s 0) + 256 * libc.code (char_at s 1))
         ["AE"; "AS"; "AT"; "CS"; "DA"; "DS"; "DT"; "FD"; "FL"; "IS"; "LO";
          "LT"; "OB"; "OD"; "OF"; "OL"; "OV"; "OW"; "PN"; "SH"; "SL"; "SQ";
          "SS"; "ST"; "SV"; "TM"; "UC"; "UI"; "UL"; "UN"; "UR"; "US"; "UT";
          "UV"]%string |}.

Definition parser0 : dicom_dict_parser_t :=
  parser.mk "(300A,00A2)" 11 0 0 0 "" "" 0 false false.
End row.

(** A directory with a DICOM file, a subdirectory holding another one, and
    a picture. *)
Module study.
Definition fs : FileSystem :=
  {| FILENAME_SIZE := 512;
     EXT_SIZE := 16;
     HEADER_SIZE := 256;
     get_file_extension :=
       fun name =>
         if String.eqb name "study/b.png" then "png"%string
         else if String.eqb name "study/sub" then ""%string
         else "dcm"%string;
     platform_stat :=
       fun name =>
         if String.eqb name "study/sub" then Some (stat.mk S_IFDIR 0)
         else if String.eqb name "study/a.dcm"
                 || String.eqb name "study/b.png"
                 || String.eqb name "study/sub/c.dcm"
         then Some (stat.mk S_IFREG 1000)
         else None;
     file_stream_read := fun _ n => Some (replicate (Z.to_nat n) x00);
     is_file_a_dicom_file := fun _ _ => false |}.

Definition listings : DirectoryListing :=
  {| PATH_SEP := "/";
     create_directory_listing_and_find_first_file :=
       fun path =>
         if String.eqb path "study"
         then Some ("a.dcm", ["sub"; "b.png"])%string
         else if String.eqb path "study/sub"
         then Some ("c.dcm", [])%string
         else None |}.
End study.

(** A content buffer of four bytes with three in use, and a [realloc] that
    fills the new part of a block with zeros. *)
Module growing.
Definition realloc (block : list byte) (size : Z) : option (list byte) :=
  Some (take (Z.to_nat size) (block ++ replicate (Z.to_nat size) x00)).

Definition parser : content_t :=
  content.mk [x28; x30; x30; x00] (Some 3) 3 4.
End growing.

(** A machine on which every thread can be created. *)
Module pool.
Definition threads : Threads :=
  {| MAX_THREAD_COUNT := 128; pthread_create := fun _ => true |}.
End pool.

(** The 17 x 6 pixel image in tiles of 4 x 4 pixels again, at 0.25 microns
    per pixel: every quantity of the trimming step is a binary fraction. *)
Module quarter.
Definition mpp : spec_float := F32.of_double (double_ratio 1 4).

Definition li : level_image_t :=
  {| level_image.exists_ := true;
     level_image.pyramid_image_index := 0;
     level_image.downsample_factor := F32.one;
     level_image.tile_count := 10;
     level_image.width_in_tiles := 5;
     level_image.height_in_tiles := 2;
     level_image.tile_width := 4;
     level_image.tile_height := 4;
     level_image.um_per_pixel_x := mpp;
     level_image.um_per_pixel_y := mpp;
     level_image.x_tile_side_in_um := F32.mul mpp (F32.of_Z 4);
     level_image.y_tile_side_in_um := F32.mul mpp (F32.of_Z 4);
     level_image.tiles := replicate 10 tile.zero |}.

Definition img : image_t :=
  {| image.type := IMAGE_TYPE_WSI;
     image.backend := IMAGE_BACKEND_TIFF;
     image.is_valid := true;
     image.is_freshly_loaded := true;
     image.resource_id := 7;
     image.wsi := slide.w;
     image.mpp_x := mpp;
     image.mpp_y := mpp;
     image.is_mpp_known := true;
     image.tile_width := 4;
     image.tile_height := 4;
     image.width_in_pixels := 17;
     image.width_in_um := F32.mul (F32.of_Z 17) mpp;
     image.height_in_pixels := 6;
     image.height_in_um := F32.mul (F32.of_Z 6) mpp;
     image.level_count := 1;
     image.level_images := [li] |}.

(** The tile in the corner: three of its columns and two of its rows lie
    beyond the image. *)
Definition task : load_tile_task_t :=
  {| load_tile_task.resource_id := 7;
     load_tile_task.image := img;
     load_tile_task.level := 0;
     load_tile_task.tile_x := 4;
     load_tile_task.tile_y := 1;
     load_tile_task.completion_callback :=
       Some CB_viewer_notify_load_tile_completed |}.
End quarter.

(** Four workers of which the last two are disabled (the active count is
    2), three jobs waiting, and the turns the scheduler grants. *)
Module pool4.


Definition queue : list string := ["a"; "b"; "c"]%string.
End pool4.

(** * Properties *)

(** ** Inversion of outcomes *)

Lemma obind_Returned {A B : Type} (m : outcome A) (k : A -> outcome B) (b : B) :
  obind m k = Returned b -> exists a, m = Returned a /\ k a = Returned b.
Proof. destruct m; simpl; intros E; try discriminate E. eauto. Qed.

Lemma ASSERT_Returned (b : bool) (u : unit) : ASSERT b = Returned u -> b = true.
Proof. by destruct b. Qed.

Lemma panic_if_Returned (b : bool) (u : unit) :
  panic_if b = Returned u -> b = false.
Proof. by destruct b. Qed.

Lemma defined_Returned {A : Type} (o : option A) (a : A) :
  defined o = Returned a -> o = Some a.
Proof. destruct o; simpl; congruence. Qed.

Ltac outcome_inv :=
  repeat match goal with
    | E : obind _ _ = Returned _ |- _ =>
        let a := fresh "a" in
        let Ea := fresh "E" a in
        apply obind_Returned in E as (a & Ea & E)
    | E : ASSERT _ = Returned _ |- _ => apply ASSERT_Returned in E
    | E : panic_if _ = Returned _ |- _ => apply panic_if_Returned in E
    | E : defined _ = Returned _ |- _ => apply defined_Returned in E
    | E : Returned _ = Returned _ |- _ => injection E as E
    end.

(** ** Machine arithmetic *)

Lemma wrap32_id (z : Z) : INT32_MIN <= z <= INT32_MAX -> wrap32 z = z.
Proof.
  unfold INT32_MIN, INT32_MAX, wrap32. intros Hz.
  rewrite Z.mod_small; lia.
Qed.

(** The quotient plus one when there is a remainder is the quotient rounded
    up. *)
Lemma quot_plus_partial_ceil (a b : Z) :
  0 < a -> 0 < b ->
  a ÷ b + Z.b2z (negb (Z.rem a b =? 0)) = ceil_div a b.
Proof.
  intros Ha Hb. unfold ceil_div.
  rewrite Z.quot_div_nonneg, Z.rem_mod_nonneg by lia.
  pose proof (Z.div_mod a b ltac:(lia)) as Hdm.
  pose proof (Z.mod_pos_bound a b Hb) as Hr.
  destruct (a mod b =? 0) eqn:E; simpl.
  - apply Z.eqb_eq in E.
    apply Z.div_unique with (r := b - 1); lia.
  - apply Z.eqb_neq in E.
    apply Z.div_unique with (r := a mod b - 1); lia.
Qed.

Lemma b2z_range (b : bool) : 0 <= Z.b2z b <= 1.
Proof. destruct b; simpl; lia. Qed.

Lemma ceil_div_pos (a b : Z) : 0 < a -> 0 < b -> 1 <= ceil_div a b.
Proof.
  intros Ha Hb. unfold ceil_div.
  apply Z.div_le_lower_bound; lia.
Qed.

Lemma in_i32_range (z : Z) : in_i32 z = true -> INT32_MIN <= z <= INT32_MAX.
Proof. unfold in_i32. intros E. apply andb_true_iff in E. lia. Qed.

Lemma to_int_range (f : spec_float) (z : Z) :
  F32.to_int f = Some z -> INT32_MIN <= z <= INT32_MAX.
Proof.
  destruct f as [s|s| |s m e]; simpl; try discriminate.
  - intros [= <-]. unfold INT32_MIN, INT32_MAX. lia.
  - destruct (in_i32 _) eqn:E; [|discriminate].
    intros [= <-]. by apply in_i32_range.
Qed.

Lemma forallb_seqZ (f : Z -> bool) (n : Z) :
  forallb f (seqZ 0 n) = true -> forall z, 0 <= z < n -> f z = true.
Proof.
  intros E z Hz. rewrite forallb_forall in E. apply E.
  apply list_elem_of_In, elem_of_seqZ. lia.
Qed.

(** [exp2f] at a level index below 128 is the power of two, exactly. *)
Lemma exp2f_int_exact (L : Z) :
  0 <= L < 128 -> F32.exact_Z (F32.exp2f_int L) = Some (2 ^ L).
Proof.
  intros HL.
  pose proof (forallb_seqZ
    (fun z => bool_decide (F32.exact_Z (F32.exp2f_int z) = Some (2 ^ z)))
    128 ltac:(by vm_compute) L HL) as E.
  by apply bool_decide_eq_true_1 in E.
Qed.

(** ** Pixel buffers *)

(** [memset] inside the block: the bytes of the range become [c], the others
    stay. *)
Lemma memset_spec (buf : list byte) (off : Z) (c : byte) (n : Z) :
  0 <= off -> 0 <= n -> off + n <= Z.of_nat (length buf) ->
  exists buf',
    memset buf off c n = Some buf'
    /\ length buf' = length buf
    /\ forall j, 0 <= j ->
         buf' !! Z.to_nat j
         = if (off <=? j) && (j <? off + n) then Some c
           else buf !! Z.to_nat j.
Proof.
  intros Hoff Hn Hend. unfold memset.
  assert ((0 <=? off) && (0 <=? n) && (off + n <=? Z.of_nat (length buf))
          = true) as ->.
  { rewrite !andb_true_iff, !Z.leb_le. lia. }
  eexists. split; [done|]. split.
  - rewrite !length_app, length_take, length_replicate, length_drop. lia.
  - intros j Hj.
    destruct (Z.leb_spec off j) as [H1|H1]; simpl.
    + destruct (Z.ltb_spec j (off + n)) as [H2|H2]; simpl.
      * rewrite lookup_app_r by (rewrite length_take; lia).
        rewrite lookup_app_l by (rewrite length_take, length_replicate; lia).
        apply lookup_replicate_2. rewrite length_take. lia.
      * rewrite lookup_app_r by (rewrite length_take; lia).
        rewrite lookup_app_r by (rewrite length_take, length_replicate; lia).
        rewrite lookup_drop. f_equal.
        rewrite length_take, length_replicate. lia.
    + rewrite lookup_app_l by (rewrite length_take; lia).
      apply lookup_take_lt. lia.
Qed.


Section properties.
Context {platform : Platform}.
Local Open Scope outcome_scope.

(** ** [load_wsi] *)

Lemma unload_wsi_osr (w : wsi_t) : wsi.osr (unload_wsi w) = None.
Proof. unfold unload_wsi. by destruct (wsi.osr w) eqn:E. Qed.

Lemma unload_wsi_levels (w : wsi_t) :
  wsi.levels (unload_wsi w) = wsi.levels w
  /\ wsi.max_downsample_level (unload_wsi w) = wsi.max_downsample_level w.
Proof. unfold unload_wsi. by destruct (wsi.osr w). Qed.

Lemma parse_mpp_reported (pv : option string) (cur : spec_float) (known : bool) :
  parse_mpp pv cur known
  = (default cur (reported_mpp pv),
     if reported_mpp pv is Some _ then true else known).
Proof.
  unfold parse_mpp, reported_mpp. destruct pv as [s|]; [|done].
  simpl. by destruct (F32.gtb _ _).
Qed.

(** What [load_wsi] leaves in a slide it opened: the handle, the level
    count within bounds, the two resolutions, and the outcome of the level
    loop. *)
Lemma load_wsi_opened (w0 w : wsi_t) (filename : string) (osr : nat) :
  load_wsi w0 filename = Returned w ->
  wsi.osr w = Some osr ->
  let px := reported_mpp
              (openslide_get_property_value openslide osr "openslide.mpp-x") in
  let py := reported_mpp
              (openslide_get_property_value openslide osr "openslide.mpp-y") in
  wsi.level_count w = openslide_get_level_count openslide osr
  /\ wsi.level_count w <= WSI_MAX_LEVELS
  /\ wsi.tile_width w = WSI_TILE_DIM
  /\ wsi.tile_height w = WSI_TILE_DIM
  /\ wsi.mpp_x w = default F32.one px
  /\ wsi.mpp_y w = default F32.one py
  /\ wsi.is_mpp_known w = (if px is Some _ then true else if py is Some _ then true else false)
  /\ load_wsi_levels (Z.to_nat (wsi.level_count w)) osr (wsi.mpp_x w)
       (wsi.mpp_y w) 0 (wsi.levels w0) (wsi.max_downsample_level w0)
     = Returned (wsi.levels w, wsi.max_downsample_level w).
Proof.
  intros E Hosr. unfold load_wsi in E.
  destruct (openslide_open openslide filename) as [h|] eqn:Eopen;
    [|injection E as <-; by rewrite unload_wsi_osr in Hosr].
  destruct (openslide_get_error openslide h) as [err|] eqn:Eerr;
    [injection E as <-; by rewrite unload_wsi_osr in Hosr|].
  destruct (openslide_get_level_count openslide h =? -1) eqn:Ecount;
    [by injection E as <-|].
  destruct (openslide_get_level0_dimensions openslide h) as [width height].
  rewrite !parse_mpp_reported in E.
  outcome_inv. subst w. simpl in *. injection Hosr as ->.
  destruct (unload_wsi_levels w0) as [-> ->] in Ea2.
  destruct a2 as [levels maxdl]. simpl.
  repeat split; try done; [lia|].
  by destruct (reported_mpp _), (reported_mpp _).
Qed.

(** The resolution [load_wsi] records: the property's value where it is
    present and positive, 1.0 where not; the flag is set when either axis
    had one. *)
Lemma load_wsi_mpp (w0 w : wsi_t) (filename : string) (osr : nat) :
  load_wsi w0 filename = Returned w ->
  wsi.osr w = Some osr ->
  let px := reported_mpp
              (openslide_get_property_value openslide osr "openslide.mpp-x") in
  let py := reported_mpp
              (openslide_get_property_value openslide osr "openslide.mpp-y") in
  (px = None -> wsi.mpp_x w = F32.one)
  /\ (py = None -> wsi.mpp_y w = F32.one)
  /\ (forall v, px = Some v -> wsi.mpp_x w = v)
  /\ (forall v, py = Some v -> wsi.mpp_y w = v)
  /\ (wsi.is_mpp_known w = true <-> is_Some px \/ is_Some py).
Proof.
  intros E Hosr px py.
  destruct (load_wsi_opened _ _ _ _ E Hosr)
    as (_ & _ & _ & _ & Hx & Hy & Hknown & _).
  fold px in Hx, Hknown. fold py in Hy, Hknown.
  rewrite Hx, Hy, Hknown. repeat split.
  - by intros ->.
  - by intros ->.
  - by intros v ->.
  - by intros v ->.
  - destruct px, py; eauto; discriminate.
  - intros [[v Hv]|[v Hv]]; rewrite Hv; [done|by destruct px].
Qed.

(** A native level that [load_wsi_level] produced: its fields in terms of
    what OpenSlide reported. *)
Lemma load_wsi_level_fields (osr : nat) (mpp_x mpp_y : spec_float) (i : Z)
    (lvl : wsi_level_t) :
  load_wsi_level osr mpp_x mpp_y i = Returned lvl ->
  let width := (openslide_get_level_dimensions openslide osr i).1 in
  let height := (openslide_get_level_dimensions openslide osr i).2 in
  0 < width /\ 0 < height
  /\ wsi_level.width lvl = width /\ wsi_level.height lvl = height
  /\ wsi_level.width_in_tiles lvl
     = wrap32 (wrap32 (width ÷ WSI_TILE_DIM)
               + Z.b2z (negb (Z.rem width WSI_TILE_DIM =? 0)))
  /\ wsi_level.height_in_tiles lvl
     = wrap32 (wrap32 (height ÷ WSI_TILE_DIM)
               + Z.b2z (negb (Z.rem height WSI_TILE_DIM =? 0)))
  /\ wsi_level.tile_count lvl
     = wrap32 (wsi_level.width_in_tiles lvl * wsi_level.height_in_tiles lvl)
  /\ wsi_level.tile_width lvl = WSI_TILE_DIM
  /\ wsi_level.tile_height lvl = WSI_TILE_DIM
  /\ wsi_level.downsample_factor lvl
     = F32.exp2f_int (wsi_level.downsample_level lvl)
  /\ wsi_level.downsample_level lvl <= INT32_MAX.
Proof.
  unfold load_wsi_level.
  destruct (openslide_get_level_dimensions openslide osr i)
    as [width height]. simpl.
  intros E. outcome_inv. subst lvl. simpl.
  apply Z.ltb_lt in Ea, Ea0. apply to_int_range in Ea1.
  repeat split; try done; lia.
Qed.

(** Without wrap-around the grid of a native level is the rounded-up
    quotient of its pixel dimensions by the tile size, and the tile count
    the product. *)
Lemma load_wsi_level_grid (osr : nat) (mpp_x mpp_y : spec_float) (i : Z)
    (lvl : wsi_level_t) :
  0 < WSI_TILE_DIM ->
  load_wsi_level osr mpp_x mpp_y i = Returned lvl ->
  tile_grid_fits_i32 (openslide_get_level_dimensions openslide osr i).1
                     (openslide_get_level_dimensions openslide osr i).2 ->
  wsi_level.width_in_tiles lvl
  = ceil_div (openslide_get_level_dimensions openslide osr i).1 WSI_TILE_DIM
  /\ wsi_level.height_in_tiles lvl
     = ceil_div (openslide_get_level_dimensions openslide osr i).2
                WSI_TILE_DIM
  /\ wsi_level.tile_count lvl
     = wsi_level.width_in_tiles lvl * wsi_level.height_in_tiles lvl.
Proof.
  intros Hdim E Hfits.
  destruct (load_wsi_level_fields _ _ _ _ _ E)
    as (Hw & Hh & _ & _ & Ewt & Eht & Etc & _).
  set (width := (openslide_get_level_dimensions openslide osr i).1) in *.
  set (height := (openslide_get_level_dimensions openslide osr i).2) in *.
  unfold tile_grid_fits_i32 in Hfits.
  pose proof (ceil_div_pos width WSI_TILE_DIM Hw Hdim) as Hcw.
  pose proof (ceil_div_pos height WSI_TILE_DIM Hh Hdim) as Hch.
  pose proof (quot_plus_partial_ceil width WSI_TILE_DIM Hw Hdim) as Qw.
  pose proof (quot_plus_partial_ceil height WSI_TILE_DIM Hh Hdim) as Qh.
  assert (0 <= width ÷ WSI_TILE_DIM) by (apply Z.quot_pos; lia).
  assert (0 <= height ÷ WSI_TILE_DIM) by (apply Z.quot_pos; lia).
  pose proof (b2z_range (negb (Z.rem width WSI_TILE_DIM =? 0))).
  pose proof (b2z_range (negb (Z.rem height WSI_TILE_DIM =? 0))).
  assert (ceil_div width WSI_TILE_DIM <= INT32_MAX
          /\ ceil_div height WSI_TILE_DIM <= INT32_MAX) as [Bw Bh] by nia.
  unfold INT32_MAX in *.
  rewrite (wrap32_id (width ÷ WSI_TILE_DIM)) in Ewt
    by (unfold INT32_MIN, INT32_MAX; lia).
  rewrite (wrap32_id (height ÷ WSI_TILE_DIM)) in Eht
    by (unfold INT32_MIN, INT32_MAX; lia).
  rewrite Qw, wrap32_id in Ewt by (unfold INT32_MIN, INT32_MAX; lia).
  rewrite Qh, wrap32_id in Eht by (unfold INT32_MIN, INT32_MAX; lia).
  rewrite Etc, Ewt, Eht.
  repeat split; try done.
  apply wrap32_id. unfold INT32_MIN, INT32_MAX. nia.
Qed.

(** The level loop fills slots [i .. i+n) with the results of
    [load_wsi_level] and leaves the slots below untouched. *)
Lemma load_wsi_levels_spec (n : nat) (osr : nat) (mpp_x mpp_y : spec_float) :
  forall (i : Z) (levels : list wsi_level_t) (maxdl : Z)
         (levels' : list wsi_level_t) (maxdl' : Z),
  load_wsi_levels n osr mpp_x mpp_y i levels maxdl
  = Returned (levels', maxdl') ->
  0 <= i ->
  (Z.to_nat i + n <= length levels)%nat ->
  length levels' = length levels
  /\ maxdl <= maxdl'
  /\ (maxdl <= INT32_MAX -> maxdl' <= INT32_MAX)
  /\ (forall j, 0 <= j < i -> levels' !! Z.to_nat j = levels !! Z.to_nat j)
  /\ (forall j, i <= j < i + Z.of_nat n ->
        exists lvl, levels' !! Z.to_nat j = Some lvl
                    /\ load_wsi_level osr mpp_x mpp_y j = Returned lvl).
Proof.
  induction n as [|n IH]; intros i levels maxdl levels' maxdl' E Hi Hlen.
  - simpl in E. injection E as <- <-. repeat split; try done; try lia.
  - simpl in E. outcome_inv.
    apply IH in E; [|lia|rewrite length_insert; lia].
    destruct E as (Hl & Hm & Hmax & Hlow & Hnew).
    rewrite length_insert in Hl.
    split; [done|]. split; [lia|]. split; [|split].
    + intros Hb. apply Hmax.
      destruct (load_wsi_level_fields _ _ _ _ _ Ea)
        as (_ & _ & _ & _ & _ & _ & _ & _ & _ & _ & Hdl). lia.
    + intros j Hj. rewrite Hlow by lia.
      apply list_lookup_insert_ne. lia.
    + intros j Hj.
      destruct (decide (j = i)) as [->|Hne].
      * exists a. split; [|done].
        rewrite Hlow by lia.
        apply list_lookup_insert_eq. lia.
      * apply Hnew. lia.
Qed.

(** ** The pyramid level mapper *)

Lemma find_wsi_level_Some (n : nat) (levels : list wsi_level_t) (wanted : Z) :
  forall (start idx : Z) (lvl : wsi_level_t),
  find_wsi_level n levels wanted start = Some (idx, lvl) ->
  start <= idx < start + Z.of_nat n
  /\ lvl = levels !!! Z.to_nat idx
  /\ wsi_level.downsample_level lvl = wanted.
Proof.
  induction n as [|n IH]; intros start idx lvl E; simpl in E; [done|].
  destruct (_ =? wanted) eqn:Ematch.
  - injection E as <- <-. apply Z.eqb_eq in Ematch.
    repeat split; try done; lia.
  - apply IH in E. destruct E as (Hr & -> & Hd).
    repeat split; try done; lia.
Qed.

(** The tile loop writes slots [k .. k+n) and nothing below. *)
Lemma init_tiles_spec (n : nat) (width_in_tiles : Z) :
  forall (k : Z) (tiles : list tile_t),
  0 <= k ->
  (Z.to_nat k + n <= length tiles)%nat ->
  length (init_tiles n k width_in_tiles tiles) = length tiles
  /\ (forall j, 0 <= j < k ->
        init_tiles n k width_in_tiles tiles !! Z.to_nat j
        = tiles !! Z.to_nat j)
  /\ (forall j, k <= j < k + Z.of_nat n ->
        exists t, init_tiles n k width_in_tiles tiles !! Z.to_nat j = Some t
                  /\ tile.tile_index t = j
                  /\ tile.tile_x t = Z.rem j width_in_tiles
                  /\ tile.tile_y t = j ÷ width_in_tiles).
Proof.
  induction n as [|n IH]; intros k tiles Hk Hlen; simpl.
  - repeat split; try done. intros j Hj. lia.
  - set (t := tile.mk _ _ _ _ _ _).
    destruct (IH (k + 1) (<[Z.to_nat k := t]> tiles)) as (Hl & Hlow & Hnew);
      [lia|rewrite length_insert; lia|].
    rewrite length_insert in Hl.
    split; [done|]. split.
    + intros j Hj. rewrite Hlow by lia.
      apply list_lookup_insert_ne. lia.
    + intros j Hj. destruct (decide (j = k)) as [->|Hne].
      * exists t. rewrite Hlow by lia.
        split; [apply list_lookup_insert_eq; lia|done].
      * apply Hnew. lia.
Qed.

Lemma level_image_from_wsi_level_fields (idx : Z) (lvl : wsi_level_t)
    (li : level_image_t) :
  level_image_from_wsi_level idx lvl = Returned li ->
  level_image.exists_ li = true
  /\ level_image.pyramid_image_index li = idx
  /\ 0 < level_image.width_in_tiles li
  /\ level_image.downsample_factor li = wsi_level.downsample_factor lvl
  /\ level_image.tile_count li = wsi_level.tile_count lvl
  /\ level_image.width_in_tiles li = wsi_level.width_in_tiles lvl
  /\ level_image.height_in_tiles li = wsi_level.height_in_tiles lvl
  /\ level_image.tile_width li = wsi_level.tile_width lvl
  /\ level_image.tile_height li = wsi_level.tile_height lvl
  /\ level_image.tiles li
     = init_tiles (Z.to_nat (wsi_level.tile_count lvl)) 0
         (wsi_level.width_in_tiles lvl)
         (replicate (Z.to_nat (wsi_level.tile_count lvl)) tile.zero).
Proof.
  unfold level_image_from_wsi_level. intros E. outcome_inv. subst li. simpl.
  apply Z.ltb_lt in Ea. done.
Qed.

Lemma mapped_level_weaken (w : wsi_t) (next next' L : Z) (li : level_image_t) :
  next <= next' -> mapped_level w next' L li -> mapped_level w next L li.
Proof.
  intros Hle [->|(idx & Hidx & Hd & E)]; [by left|right].
  exists idx. split; [lia|done].
Qed.

Lemma mapped_level_index (w : wsi_t) (next L : Z) (li : level_image_t) :
  mapped_level w next L li ->
  level_image.exists_ li = true ->
  next <= level_image.pyramid_image_index li < wsi.level_count w.
Proof.
  intros [->|(idx & Hidx & Hd & E)] Hex; [done|].
  apply level_image_from_wsi_level_fields in E as (_ & -> & _). done.
Qed.

(** The outer loop: every logical level in [d .. d+n) is filled as
    [mapped_level] says, levels below [d] are untouched, and the native
    indices of the levels that exist increase strictly with the logical
    level. *)
Lemma map_levels_spec (n : nat) (w : wsi_t) :
  forall (d next : Z) (imgs imgs' : list level_image_t),
  map_levels n w d next imgs = Returned imgs' ->
  0 <= d ->
  (Z.to_nat d + n <= length imgs)%nat ->
  length imgs' = length imgs
  /\ (forall L, 0 <= L < d -> imgs' !! Z.to_nat L = imgs !! Z.to_nat L)
  /\ (forall L, d <= L < d + Z.of_nat n ->
        exists li, imgs' !! Z.to_nat L = Some li /\ mapped_level w next L li)
  /\ (forall L1 L2 li1 li2,
        d <= L1 -> L1 < L2 -> L2 < d + Z.of_nat n ->
        imgs' !! Z.to_nat L1 = Some li1 ->
        imgs' !! Z.to_nat L2 = Some li2 ->
        level_image.exists_ li1 = true ->
        level_image.exists_ li2 = true ->
        level_image.pyramid_image_index li1
        < level_image.pyramid_image_index li2).
Proof.
  induction n as [|n IH]; intros d next imgs imgs' E Hd Hlen.
  { simpl in E. injection E as <-. repeat split; try done; intros; lia. }
  simpl in E.
  destruct (find_wsi_level _ _ _ _) as [[idx lvl]|] eqn:Efind.
  - apply find_wsi_level_Some in Efind as (Hidx & -> & Hlvl).
    outcome_inv. rename a into li.
    apply IH in E; [|lia|rewrite length_insert; lia].
    destruct E as (Hl & Hlow & Hnew & Hord).
    rewrite length_insert in Hl.
    assert (imgs' !! Z.to_nat d = Some li) as Hd_li.
    { rewrite Hlow by lia. apply list_lookup_insert_eq. lia. }
    assert (mapped_level w next d li) as Hmd.
    { right. exists idx. split; [lia|done]. }
    split; [done|]. split; [|split].
    + intros L HL. rewrite Hlow by lia. apply list_lookup_insert_ne. lia.
    + intros L HL. destruct (decide (L = d)) as [->|Hne]; [by exists li|].
      destruct (Hnew L) as (li' & Hli' & Hm); [lia|].
      exists li'. split; [done|].
      apply mapped_level_weaken with (next' := idx + 1); [lia|done].
    + intros L1 L2 li1 li2 H1 H12 H2 E1 E2 X1 X2.
      destruct (decide (L1 = d)) as [->|Hne]; [|by eapply (Hord L1 L2); eauto; lia].
      rewrite Hd_li in E1. injection E1 as <-.
      destruct (Hnew L2) as (li' & Hli' & Hm); [lia|].
      rewrite E2 in Hli'. injection Hli' as <-.
      apply mapped_level_index in Hm; [|done].
      apply level_image_from_wsi_level_fields in Ea as (_ & -> & _). lia.
  - set (li := placeholder_level_image _ _ _ _ _ _) in E.
    apply IH in E; [|lia|rewrite length_insert; lia].
    destruct E as (Hl & Hlow & Hnew & Hord).
    rewrite length_insert in Hl.
    assert (imgs' !! Z.to_nat d = Some li) as Hd_li.
    { rewrite Hlow by lia. apply list_lookup_insert_eq. lia. }
    split; [done|]. split; [|split].
    + intros L HL. rewrite Hlow by lia. apply list_lookup_insert_ne. lia.
    + intros L HL. destruct (decide (L = d)) as [->|Hne].
      * exists li. split; [done|by left].
      * apply Hnew. lia.
    + intros L1 L2 li1 li2 H1 H12 H2 E1 E2 X1 X2.
      destruct (decide (L1 = d)) as [->|Hne]; [|by eapply (Hord L1 L2); eauto; lia].
      rewrite Hd_li in E1. injection E1 as <-. done.
Qed.

(** ** [load_image_from_file] through OpenSlide *)

Lemma wrap32_succ_pos (m : Z) :
  0 <= m <= INT32_MAX -> 0 < wrap32 (m + 1) -> wrap32 (m + 1) = m + 1.
Proof.
  intros Hm Hpos. destruct (decide (m = INT32_MAX)) as [->|Hne].
  - vm_compute in Hpos. discriminate.
  - apply wrap32_id. unfold INT32_MIN, INT32_MAX in *. lia.
Qed.

(** A slide opened into the zeroed struct: every native level below the
    level count is a result of [load_wsi_level]. *)
Lemma load_wsi_fresh (filename : string) (w : wsi_t) (osr : nat) :
  load_wsi zero_wsi filename = Returned w ->
  wsi.osr w = Some osr ->
  0 <= wsi.max_downsample_level w <= INT32_MAX
  /\ wsi.level_count w <= WSI_MAX_LEVELS
  /\ (forall i, 0 <= i < wsi.level_count w ->
        exists lvl, wsi.levels w !! Z.to_nat i = Some lvl
                    /\ load_wsi_level osr (wsi.mpp_x w) (wsi.mpp_y w) i
                       = Returned lvl).
Proof.
  intros E Hosr.
  destruct (load_wsi_opened _ _ _ _ E Hosr)
    as (_ & Hcount & _ & _ & _ & _ & _ & Hlevels).
  apply load_wsi_levels_spec in Hlevels; [|lia|].
  - destruct Hlevels as (_ & Hmin & Hmax & _ & Hnew). simpl in *.
    split; [split; [done|apply Hmax; by vm_compute]|].
    split; [done|]. intros i Hi. apply Hnew. lia.
  - simpl. rewrite length_replicate. lia.
Qed.

(** What [load_image_with_openslide] returns when it built a level stack. *)
Lemma load_image_with_openslide_opened (rid : Z) (filename : string)
    (img : image_t) :
  load_image_with_openslide (fresh_image rid) filename = Returned img ->
  0 < image.level_count img ->
  exists osr,
    load_wsi zero_wsi filename = Returned (image.wsi img)
    /\ wsi.osr (image.wsi img) = Some osr
    /\ image.is_valid img = true
    /\ image.level_count img = wsi.max_downsample_level (image.wsi img) + 1
    /\ wsi.level_count (image.wsi img) <= image.level_count img
    /\ image.level_count img <= WSI_MAX_LEVELS
    /\ image.tile_width img = wsi.tile_width (image.wsi img)
    /\ image.tile_height img = wsi.tile_height (image.wsi img)
    /\ image.mpp_x img = wsi.mpp_x (image.wsi img)
    /\ image.mpp_y img = wsi.mpp_y (image.wsi img)
    /\ map_levels (Z.to_nat (image.level_count img)) (image.wsi img) 0 0
         (replicate (Z.to_nat WSI_MAX_LEVELS) level_image.zero)
       = Returned (image.level_images img).
Proof.
  unfold load_image_with_openslide. intros E Hpos.
  apply obind_Returned in E as (w & Ew & E). simpl in Ew.
  destruct (wsi.osr w) as [osr|] eqn:Hosr;
    [|injection E as <-; simpl in Hpos; lia].
  apply obind_Returned in E as (u & _ & E).
  apply obind_Returned in E as (r & Er & E).
  apply obind_Returned in E as (u' & Hr & E).
  injection E as <-. simpl in *.
  destruct (_ && _); [|injection Er as <-; simpl in *; lia].
  outcome_inv. subst r. simpl in *.
  destruct (load_wsi_fresh _ _ _ Ew Hosr) as (Hmax & _ & _).
  rewrite (wrap32_succ_pos _ Hmax Hpos) in *.
  exists osr. repeat split; try done; lia.
Qed.

Lemma load_image_from_file_opened (tiff_builtin available : bool) (rid : Z)
    (file_type : viewer_file_type_enum) (filename : string) (img : image_t) :
  uses_other_backend tiff_builtin file_type = false ->
  load_image_from_file tiff_builtin available rid file_type filename
  = Returned img ->
  0 < image.level_count img ->
  load_image_with_openslide (fresh_image rid) filename = Returned img.
Proof.
  unfold load_image_from_file. intros -> E Hpos.
  destruct available; simpl in E; [done|].
  injection E as <-. simpl in Hpos. lia.
Qed.

(** What [load_image_with_openslide] copies from the slide into a valid
    image. *)
Lemma load_image_with_openslide_valid (rid : Z) (filename : string)
    (img : image_t) :
  load_image_with_openslide (fresh_image rid) filename = Returned img ->
  image.is_valid img = true ->
  exists osr,
    load_wsi zero_wsi filename = Returned (image.wsi img)
    /\ wsi.osr (image.wsi img) = Some osr
    /\ image.mpp_x img = wsi.mpp_x (image.wsi img)
    /\ image.mpp_y img = wsi.mpp_y (image.wsi img)
    /\ image.is_mpp_known img = wsi.is_mpp_known (image.wsi img)
    /\ image.width_in_um img
       = F32.mul (F32.of_Z (image.width_in_pixels img)) (image.mpp_x img)
    /\ image.height_in_um img
       = F32.mul (F32.of_Z (image.height_in_pixels img)) (image.mpp_y img).
Proof.
  unfold load_image_with_openslide. intros E Hvalid.
  apply obind_Returned in E as (w & Ew & E). simpl in Ew.
  destruct (wsi.osr w) as [osr|] eqn:Hosr;
    [|injection E as <-; simpl in Hvalid; discriminate].
  apply obind_Returned in E as (u & _ & E).
  apply obind_Returned in E as (r & _ & E).
  apply obind_Returned in E as (u' & _ & E).
  injection E as <-. simpl. by exists osr.
Qed.

Lemma load_image_from_file_valid (tiff_builtin available : bool) (rid : Z)
    (file_type : viewer_file_type_enum) (filename : string) (img : image_t) :
  uses_other_backend tiff_builtin file_type = false ->
  load_image_from_file tiff_builtin available rid file_type filename
  = Returned img ->
  image.is_valid img = true ->
  load_image_with_openslide (fresh_image rid) filename = Returned img.
Proof.
  unfold load_image_from_file. intros -> E Hvalid.
  destruct available; simpl in E; [done|].
  injection E as <-. simpl in Hvalid. discriminate.
Qed.

(** C10: an image opened through OpenSlide takes each axis's microns per
    pixel from the [openslide.mpp-x] / [openslide.mpp-y] property when that
    is present and parses to a positive float, and is given 1.0 otherwise;
    [is_mpp_known] is true exactly when at least one of the two axes yielded
    a positive value.  The physical size of each axis is its pixel count
    times that axis's value, so it is computed from the 1.0 default on an
    axis without one, whether or not the flag is set. *)
Theorem openslide_mpp_default (tiff_builtin available : bool) (rid : Z)
    (file_type : viewer_file_type_enum) (filename : string) (img : image_t) :
  uses_other_backend tiff_builtin file_type = false ->
  load_image_from_file tiff_builtin available rid file_type filename
  = Returned img ->
  image.is_valid img = true ->
  exists osr,
    wsi.osr (image.wsi img) = Some osr
    /\ let px := reported_mpp
                   (openslide_get_property_value openslide osr
                      "openslide.mpp-x") in
       let py := reported_mpp
                   (openslide_get_property_value openslide osr
                      "openslide.mpp-y") in
       (px = None -> image.mpp_x img = F32.one)
       /\ (py = None -> image.mpp_y img = F32.one)
       /\ (forall v, px = Some v -> image.mpp_x img = v)
       /\ (forall v, py = Some v -> image.mpp_y img = v)
       /\ (image.is_mpp_known img = true <-> is_Some px \/ is_Some py)
       /\ image.width_in_um img
          = F32.mul (F32.of_Z (image.width_in_pixels img)) (image.mpp_x img)
       /\ image.height_in_um img
          = F32.mul (F32.of_Z (image.height_in_pixels img)) (image.mpp_y img).
Proof.
  intros Hother E Hvalid.
  pose proof (load_image_from_file_valid _ _ _ _ _ _ Hother E Hvalid) as E'.
  destruct (load_image_with_openslide_valid _ _ _ E' Hvalid)
    as (osr & Ew & Hosr & -> & -> & -> & Hwidth & Hheight).
  exists osr. split; [done|].
  destruct (load_wsi_mpp _ _ _ _ Ew Hosr) as (Hx & Hy & Hx' & Hy' & Hknown).
  repeat split; try done; apply Hknown.
Qed.

(** The level stack of an image opened through OpenSlide, level by
    level. *)
Lemma opened_image_levels (tiff_builtin available : bool) (rid : Z)
    (file_type : viewer_file_type_enum) (filename : string) (img : image_t) :
  uses_other_backend tiff_builtin file_type = false ->
  load_image_from_file tiff_builtin available rid file_type filename
  = Returned img ->
  (forall L, 0 <= L < image.level_count img ->
     exists li, image.level_images img !! Z.to_nat L = Some li
                /\ mapped_level (image.wsi img) 0 L li)
  /\ (forall L1 L2 li1 li2,
        0 <= L1 -> L1 < L2 -> L2 < image.level_count img ->
        image.level_images img !! Z.to_nat L1 = Some li1 ->
        image.level_images img !! Z.to_nat L2 = Some li2 ->
        level_image.exists_ li1 = true ->
        level_image.exists_ li2 = true ->
        level_image.pyramid_image_index li1
        < level_image.pyramid_image_index li2).
Proof.
  intros Hother E.
  destruct (decide (0 < image.level_count img)) as [Hpos|Hnone];
    [|split; intros; lia].
  pose proof (load_image_from_file_opened _ _ _ _ _ _ Hother E Hpos) as E'.
  destruct (load_image_with_openslide_opened _ _ _ E' Hpos)
    as (osr & _ & _ & _ & _ & _ & Hmaxl & _ & _ & _ & _ & Hmap).
  apply map_levels_spec in Hmap; [|lia|rewrite length_replicate; lia].
  destruct Hmap as (_ & _ & Hnew & Hord).
  split.
  - intros L HL. apply Hnew. lia.
  - intros L1 L2 li1 li2 H1 H12 H2. apply Hord; lia.
Qed.

(** The native level behind a logical level that exists. *)
Lemma mapped_level_native (filename : string) (w : wsi_t) (osr : nat)
    (L : Z) (li : level_image_t) :
  load_wsi zero_wsi filename = Returned w ->
  wsi.osr w = Some osr ->
  mapped_level w 0 L li ->
  level_image.exists_ li = true ->
  exists lvl,
    load_wsi_level osr (wsi.mpp_x w) (wsi.mpp_y w)
      (level_image.pyramid_image_index li) = Returned lvl
    /\ wsi_level.downsample_level lvl = L
    /\ level_image_from_wsi_level (level_image.pyramid_image_index li) lvl
       = Returned li.
Proof.
  intros Ew Hosr [->|(idx & Hidx & Hd & E)] Hex; [done|].
  destruct (load_wsi_fresh _ _ _ Ew Hosr) as (_ & _ & Hlevels).
  destruct (Hlevels idx Hidx) as (lvl & Hlvl & Elvl).
  apply list_lookup_total_correct in Hlvl. rewrite Hlvl in Hd, E.
  pose proof (level_image_from_wsi_level_fields _ _ _ E) as (_ & -> & _).
  by exists lvl.
Qed.

(** C3, as the code has it: when OpenSlide reports more native levels
    than the logical ladder has ([max_downsample_level + 1]), opening the
    image stops in [panic()], a fatal stop of the call path and not a
    failed open handed back to the caller: no image, valid or not, is
    returned.  (The assertion on the
    tile side of level 0 stands before the check; if it is the one that
    fails, the call stops there.) *)
Theorem too_many_native_levels_abort (tiff_builtin : bool) (rid : Z)
    (file_type : viewer_file_type_enum) (filename : string)
    (w : wsi_t) (osr : nat) :
  uses_other_backend tiff_builtin file_type = false ->
  load_wsi zero_wsi filename = Returned w ->
  wsi.osr w = Some osr ->
  wrap32 (wsi.max_downsample_level w + 1) < wsi.level_count w ->
  load_image_from_file tiff_builtin true rid file_type filename
  = (if F32.gtb (wsi_level.x_tile_side_in_um (wsi.levels w !!! 0%nat)) F32.zero
     then Panicked else AssertionFailed)
  /\ forall img,
       load_image_from_file tiff_builtin true rid file_type filename
       <> Returned img.
Proof.
  intros Hother Ew Hosr Hmore.
  assert (load_image_from_file tiff_builtin true rid file_type filename
          = (if F32.gtb (wsi_level.x_tile_side_in_um (wsi.levels w !!! 0%nat))
                        F32.zero
             then Panicked else AssertionFailed)) as ->.
  { unfold load_image_from_file. rewrite Hother. simpl.
    unfold load_image_with_openslide. simpl. rewrite Ew. simpl.
    rewrite Hosr.
    destruct (F32.gtb _ _); simpl; [|done].
    destruct (load_wsi_fresh _ _ _ Ew Hosr) as (Hmax & _ & _).
    assert (0 < wsi.level_count w) as Hcount.
    { destruct (decide (0 < wsi.level_count w)) as [|Hle]; [done|].
      destruct (load_wsi_opened _ _ _ _ Ew Hosr)
        as (_ & _ & _ & _ & _ & _ & _ & Hlevels).
      replace (Z.to_nat (wsi.level_count w)) with 0%nat in Hlevels by lia.
      simpl in Hlevels. injection Hlevels as _ Hzero.
      rewrite <- Hzero in Hmore.
      change (wrap32 (0 + 1)) with 1 in Hmore. lia. }
    apply Z.ltb_lt in Hcount as ->. simpl.
    destruct Hmax as [Hmax _]. apply Z.leb_le in Hmax as ->. simpl.
    apply Z.ltb_lt in Hmore as ->. done. }
  split; [done|]. intros img. by destruct (F32.gtb _ _).
Qed.

(** C4, as the code has it: in an image opened through OpenSlide every
    logical level, placeholder or not, has [tile_count = width_in_tiles *
    height_in_tiles]; for a level that exists the two factors are the
    pixel dimensions of its native level divided by the tile size, rounded
    up, and a placeholder has the empty grid of the zeroed struct.  The
    tile counts are [i32]: the statement is for native levels whose grid
    fits one. *)
Theorem tile_count_is_grid_product (tiff_builtin available : bool) (rid : Z)
    (file_type : viewer_file_type_enum) (filename : string) (img : image_t) :
  0 < WSI_TILE_DIM ->
  uses_other_backend tiff_builtin file_type = false ->
  load_image_from_file tiff_builtin available rid file_type filename
  = Returned img ->
  (forall osr i,
     wsi.osr (image.wsi img) = Some osr ->
     0 <= i < wsi.level_count (image.wsi img) ->
     tile_grid_fits_i32 (openslide_get_level_dimensions openslide osr i).1
                        (openslide_get_level_dimensions openslide osr i).2) ->
  forall L, 0 <= L < image.level_count img ->
  exists li,
    image.level_images img !! Z.to_nat L = Some li
    /\ level_image.tile_count li
       = level_image.width_in_tiles li * level_image.height_in_tiles li
    /\ (level_image.exists_ li = true ->
        forall osr, wsi.osr (image.wsi img) = Some osr ->
        level_image.width_in_tiles li
        = ceil_div (openslide_get_level_dimensions openslide osr
                      (level_image.pyramid_image_index li)).1
                   (level_image.tile_width li)
        /\ level_image.height_in_tiles li
           = ceil_div (openslide_get_level_dimensions openslide osr
                         (level_image.pyramid_image_index li)).2
                      (level_image.tile_height li))
    /\ (level_image.exists_ li = false ->
        level_image.width_in_tiles li = 0
        /\ level_image.height_in_tiles li = 0).
Proof.
  intros Hdim Hother E Hfits L HL.
  destruct (opened_image_levels _ _ _ _ _ _ Hother E) as [Hlevels _].
  destruct (Hlevels L HL) as (li & Hli & Hm).
  exists li. split; [done|].
  destruct (level_image.exists_ li) eqn:Hex.
  - pose proof (load_image_from_file_opened _ _ _ _ _ _ Hother E
                  ltac:(lia)) as E'.
    destruct (load_image_with_openslide_opened _ _ _ E' ltac:(lia))
      as (osr & Ew & Hosr & _).
    destruct (mapped_level_native _ _ _ _ _ Ew Hosr Hm Hex)
      as (lvl & Elvl & _ & Eli).
    pose proof (mapped_level_index _ _ _ _ Hm Hex) as Hidx.
    destruct (load_wsi_level_grid _ _ _ _ _ Hdim Elvl
                (Hfits _ _ Hosr Hidx)) as (Gw & Gh & Gc).
    destruct (load_wsi_level_fields _ _ _ _ _ Elvl)
      as (_ & _ & _ & _ & _ & _ & _ & Tw & Th & _).
    destruct (level_image_from_wsi_level_fields _ _ _ Eli)
      as (_ & _ & _ & _ & -> & -> & -> & -> & -> & _).
    split; [done|]. split; [|done].
    intros _ osr' Hosr'. rewrite Hosr in Hosr'. injection Hosr' as <-.
    by rewrite Tw, Th.
  - destruct Hm as [->|(idx & _ & _ & Eli)].
    + simpl. repeat split; done.
    + apply level_image_from_wsi_level_fields in Eli as (Hex' & _).
      congruence.
Qed.

(** C5: the mapper never gives one native level to two logical levels.
    Each scan starts after the last native index matched, so along the
    logical levels that exist the native indices increase strictly. *)
Theorem native_level_used_once (tiff_builtin available : bool) (rid : Z)
    (file_type : viewer_file_type_enum) (filename : string) (img : image_t) :
  uses_other_backend tiff_builtin file_type = false ->
  load_image_from_file tiff_builtin available rid file_type filename
  = Returned img ->
  forall L1 L2 li1 li2,
  0 <= L1 < image.level_count img ->
  0 <= L2 < image.level_count img ->
  image.level_images img !! Z.to_nat L1 = Some li1 ->
  image.level_images img !! Z.to_nat L2 = Some li2 ->
  level_image.exists_ li1 = true ->
  level_image.exists_ li2 = true ->
  (L1 < L2 ->
   level_image.pyramid_image_index li1 < level_image.pyramid_image_index li2)
  /\ (L1 <> L2 ->
      level_image.pyramid_image_index li1
      <> level_image.pyramid_image_index li2).
Proof.
  intros Hother E L1 L2 li1 li2 H1 H2 E1 E2 X1 X2.
  destruct (opened_image_levels _ _ _ _ _ _ Hother E) as [_ Hord].
  split.
  - intros Hlt. eapply (Hord L1 L2); eauto; lia.
  - intros Hne. destruct (decide (L1 < L2)) as [Hlt|Hge].
    + pose proof (Hord L1 L2 li1 li2 ltac:(lia) Hlt ltac:(lia) E1 E2 X1 X2).
      lia.
    + pose proof (Hord L2 L1 li2 li1 ltac:(lia) ltac:(lia) ltac:(lia)
                    E2 E1 X2 X1).
      lia.
Qed.

(** C6: the level stack of an image opened through OpenSlide is dense:
    it has [max_downsample_level + 1] levels, and the level at index [L]
    has downsample factor [exp2f(L)], which is 2^L exactly.  A level no
    native level matched is a placeholder: [exists] is false, the tile
    size is the image's, and the microns per pixel are the image's times
    2^L (a float product). *)
Theorem level_stack_dense_powers_of_two (tiff_builtin available : bool)
    (rid : Z) (file_type : viewer_file_type_enum) (filename : string)
    (img : image_t) :
  WSI_MAX_LEVELS <= 128 ->
  uses_other_backend tiff_builtin file_type = false ->
  load_image_from_file tiff_builtin available rid file_type filename
  = Returned img ->
  (0 < image.level_count img ->
   image.level_count img
   = wsi.max_downsample_level (image.wsi img) + 1)
  /\ forall L, 0 <= L < image.level_count img ->
     exists li,
       image.level_images img !! Z.to_nat L = Some li
       /\ level_image.downsample_factor li = F32.exp2f_int L
       /\ F32.exact_Z (level_image.downsample_factor li) = Some (2 ^ L)
       /\ (level_image.exists_ li = false ->
           level_image.tile_width li = image.tile_width img
           /\ level_image.tile_height li = image.tile_height img
           /\ level_image.um_per_pixel_x li
              = F32.mul (image.mpp_x img) (F32.exp2f_int L)
           /\ level_image.um_per_pixel_y li
              = F32.mul (image.mpp_y img) (F32.exp2f_int L)).
Proof.
  intros Hmaxl Hother E. split.
  { intros Hpos.
    pose proof (load_image_from_file_opened _ _ _ _ _ _ Hother E Hpos) as E'.
    by destruct (load_image_with_openslide_opened _ _ _ E' Hpos)
      as (osr & _ & _ & _ & -> & _). }
  intros L HL.
  destruct (opened_image_levels _ _ _ _ _ _ Hother E) as [Hlevels _].
  destruct (Hlevels L HL) as (li & Hli & Hm).
  pose proof (load_image_from_file_opened _ _ _ _ _ _ Hother E
                ltac:(lia)) as E'.
  destruct (load_image_with_openslide_opened _ _ _ E' ltac:(lia))
    as (osr & Ew & Hosr & _ & _ & _ & Hcap & Tw & Th & Mx & My & _).
  assert (level_image.downsample_factor li = F32.exp2f_int L) as Hf.
  { destruct (level_image.exists_ li) eqn:Hex.
    - destruct (mapped_level_native _ _ _ _ _ Ew Hosr Hm Hex)
        as (lvl & Elvl & Hd & Eli).
      destruct (load_wsi_level_fields _ _ _ _ _ Elvl)
        as (_ & _ & _ & _ & _ & _ & _ & _ & _ & Hdf & _).
      destruct (level_image_from_wsi_level_fields _ _ _ Eli)
        as (_ & _ & _ & -> & _).
      by rewrite Hdf, Hd.
    - destruct Hm as [->|(idx & _ & _ & Eli)]; [done|].
      apply level_image_from_wsi_level_fields in Eli as (Hex' & _).
      congruence. }
  exists li. split; [done|]. split; [done|]. split.
  - rewrite Hf. apply exp2f_int_exact. lia.
  - intros Hex. destruct Hm as [->|(idx & _ & _ & Eli)].
    + simpl. by rewrite Tw, Th, Mx, My.
    + apply level_image_from_wsi_level_fields in Eli as (Hex' & _).
      congruence.
Qed.

(** C9: every tile slot of a level that exists names itself: slot [i]
    holds [tile_index = i], [tile_x = i mod width_in_tiles] and
    [tile_y = i / width_in_tiles]. *)
Theorem tiles_self_consistent (tiff_builtin available : bool) (rid : Z)
    (file_type : viewer_file_type_enum) (filename : string) (img : image_t) :
  uses_other_backend tiff_builtin file_type = false ->
  load_image_from_file tiff_builtin available rid file_type filename
  = Returned img ->
  forall L li,
  0 <= L < image.level_count img ->
  image.level_images img !! Z.to_nat L = Some li ->
  level_image.exists_ li = true ->
  forall i, 0 <= i < level_image.tile_count li ->
  exists t,
    level_image.tiles li !! Z.to_nat i = Some t
    /\ tile.tile_index t = i
    /\ tile.tile_x t = i mod level_image.width_in_tiles li
    /\ tile.tile_y t = i / level_image.width_in_tiles li.
Proof.
  intros Hother E L li HL Hli Hex i Hi.
  destruct (opened_image_levels _ _ _ _ _ _ Hother E) as [Hlevels _].
  destruct (Hlevels L HL) as (li' & Hli' & Hm).
  rewrite Hli in Hli'. injection Hli' as <-.
  destruct Hm as [->|(idx & _ & _ & Eli)]; [done|].
  destruct (level_image_from_wsi_level_fields _ _ _ Eli)
    as (_ & _ & Hw & _ & Hc & Hwt & _ & _ & _ & Htiles).
  rewrite Hc in Hi. rewrite Htiles, Hwt.
  set (lvl := wsi.levels (image.wsi img) !!! Z.to_nat idx) in *.
  destruct (init_tiles_spec (Z.to_nat (wsi_level.tile_count lvl))
              (wsi_level.width_in_tiles lvl) 0
              (replicate (Z.to_nat (wsi_level.tile_count lvl)) tile.zero))
    as (_ & _ & Hnew); [lia|rewrite length_replicate; lia|].
  destruct (Hnew i ltac:(lia)) as (t & Ht & Hidx & Hx & Hy).
  exists t. rewrite Hwt in Hw.
  rewrite <- Z.rem_mod_nonneg, <- Z.quot_div_nonneg by lia. done.
Qed.

(** ** [load_tile_func] *)

(** C7: a decode job for a level with [exists = false] stops at the first
    assertion of [load_tile_func].  No world is returned: nothing was
    allocated, no decoder was called (the outcome is the same whatever the
    decoders are) and nothing was put on the completion queue. *)
Theorem placeholder_level_rejected (logical_thread_index : Z)
    (task : load_tile_task_t) (s : world_t) (li : level_image_t) :
  array_at (image.level_images (load_tile_task.image task))
           (load_tile_task.level task) = Some li ->
  level_image.exists_ li = false ->
  load_tile_func logical_thread_index task s = AssertionFailed.
Proof.
  intros Hli Hex. unfold load_tile_func. rewrite Hli. simpl.
  by rewrite Hex.
Qed.

Lemma free_malloc (init : list byte) (s : world_t) :
  world.heap s !! world.next_block s = None ->
  free (malloc init s).2 (malloc init s).1
  = Returned (world.mk (world.heap s) (S (world.next_block s))
                       (world.global_completion_queue s)).
Proof.
  intros Hfresh. unfold free, malloc. simpl.
  rewrite lookup_insert_eq. by rewrite delete_insert_id.
Qed.

(** C1, as the code has it: when the backend call of a job fails,
    [load_tile_func] frees the pixel buffer and still hands a completion
    message to the callback, with a null [pixel_memory];
    [viewer_notify_load_tile_completed] puts that message on the
    completion queue.  The job runs to the end provided its assertions
    hold and, for the TIFF backend, the trimming of the scratch buffer
    stays inside it. *)
Theorem failed_decode_notifies_with_null_buffer (logical_thread_index : Z)
    (task : load_tile_task_t) (s : world_t) (li : level_image_t) :
  array_at (image.level_images (load_tile_task.image task))
           (load_tile_task.level task) = Some li ->
  level_image.exists_ li = true ->
  F32.gtb (level_image.x_tile_side_in_um li) F32.zero = true ->
  F32.gtb (level_image.y_tile_side_in_um li) F32.zero = true ->
  0 <= pixel_memory_size_of li ->
  image.type (load_tile_task.image task) = IMAGE_TYPE_WSI ->
  backend_decode_failed logical_thread_index task li = true ->
  (image.backend (load_tile_task.image task) = IMAGE_BACKEND_TIFF ->
   exists buf,
     trim_tile li (tile_x_excess_of task li) (tile_y_excess_of task li)
       (replicate (Z.to_nat (pixel_memory_size_of li)) xff)
     = Returned buf) ->
  load_tile_task.completion_callback task
  = Some CB_viewer_notify_load_tile_completed ->
  world.heap s !! world.next_block s = None ->
  load_tile_func logical_thread_index task s
  = Returned
      {| world.heap := world.heap s;
         world.next_block := S (world.next_block s);
         world.global_completion_queue :=
           (add_work_queue_entry (world.global_completion_queue s)
              CB_viewer_notify_load_tile_completed
              (completion_message task li None)).1 |}.
Proof.
  intros Hli Hex Hx Hy Hsize Htype Hfail Htrim Hcb Hfresh.
  unfold load_tile_func. rewrite Hli. simpl. rewrite Hex, Hx, Hy. simpl.
  fold (pixel_memory_size_of li).
  apply Z.ltb_ge in Hsize as ->. simpl.
  rewrite Htype. simpl.
  unfold backend_decode_failed in Hfail. fold (tile_index_of task li).
  fold (tile_index_of task li) in Hfail.
  pose proof (free_malloc
                (replicate (Z.to_nat (pixel_memory_size_of li)) xff) s
                Hfresh) as Hfree.
  unfold malloc in Hfree. simpl in Hfree.
  destruct (image.backend (load_tile_task.image task)) eqn:Hbackend;
    try discriminate Hfail.
  - simpl. rewrite Hfree. simpl. by rewrite Hcb.
  - destruct (tiff_decode_tile _ _ _ _ _ _); [discriminate|]. simpl.
    rewrite lookup_insert_eq. simpl.
    destruct (Htrim eq_refl) as (buf & Hbuf).
    fold (tile_x_excess_of task li). fold (tile_y_excess_of task li).
    rewrite Hbuf. simpl.
    unfold free, store. simpl. rewrite lookup_insert_eq.
    rewrite insert_insert_eq, delete_insert_id by done.
    simpl. by rewrite Hcb.
  - destruct (dicom_wsi_decode_tile_to_bgra _ _); [discriminate|]. simpl.
    rewrite Hfree. simpl. by rewrite Hcb.
Qed.



End properties.

(** * Further properties *)

Section ladder_properties.
Context {platform : Platform}.
Local Open Scope outcome_scope.

(** ** The level ladder *)

Lemma find_wsi_level_None (n : nat) (levels : list wsi_level_t) (wanted : Z) :
  forall start : Z,
  find_wsi_level n levels wanted start = None ->
  forall idx, start <= idx < start + Z.of_nat n ->
  wsi_level.downsample_level (levels !!! Z.to_nat idx) <> wanted.
Proof.
  induction n as [|n IH]; intros start E idx Hidx; [lia|].
  simpl in E. destruct (_ =? wanted) eqn:Ematch; [discriminate|].
  apply Z.eqb_neq in Ematch.
  destruct (decide (idx = start)) as [->|Hne]; [done|].
  apply (IH (start + 1)); [done|lia].
Qed.

Lemma find_wsi_level_first (n : nat) (levels : list wsi_level_t) (wanted : Z) :
  forall (start idx : Z) (lvl : wsi_level_t),
  find_wsi_level n levels wanted start = Some (idx, lvl) ->
  forall j, start <= j < idx ->
  wsi_level.downsample_level (levels !!! Z.to_nat j) <> wanted.
Proof.
  induction n as [|n IH]; intros start idx lvl E j Hj; [done|].
  simpl in E. destruct (_ =? wanted) eqn:Ematch.
  - injection E as <- <-. lia.
  - apply Z.eqb_neq in Ematch.
    destruct (decide (j = start)) as [->|Hne]; [done|].
    apply (IH (start + 1) idx lvl); [done|lia].
Qed.

(** The level loop leaves in [max_downsample_level] the largest downsample
    level it saw, or its starting value if that is larger. *)
Lemma load_wsi_levels_max (n : nat) (osr : nat) (mpp_x mpp_y : spec_float) :
  forall (i : Z) (levels : list wsi_level_t) (maxdl : Z)
         (levels' : list wsi_level_t) (maxdl' : Z),
  load_wsi_levels n osr mpp_x mpp_y i levels maxdl
  = Returned (levels', maxdl') ->
  0 <= i ->
  (Z.to_nat i + n <= length levels)%nat ->
  (forall j, i <= j < i + Z.of_nat n ->
     wsi_level.downsample_level (levels' !!! Z.to_nat j) <= maxdl')
  /\ (maxdl' = maxdl
      \/ exists j, i <= j < i + Z.of_nat n
                   /\ wsi_level.downsample_level (levels' !!! Z.to_nat j)
                      = maxdl').
Proof.
  induction n as [|n IH]; intros i levels maxdl levels' maxdl' E Hi Hlen.
  { simpl in E. injection E as <- <-. split; [intros; lia|by left]. }
  simpl in E. apply obind_Returned in E as (a & Ea & E).
  pose proof E as E'.
  apply load_wsi_levels_spec in E' as (_ & Hmono & _ & Hlow & _);
    [|lia|rewrite length_insert; lia].
  apply IH in E as (Hle & Hatt); [|lia|rewrite length_insert; lia].
  assert (levels' !!! Z.to_nat i = a) as Hslot.
  { apply list_lookup_total_correct. rewrite Hlow by lia.
    apply list_lookup_insert_eq. lia. }
  split.
  - intros j Hj. destruct (decide (j = i)) as [->|Hne].
    + rewrite Hslot. lia.
    + apply Hle. lia.
  - destruct Hatt as [->|(j & Hj & Hdl)].
    + destruct (Z.max_spec (wsi_level.downsample_level a) maxdl)
        as [[_ ->]|[_ ->]]; [by left|].
      right. exists i. split; [lia|by rewrite Hslot].
    + right. exists j. split; [lia|done].
Qed.

Lemma valid_image_opened (tiff_builtin available : bool) (rid : Z)
    (file_type : viewer_file_type_enum) (filename : string) (img : image_t) :
  uses_other_backend tiff_builtin file_type = false ->
  load_image_from_file tiff_builtin available rid file_type filename
  = Returned img ->
  image.is_valid img = true ->
  0 < image.level_count img
  /\ load_image_with_openslide (fresh_image rid) filename = Returned img.
Proof.
  intros Hother E Hvalid.
  pose proof (load_image_from_file_valid _ _ _ _ _ _ Hother E Hvalid) as E'.
  split; [|done].
  unfold load_image_with_openslide in E'.
  apply obind_Returned in E' as (w & Ew & E').
  destruct (wsi.osr w); [|injection E' as <-; simpl in Hvalid; discriminate].
  apply obind_Returned in E' as (u & _ & E').
  apply obind_Returned in E' as (r & _ & E').
  apply obind_Returned in E' as (u' & Hr & E').
  apply ASSERT_Returned, Z.ltb_lt in Hr.
  by injection E' as <-.
Qed.

(** The native levels of a valid image, as [load_wsi] left them. *)
Lemma valid_image_native_levels (tiff_builtin available : bool) (rid : Z)
    (file_type : viewer_file_type_enum) (filename : string) (img : image_t) :
  uses_other_backend tiff_builtin file_type = false ->
  load_image_from_file tiff_builtin available rid file_type filename
  = Returned img ->
  image.is_valid img = true ->
  exists osr,
    wsi.osr (image.wsi img) = Some osr
    /\ load_wsi zero_wsi filename = Returned (image.wsi img)
    /\ load_wsi_levels (Z.to_nat (wsi.level_count (image.wsi img))) osr
         (wsi.mpp_x (image.wsi img)) (wsi.mpp_y (image.wsi img)) 0
         (wsi.levels zero_wsi) 0
       = Returned (wsi.levels (image.wsi img),
                   wsi.max_downsample_level (image.wsi img)).
Proof.
  intros Hother E Hvalid.
  destruct (valid_image_opened _ _ _ _ _ _ Hother E Hvalid) as [Hpos E'].
  destruct (load_image_with_openslide_opened _ _ _ E' Hpos)
    as (osr & Ew & Hosr & _).
  exists osr. split; [done|]. split; [done|].
  by destruct (load_wsi_opened _ _ _ _ Ew Hosr)
    as (_ & _ & _ & _ & _ & _ & _ & Hlevels).
Qed.

(** X1: a valid image has at least one native level, at least as many
    logical levels as native ones, and no more logical levels than the
    [level_images] array has slots. *)
Theorem opened_image_level_bounds (tiff_builtin available : bool) (rid : Z)
    (file_type : viewer_file_type_enum) (filename : string) (img : image_t) :
  uses_other_backend tiff_builtin file_type = false ->
  load_image_from_file tiff_builtin available rid file_type filename
  = Returned img ->
  image.is_valid img = true ->
  1 <= wsi.level_count (image.wsi img)
  /\ wsi.level_count (image.wsi img) <= image.level_count img
  /\ image.level_count img <= WSI_MAX_LEVELS
  /\ Z.of_nat (length (image.level_images img)) = WSI_MAX_LEVELS.
Proof.
  intros Hother E Hvalid.
  destruct (valid_image_opened _ _ _ _ _ _ Hother E Hvalid) as [Hpos E'].
  destruct (load_image_with_openslide_opened _ _ _ E' Hpos)
    as (osr & Ew & Hosr & _ & Hcount & Hnative & Hcap & _ & _ & _ & _ & Hmap).
  apply map_levels_spec in Hmap as (Hlen & _);
    [|lia|rewrite length_replicate; lia].
  rewrite length_replicate in Hlen.
  split; [|split; [done|split; [done|rewrite Hlen; lia]]].
  destruct (decide (1 <= wsi.level_count (image.wsi img))) as [|Hnone];
    [done|exfalso].
  (* without native levels the tile side of level 0 is the zero of the
     zeroed struct, and the first assertion fails *)
  destruct (load_wsi_opened _ _ _ _ Ew Hosr)
    as (_ & _ & _ & _ & _ & _ & _ & Hlevels).
  replace (Z.to_nat (wsi.level_count (image.wsi img))) with 0%nat
    in Hlevels by lia.
  simpl in Hlevels. injection Hlevels as Hl Hm.
  unfold load_image_with_openslide in E'.
  apply obind_Returned in E' as (w & Ew' & E'). simpl in Ew'.
  rewrite Ew in Ew'. injection Ew' as <-. rewrite Hosr in E'.
  apply obind_Returned in E' as (u & Hside & _).
  apply ASSERT_Returned in Hside. rewrite <- Hl in Hside.
  destruct (Z.to_nat WSI_MAX_LEVELS); discriminate Hside.
Qed.

Lemma native_level_below_height (tiff_builtin available : bool) (rid : Z)
    (file_type : viewer_file_type_enum) (filename : string) (img : image_t) :
  uses_other_backend tiff_builtin file_type = false ->
  load_image_from_file tiff_builtin available rid file_type filename
  = Returned img ->
  image.is_valid img = true ->
  forall i, 0 <= i < wsi.level_count (image.wsi img) ->
  native_downsample_level (image.wsi img) i < image.level_count img.
Proof.
  intros Hother E Hvalid i Hi.
  destruct (valid_image_opened _ _ _ _ _ _ Hother E Hvalid) as [Hpos E'].
  destruct (load_image_with_openslide_opened _ _ _ E' Hpos)
    as (osr' & _ & _ & _ & Hcount & _ & Hcap & _).
  destruct (valid_image_native_levels _ _ _ _ _ _ Hother E Hvalid)
    as (osr & Hosr & Ew & Hlevels).
  destruct (load_wsi_fresh _ _ _ Ew Hosr) as (_ & Hwcap & _).
  apply load_wsi_levels_max in Hlevels as [Hle _];
    [|lia|simpl; rewrite length_replicate; lia].
  unfold native_downsample_level. specialize (Hle i). lia.
Qed.

(** X2: the logical ladder is as tall as the coarsest native level asks
    for: every native level's downsample level is below [level_count], and
    [level_count] is 1 or one more than the downsample level of some native
    level. *)
Theorem logical_ladder_height (tiff_builtin available : bool) (rid : Z)
    (file_type : viewer_file_type_enum) (filename : string) (img : image_t) :
  uses_other_backend tiff_builtin file_type = false ->
  load_image_from_file tiff_builtin available rid file_type filename
  = Returned img ->
  image.is_valid img = true ->
  (forall i, 0 <= i < wsi.level_count (image.wsi img) ->
     native_downsample_level (image.wsi img) i < image.level_count img)
  /\ (image.level_count img = 1
      \/ exists i, 0 <= i < wsi.level_count (image.wsi img)
                   /\ native_downsample_level (image.wsi img) i
                      = image.level_count img - 1).
Proof.
  intros Hother E Hvalid.
  destruct (valid_image_opened _ _ _ _ _ _ Hother E Hvalid) as [Hpos E'].
  destruct (load_image_with_openslide_opened _ _ _ E' Hpos)
    as (osr' & _ & _ & _ & Hcount & _ & Hcap & _).
  destruct (valid_image_native_levels _ _ _ _ _ _ Hother E Hvalid)
    as (osr & Hosr & Ew & Hlevels).
  destruct (load_wsi_fresh _ _ _ Ew Hosr) as (_ & Hwcap & _).
  apply load_wsi_levels_max in Hlevels as [Hle Hatt];
    [|lia|simpl; rewrite length_replicate; lia].
  unfold native_downsample_level. split.
  - intros i Hi. specialize (Hle i). lia.
  - destruct Hatt as [Hzero|(j & Hj & Hdl)].
    + left. lia.
    + right. exists j. split; [lia|]. lia.
Qed.

(** On a sorted ladder whose levels from the cursor on are all at or above
    the next logical level, the outer loop matches every native level whose
    downsample level it reaches. *)
Lemma map_levels_complete (n : nat) (w : wsi_t) :
  forall (d next : Z) (imgs imgs' : list level_image_t),
  map_levels n w d next imgs = Returned imgs' ->
  0 <= d -> 0 <= next ->
  (Z.to_nat d + n <= length imgs)%nat ->
  (forall i j, next <= i -> i < j -> j < wsi.level_count w ->
     native_downsample_level w i < native_downsample_level w j) ->
  (forall i, next <= i < wsi.level_count w ->
     d <= native_downsample_level w i) ->
  forall i, next <= i < wsi.level_count w ->
  native_downsample_level w i < d + Z.of_nat n ->
  exists li,
    imgs' !! Z.to_nat (native_downsample_level w i) = Some li
    /\ level_image.exists_ li = true
    /\ level_image.pyramid_image_index li = i.
Proof.
  induction n as [|n IH];
    intros d next imgs imgs' E Hd Hnext Hlen Hsorted Hfloor i Hi Hreach.
  { specialize (Hfloor i Hi). lia. }
  simpl in E.
  destruct (find_wsi_level _ _ _ _) as [[idx lvl]|] eqn:Efind.
  - pose proof (find_wsi_level_first _ _ _ _ _ _ Efind) as Hfirst.
    apply find_wsi_level_Some in Efind as (Hidx & -> & Hlvl).
    apply obind_Returned in E as (li & Eli & E).
    assert (idx < wsi.level_count w) as Hidx' by lia.
    assert (idx = next) as ->.
    { destruct (decide (idx = next)) as [|Hne]; [done|exfalso].
      pose proof (Hsorted next idx ltac:(lia) ltac:(lia) Hidx') as Hlt.
      pose proof (Hfloor next ltac:(lia)) as Hge.
      unfold native_downsample_level in *. lia. }
    pose proof E as E'.
    apply map_levels_spec in E' as (_ & Hlow & _);
      [|lia|rewrite length_insert; lia].
    destruct (decide (i = next)) as [->|Hne].
    + exists li. fold (native_downsample_level w next) in Hlvl.
      rewrite Hlvl, Hlow by lia.
      split; [apply list_lookup_insert_eq; lia|].
      by apply level_image_from_wsi_level_fields in Eli as (? & ? & _).
    + apply (IH (d + 1) (next + 1) _ _ E); try lia.
      * rewrite length_insert. lia.
      * intros a b Ha Hab Hb. apply Hsorted; lia.
      * intros a Ha.
        pose proof (Hsorted next a ltac:(lia) ltac:(lia) ltac:(lia)).
        fold (native_downsample_level w next) in Hlvl. lia.
  - pose proof (find_wsi_level_None _ _ _ _ Efind) as Hnone.
    apply (IH (d + 1) next _ _ E); try lia.
    + rewrite length_insert. lia.
    + done.
    + intros a Ha. pose proof (Hfloor a Ha).
      pose proof (Hnone a ltac:(lia)) as Hne.
      fold (native_downsample_level w a) in Hne. lia.
Qed.

(** X3: when the native levels come sorted, finest first with strictly
    increasing downsample levels, none is lost: native level [i] backs the
    logical level of its own downsample level, which therefore exists. *)
Theorem sorted_ladder_fully_mapped (tiff_builtin available : bool) (rid : Z)
    (file_type : viewer_file_type_enum) (filename : string) (img : image_t) :
  uses_other_backend tiff_builtin file_type = false ->
  load_image_from_file tiff_builtin available rid file_type filename
  = Returned img ->
  image.is_valid img = true ->
  ladder_sorted (image.wsi img) ->
  forall i, 0 <= i < wsi.level_count (image.wsi img) ->
  0 <= native_downsample_level (image.wsi img) i < image.level_count img
  /\ exists li,
       image.level_images img
         !! Z.to_nat (native_downsample_level (image.wsi img) i) = Some li
       /\ level_image.exists_ li = true
       /\ level_image.pyramid_image_index li = i.
Proof.
  intros Hother E Hvalid [Hfirst Hsorted] i Hi.
  pose proof (native_level_below_height _ _ _ _ _ _ Hother E Hvalid)
    as Hheight.
  destruct (valid_image_opened _ _ _ _ _ _ Hother E Hvalid) as [Hpos E'].
  destruct (load_image_with_openslide_opened _ _ _ E' Hpos)
    as (osr & _ & _ & _ & _ & _ & Hcap & _ & _ & _ & _ & Hmap).
  assert (forall a, 0 <= a < wsi.level_count (image.wsi img) ->
            0 <= native_downsample_level (image.wsi img) a) as Hfloor.
  { intros a Ha. destruct (decide (a = 0)) as [->|Hne]; [done|].
    pose proof (Hsorted 0 a ltac:(lia) ltac:(lia) ltac:(lia)). lia. }
  split; [split; [by apply Hfloor|by apply Hheight]|].
  apply (map_levels_complete _ _ _ _ _ _ Hmap); try lia.
  - rewrite length_replicate. lia.
  - intros a b Ha Hab Hb. apply Hsorted; lia.
  - done.
  - specialize (Hheight i Hi). lia.
Qed.

(** X4: a logical level that exists is backed by a native level of exactly
    its downsample level: [pyramid_image_index] is a valid native index, the
    native level there has downsample level [L], and the tile grid, tile
    size and physical scale of the logical level are copies of it. *)
Theorem existing_level_matches_native (tiff_builtin available : bool) (rid : Z)
    (file_type : viewer_file_type_enum) (filename : string) (img : image_t) :
  uses_other_backend tiff_builtin file_type = false ->
  load_image_from_file tiff_builtin available rid file_type filename
  = Returned img ->
  forall L li,
  0 <= L < image.level_count img ->
  image.level_images img !! Z.to_nat L = Some li ->
  level_image.exists_ li = true ->
  let idx := level_image.pyramid_image_index li in
  let lvl := wsi.levels (image.wsi img) !!! Z.to_nat idx in
  0 <= idx < wsi.level_count (image.wsi img)
  /\ native_downsample_level (image.wsi img) idx = L
  /\ level_image.tile_count li = wsi_level.tile_count lvl
  /\ level_image.width_in_tiles li = wsi_level.width_in_tiles lvl
  /\ level_image.height_in_tiles li = wsi_level.height_in_tiles lvl
  /\ level_image.tile_width li = wsi_level.tile_width lvl
  /\ level_image.tile_height li = wsi_level.tile_height lvl
  /\ level_image.um_per_pixel_x li = wsi_level.um_per_pixel_x lvl
  /\ level_image.um_per_pixel_y li = wsi_level.um_per_pixel_y lvl
  /\ level_image.x_tile_side_in_um li = wsi_level.x_tile_side_in_um lvl
  /\ level_image.y_tile_side_in_um li = wsi_level.y_tile_side_in_um lvl
  /\ Z.of_nat (length (level_image.tiles li)) = Z.max 0 (level_image.tile_count li).
Proof.
  intros Hother E L li HL Hli Hex idx lvl.
  destruct (opened_image_levels _ _ _ _ _ _ Hother E) as [Hlevels _].
  destruct (Hlevels L HL) as (li' & Hli' & Hm).
  rewrite Hli in Hli'. injection Hli' as <-.
  pose proof (mapped_level_index _ _ _ _ Hm Hex) as Hidx.
  destruct Hm as [->|(idx' & _ & Hd & Eli)]; [done|].
  pose proof (level_image_from_wsi_level_fields _ _ _ Eli)
    as (_ & Hpi & _ & _ & Hc & _ & _ & _ & _ & Htiles).
  subst idx lvl. rewrite Hpi.
  split; [by rewrite <- Hpi|]. split; [done|].
  unfold level_image_from_wsi_level in Eli.
  outcome_inv. subst li. simpl.
  repeat split; try done.
  destruct (init_tiles_spec
              (Z.to_nat (wsi_level.tile_count
                           (wsi.levels (image.wsi img) !!! Z.to_nat idx')))
              (wsi_level.width_in_tiles
                 (wsi.levels (image.wsi img) !!! Z.to_nat idx')) 0
              (replicate
                 (Z.to_nat (wsi_level.tile_count
                              (wsi.levels (image.wsi img) !!! Z.to_nat idx')))
                 tile.zero)) as (Hlen & _);
    [lia|rewrite length_replicate; lia|].
  rewrite Hlen, length_replicate. lia.
Qed.

End ladder_properties.

(** ** Failing to open *)

Section open_failures.
Context {platform : Platform}.
Local Open Scope outcome_scope.

Lemma unload_zero_wsi : unload_wsi zero_wsi = zero_wsi.
Proof. reflexivity. Qed.

(** X5: when OpenSlide is not available, cannot open the file, reports an
    error on the fresh handle or reports a level count of -1,
    [load_image_from_file] returns normally, with an image that is not
    valid, holds no handle and has no levels. *)
Theorem open_failure_gives_invalid_image (tiff_builtin available : bool)
    (rid : Z) (file_type : viewer_file_type_enum) (filename : string) :
  uses_other_backend tiff_builtin file_type = false ->
  available = false
  \/ openslide_open openslide filename = None
  \/ (exists osr,
        openslide_open openslide filename = Some osr
        /\ (is_Some (openslide_get_error openslide osr)
            \/ openslide_get_level_count openslide osr = -1)) ->
  exists img,
    load_image_from_file tiff_builtin available rid file_type filename
    = Returned img
    /\ image.is_valid img = false
    /\ wsi.osr (image.wsi img) = None
    /\ image.level_count img = 0
    /\ image.resource_id img = rid.
Proof.
  intros Hother Hfail. unfold load_image_from_file. rewrite Hother.
  destruct available; simpl; [|by eexists].
  destruct Hfail as [?|Hfail]; [done|].
  unfold load_image_with_openslide, load_wsi. simpl.
  destruct Hfail as [->|(osr & -> & [[err ->]|Hcount])]; simpl.
  - by eexists.
  - by eexists.
  - destruct (openslide_get_error openslide osr); simpl; [by eexists|].
    rewrite Hcount. simpl. by eexists.
Qed.

End open_failures.

(** ** More on [load_tile_func] *)

Section tile_properties.
Context {platform : Platform}.
Local Open Scope outcome_scope.

Lemma valid_image_kind (rid : Z) (filename : string) (img : image_t) :
  load_image_with_openslide (fresh_image rid) filename = Returned img ->
  image.type img = IMAGE_TYPE_WSI
  /\ image.backend img = IMAGE_BACKEND_OPENSLIDE.
Proof.
  unfold load_image_with_openslide. intros E.
  apply obind_Returned in E as (w & Ew & E).
  destruct (wsi.osr w); [|by injection E as <-].
  apply obind_Returned in E as (u & _ & E).
  apply obind_Returned in E as (r & _ & E).
  apply obind_Returned in E as (u' & _ & E).
  by injection E as <-.
Qed.

(** X6: image-open and tile loading fit together.  For a valid image opened
    through OpenSlide, a job for any logical level that exists passes every
    assertion of [load_tile_func] and cannot fail: a buffer of
    [WSI_TILE_DIM * WSI_TILE_DIM * 4] bytes of 0xFF is handed to
    [openslide_read_region] for the level's native index, at the tile's
    origin scaled to level 0, and what comes back is delivered in one
    completion message; it is the only block the job leaves allocated. *)
Theorem opened_level_decodes_through_openslide
    (tiff_builtin available : bool) (rid : Z)
    (file_type : viewer_file_type_enum) (filename : string) (img : image_t)
    (logical_thread_index : Z) (task : load_tile_task_t) (s : world_t)
    (li : level_image_t) :
  uses_other_backend tiff_builtin file_type = false ->
  load_image_from_file tiff_builtin available rid file_type filename
  = Returned img ->
  image.is_valid img = true ->
  0 < WSI_TILE_DIM ->
  WSI_TILE_DIM * WSI_TILE_DIM * 4 <= INT32_MAX ->
  load_tile_task.image task = img ->
  0 <= load_tile_task.level task < image.level_count img ->
  image.level_images img !! Z.to_nat (load_tile_task.level task) = Some li ->
  level_image.exists_ li = true ->
  load_tile_task.completion_callback task
  = Some CB_viewer_notify_load_tile_completed ->
  world.heap s !! world.next_block s = None ->
  exists osr,
    wsi.osr (image.wsi img) = Some osr
    /\ load_tile_func logical_thread_index task s
       = Returned
           {| world.heap :=
                <[world.next_block s :=
                    openslide_read_region openslide osr
                      (replicate
                         (Z.to_nat (WSI_TILE_DIM * WSI_TILE_DIM * 4)) xff)
                      (wrap32
                         (Z.shiftl
                            (wrap32 (load_tile_task.tile_x task * WSI_TILE_DIM))
                            (load_tile_task.level task)))
                      (wrap32
                         (Z.shiftl
                            (wrap32 (load_tile_task.tile_y task * WSI_TILE_DIM))
                            (load_tile_task.level task)))
                      (level_image.pyramid_image_index li)
                      WSI_TILE_DIM WSI_TILE_DIM]> (world.heap s);
              world.next_block := S (world.next_block s);
              world.global_completion_queue :=
                (add_work_queue_entry (world.global_completion_queue s)
                   CB_viewer_notify_load_tile_completed
                   (completion_message task li
                      (Some (world.next_block s)))).1 |}.
Proof.
  intros Hother E Hvalid Hdim Hsize Himg HL Hli Hex Hcb Hfresh.
  destruct (valid_image_opened _ _ _ _ _ _ Hother E Hvalid) as [Hpos E'].
  destruct (valid_image_kind _ _ _ E') as [Htype Hbackend].
  destruct (load_image_with_openslide_opened _ _ _ E' Hpos)
    as (osr & Ew & Hosr & _).
  destruct (opened_image_levels _ _ _ _ _ _ Hother E) as [Hlevels _].
  destruct (Hlevels _ HL) as (li' & Hli' & Hm).
  rewrite Hli in Hli'. injection Hli' as <-.
  destruct (mapped_level_native _ _ _ _ _ Ew Hosr Hm Hex)
    as (lvl & Elvl & _ & Eli).
  destruct (load_wsi_level_fields _ _ _ _ _ Elvl)
    as (_ & _ & _ & _ & _ & _ & _ & Tw & Th & _).
  assert (level_image.tile_width li = WSI_TILE_DIM
          /\ level_image.tile_height li = WSI_TILE_DIM
          /\ F32.gtb (level_image.x_tile_side_in_um li) F32.zero = true
          /\ F32.gtb (level_image.y_tile_side_in_um li) F32.zero = true)
    as (Hw & Hh & Hx & Hy).
  { revert Eli. generalize (level_image.pyramid_image_index li).
    intros idx Eli. unfold level_image_from_wsi_level in Eli.
    outcome_inv. rewrite <- Eli. simpl. done. }
  exists osr. split; [done|].
  unfold load_tile_func. rewrite Himg.
  assert (array_at (image.level_images img) (load_tile_task.level task)
          = Some li) as ->.
  { unfold array_at. destruct (Z.ltb_spec (load_tile_task.level task) 0);
      [lia|done]. }
  simpl. rewrite Hex, Hx, Hy, Hw, Hh. simpl.
  unfold BYTES_PER_PIXEL. unfold INT32_MAX in Hsize.
  rewrite (wrap32_id (WSI_TILE_DIM * WSI_TILE_DIM))
    by (unfold INT32_MIN, INT32_MAX; nia).
  rewrite (wrap32_id (WSI_TILE_DIM * WSI_TILE_DIM * 4))
    by (unfold INT32_MIN, INT32_MAX; nia).
  assert ((WSI_TILE_DIM * WSI_TILE_DIM * 4 <? 0) = false) as ->
    by (apply Z.ltb_ge; nia).
  simpl. rewrite Htype, Hbackend. simpl. rewrite Hosr. simpl.
  rewrite lookup_insert_eq. simpl. rewrite Hcb. simpl.
  unfold store, viewer_notify_load_tile_completed, completion_message,
    tile_index_of. simpl.
  rewrite insert_insert_eq, Hw, Hh. done.
Qed.

(** X7: the DICOM branch hands the decoder's buffer on as it is.  When
    [dicom_wsi_decode_tile_to_bgra] returns a tile, the scratch buffer is
    freed and the completion message carries the decoder's block, byte for
    byte, wherever the tile lies relative to the image's edge; it is the
    only block the job leaves allocated. *)
Theorem dicom_tile_passed_through (logical_thread_index : Z)
    (task : load_tile_task_t) (s : world_t) (li : level_image_t)
    (px : list byte) :
  array_at (image.level_images (load_tile_task.image task))
           (load_tile_task.level task) = Some li ->
  level_image.exists_ li = true ->
  F32.gtb (level_image.x_tile_side_in_um li) F32.zero = true ->
  F32.gtb (level_image.y_tile_side_in_um li) F32.zero = true ->
  0 <= pixel_memory_size_of li ->
  image.type (load_tile_task.image task) = IMAGE_TYPE_WSI ->
  image.backend (load_tile_task.image task) = IMAGE_BACKEND_DICOM ->
  dicom_wsi_decode_tile_to_bgra (load_tile_task.level task)
    (tile_index_of task li) = Some px ->
  load_tile_task.completion_callback task
  = Some CB_viewer_notify_load_tile_completed ->
  world.heap s !! world.next_block s = None ->
  load_tile_func logical_thread_index task s
  = Returned
      {| world.heap := <[S (world.next_block s) := px]> (world.heap s);
         world.next_block := S (S (world.next_block s));
         world.global_completion_queue :=
           (add_work_queue_entry (world.global_completion_queue s)
              CB_viewer_notify_load_tile_completed
              (completion_message task li
                 (Some (S (world.next_block s))))).1 |}.
Proof.
  intros Hli Hex Hx Hy Hsize Htype Hbackend Hpx Hcb Hfresh.
  unfold load_tile_func. rewrite Hli. simpl. rewrite Hex, Hx, Hy. simpl.
  fold (pixel_memory_size_of li).
  apply Z.ltb_ge in Hsize as ->. simpl.
  rewrite Htype, Hbackend. simpl.
  fold (tile_index_of task li). rewrite Hpx. simpl.
  pose proof (free_malloc
                (replicate (Z.to_nat (pixel_memory_size_of li)) xff) s
                Hfresh) as Hfree.
  unfold malloc in Hfree. simpl in Hfree. rewrite Hfree. simpl.
  by rewrite Hcb.
Qed.

End tile_properties.

(** ** The assertions of [load_tile_func] *)

Lemma obind_AssertionFailed {A B : Type} (m : outcome A) (k : A -> outcome B) :
  obind m k = AssertionFailed ->
  m = AssertionFailed \/ exists a, m = Returned a /\ k a = AssertionFailed.
Proof. destruct m; simpl; intros E; try done; [right; eauto|by left]. Qed.

Lemma defined_not_AssertionFailed {A : Type} (o : option A) :
  defined o <> AssertionFailed.
Proof. by destruct o. Qed.

Lemma free_not_AssertionFailed (p : nat) (s : world_t) :
  free p s <> AssertionFailed.
Proof. unfold free. by destruct (_ !! _). Qed.

Lemma binary_round_aux_sign (m e : Z) (l : location) :
  sign_clear (binary_round_aux F32.prec F32.emax false m e l) = true.
Proof.
  unfold binary_round_aux.
  destruct (shr_fexp _ _ m e l) as [mrs' e'].
  destruct (shr_fexp _ _ _ e' loc_Exact) as [mrs'' e''].
  destruct (shr_m mrs''); [done| |done].
  by destruct (e'' <=? _).
Qed.

Lemma gtb_zero_positive (f : spec_float) :
  F32.gtb f F32.zero = true ->
  f = S754_infinity false \/ exists m e, f = S754_finite false m e.
Proof.
  unfold F32.gtb, F32.zero, SFltb. destruct f as [s|s| |s m e]; simpl;
    try done; destruct s; try done; eauto.
Qed.

Lemma div_sign (a b : spec_float) :
  F32.gtb a F32.zero = true -> F32.gtb b F32.zero = true ->
  sign_clear (F32.div a b) = true.
Proof.
  intros [->|(ma & ea & ->)]%gtb_zero_positive
         [->|(mb & eb & ->)]%gtb_zero_positive; try done.
  unfold F32.div. simpl.
  destruct (SFdiv_core_binary _ _ _ _ _ _) as [[mz ez] lz].
  apply binary_round_aux_sign.
Qed.

Lemma of_Z_sign (n : Z) : 0 <= n -> sign_clear (F32.of_Z n) = true.
Proof.
  intros Hn. unfold F32.of_Z, binary_normalize.
  destruct n as [|p|p]; [done| |lia].
  unfold binary_round. destruct (shl_align _ _ _) as [mz ez].
  apply binary_round_aux_sign.
Qed.

Lemma mul_sign (a b : spec_float) :
  sign_clear a = true -> sign_clear b = true ->
  sign_clear (F32.mul a b) = true.
Proof.
  unfold F32.mul.
  destruct a as [sa|sa| |sa ma ea], b as [sb|sb| |sb mb eb]; simpl;
    try done; try (destruct sa; try done; destruct sb; done).
  destruct sa, sb; try done. intros _ _. apply binary_round_aux_sign.
Qed.

Lemma to_int_sign (f : spec_float) (n : Z) :
  sign_clear f = true -> F32.to_int f = Some n -> 0 <= n.
Proof.
  destruct f as [s|s| |s m e]; simpl; try done.
  - intros _ [= <-]. lia.
  - destruct s; [done|]. intros _. simpl.
    destruct (in_i32 _); [|done]. intros [= <-].
    destruct (Z.leb_spec 0 e).
    + apply Z.mul_nonneg_nonneg; [lia|]. by apply Z.pow_nonneg.
    + apply Z.quot_pos; [lia|]. apply Z.pow_pos_nonneg; lia.
Qed.

Section assertions.
Context {platform : Platform}.
Local Open Scope outcome_scope.

(** X8: the count of rows or columns to clear is never negative.  When the
    tile reaches beyond the image ([excess > 0]), the tile side is positive
    and the tile dimension is not negative, the truncated quotient
    [(int)((excess / tile_side_in_um) * tile_dim)], whenever the cast is
    defined, is at least 0. *)
Theorem excess_count_never_negative (excess tile_side_in_um : spec_float)
    (tile_dim n : Z) :
  F32.gtb excess F32.zero = true ->
  F32.gtb tile_side_in_um F32.zero = true ->
  0 <= tile_dim ->
  excess_count excess tile_side_in_um tile_dim = Some n ->
  0 <= n.
Proof.
  intros He Hs Hd. unfold excess_count. apply to_int_sign.
  apply mul_sign; [by apply div_sign|by apply of_Z_sign].
Qed.

Lemma trim_tile_no_assertion (li : level_image_t) (xe ye : spec_float)
    (buf : list byte) :
  F32.gtb (level_image.x_tile_side_in_um li) F32.zero = true ->
  F32.gtb (level_image.y_tile_side_in_um li) F32.zero = true ->
  0 <= level_image.tile_width li ->
  0 <= level_image.tile_height li ->
  trim_tile li xe ye buf <> AssertionFailed.
Proof.
  intros Hx Hy Hw Hh. unfold trim_tile. intros E.
  apply obind_AssertionFailed in E as [E|(r & Er & E)].
  - destruct (F32.gtb ye F32.zero) eqn:Hye; [|done].
    apply obind_AssertionFailed in E as [E|(er & Eer & E)];
      [by apply defined_not_AssertionFailed in E|].
    apply defined_Returned in Eer.
    unfold excess_count in Eer. apply to_int_sign in Eer;
      [|apply mul_sign; [by apply div_sign|by apply of_Z_sign]].
    apply Z.leb_le in Eer. rewrite Eer in E. simpl in E.
    apply obind_AssertionFailed in E as [E|(b & _ & E)];
      [by apply defined_not_AssertionFailed in E|done].
  - destruct (F32.gtb xe F32.zero) eqn:Hxe; [|done].
    apply obind_AssertionFailed in E as [E|(ep & Eep & E)];
      [by apply defined_not_AssertionFailed in E|].
    apply defined_Returned in Eep.
    unfold excess_count in Eep. apply to_int_sign in Eep;
      [|apply mul_sign; [by apply div_sign|by apply of_Z_sign]].
    apply Z.leb_le in Eep. rewrite Eep in E. simpl in E.
    by apply defined_not_AssertionFailed in E.
Qed.

(** X9: the causes of a failed assertion in [load_tile_func].  For a level
    whose tile dimensions are not negative, the job stops in an assertion
    only if the level is a placeholder, a tile side is not positive, the
    image is not a whole-slide image, the backend is iSyntax or stb_image,
    or the job carries no completion callback.  In particular the two
    assertions of the trimming step, [excess_rows >= 0] and
    [excess_pixels >= 0], never fail. *)
Theorem load_tile_assertion_causes (logical_thread_index : Z)
    (task : load_tile_task_t) (s : world_t) (li : level_image_t) :
  array_at (image.level_images (load_tile_task.image task))
           (load_tile_task.level task) = Some li ->
  0 <= level_image.tile_width li ->
  0 <= level_image.tile_height li ->
  load_tile_func logical_thread_index task s = AssertionFailed ->
  level_image.exists_ li = false
  \/ F32.gtb (level_image.x_tile_side_in_um li) F32.zero = false
  \/ F32.gtb (level_image.y_tile_side_in_um li) F32.zero = false
  \/ image.type (load_tile_task.image task) <> IMAGE_TYPE_WSI
  \/ image.backend (load_tile_task.image task) = IMAGE_BACKEND_ISYNTAX
  \/ image.backend (load_tile_task.image task) = IMAGE_BACKEND_STBI
  \/ load_tile_task.completion_callback task = None.
Proof.
  intros Hli Hw Hh. unfold load_tile_func. rewrite Hli. simpl.
  destruct (level_image.exists_ li); [|by left]. simpl.
  destruct (F32.gtb (level_image.x_tile_side_in_um li) F32.zero) eqn:Hx;
    [|by right; left].
  destruct (F32.gtb (level_image.y_tile_side_in_um li) F32.zero) eqn:Hy;
    [|by right; right; left].
  simpl. fold (pixel_memory_size_of li).
  destruct (pixel_memory_size_of li <? 0); [done|]. simpl.
  destruct (decide (image.type (load_tile_task.image task) = IMAGE_TYPE_WSI))
    as [Htype|Htype]; [|by intros _; do 3 right; left].
  rewrite bool_decide_eq_true_2 by done. simpl.
  destruct (load_tile_task.completion_callback task) as [cb|];
    [|by intros _; do 6 right].
  destruct (image.backend (load_tile_task.image task)) eqn:Hbackend;
    try (by intros _; do 4 right; left);
    try (by intros _; do 5 right; left);
    intros E; exfalso.
  - apply obind_AssertionFailed in E as [E|(r & Er & E)]; [done|].
    injection Er as <-.
    apply obind_AssertionFailed in E as [E|(r' & Er' & E)].
    + apply obind_AssertionFailed in E as [E|(r' & Er' & E)]; [|done].
      by apply free_not_AssertionFailed in E.
    + by destruct r'.
  - apply obind_AssertionFailed in E as [E|(r & Er & E)].
    + apply obind_AssertionFailed in E as [E|(r & Er & E)].
      * destruct (tiff_decode_tile _ _ _ _ _ _); [|done].
        apply obind_AssertionFailed in E as [E|(r & Er & E)]; [|done].
        by apply free_not_AssertionFailed in E.
      * destruct r as [[s' t] failed].
        apply obind_AssertionFailed in E as [E|(b & Eb & E)];
          [by apply defined_not_AssertionFailed in E|].
        apply obind_AssertionFailed in E as [E|(b' & Eb' & E)]; [|done].
        by apply trim_tile_no_assertion in E.
    + destruct r as [[s' t] failed].
      apply obind_AssertionFailed in E as [E|(r' & Er' & E)].
      * destruct failed; [|done].
        apply obind_AssertionFailed in E as [E|(r' & Er' & E)]; [|done].
        by apply free_not_AssertionFailed in E.
      * by destruct r'.
  - apply obind_AssertionFailed in E as [E|(r & Er & E)].
    + apply obind_AssertionFailed in E as [E|(osr & Eosr & E)];
        [by apply defined_not_AssertionFailed in E|].
      apply obind_AssertionFailed in E as [E|(b & Eb & E)];
        [by apply defined_not_AssertionFailed in E|done].
    + destruct r as [[s' t] failed].
      apply obind_AssertionFailed in E as [E|(r' & Er' & E)].
      * destruct failed; [|done].
        apply obind_AssertionFailed in E as [E|(r' & Er' & E)]; [|done].
        by apply free_not_AssertionFailed in E.
      * by destruct r'.
  - apply obind_AssertionFailed in E as [E|(r & Er & E)].
    + destruct (dicom_wsi_decode_tile_to_bgra _ _); [|done].
      apply obind_AssertionFailed in E as [E|(r & Er & E)]; [|done].
      unfold free in E. by destruct (_ !! _).
    + destruct r as [[s' t] failed].
      apply obind_AssertionFailed in E as [E|(r' & Er' & E)].
      * destruct failed; [|done].
        apply obind_AssertionFailed in E as [E|(r' & Er' & E)]; [|done].
        by apply free_not_AssertionFailed in E.
      * by destruct r'.
Qed.

End assertions.

(** ** Releasing a tile *)

(** X10: releasing a tile's cached pixels twice is the same as releasing them
    once.  For a tile whose pixel block, if it has one, is live,
    [tile_release_cache] frees that block and nothing else, clears
    [pixels], [is_cached] and [need_keep_in_cache], and keeps the tile's
    index and position; a second call on the result returns the same tile
    and the same memory, so the block is not freed again. *)
Theorem tile_release_is_idempotent (tile : tile_t) (s : world_t) :
  (forall p, tile.pixels tile = Some p -> is_Some (world.heap s !! p)) ->
  exists tile' s',
    tile_release_cache (Some tile) s = Returned (tile', s')
    /\ world.heap s'
       = match tile.pixels tile with
         | Some p => delete p (world.heap s)
         | None => world.heap s
         end
    /\ world.next_block s' = world.next_block s
    /\ tile.pixels tile' = None
    /\ tile.is_cached tile' = false
    /\ tile.need_keep_in_cache tile' = false
    /\ tile.tile_index tile' = tile.tile_index tile
    /\ tile.tile_x tile' = tile.tile_x tile
    /\ tile.tile_y tile' = tile.tile_y tile
    /\ tile_release_cache (Some tile') s' = Returned (tile', s').
Proof.
  intros Hlive. unfold tile_release_cache.
  destruct (tile.pixels tile) as [p|] eqn:Hp.
  - destruct (Hlive p eq_refl) as [buf Hbuf].
    unfold free. rewrite Hbuf. simpl. eexists _, _. split; [done|].
    by simpl.
  - simpl. eexists _, _. split; [done|]. simpl. by destruct s.
Qed.

(** ** File types *)

Lemma tolower_idemp (c : ascii) : libc.tolower (libc.tolower c) = libc.tolower c.
Proof. by destruct c as [[] [] [] [] [] [] [] []]. Qed.

Lemma lower_length (s : string) :
  String.length (libc.lower s) = String.length s.
Proof. induction s as [|c s IH]; simpl; congruence. Qed.

Lemma strcasecmp_lower (a b : string) :
  libc.strcasecmp (libc.lower a) b = libc.strcasecmp a b.
Proof.
  revert b. induction a as [|x a IH]; intros [|y b]; simpl; try done.
  - by rewrite tolower_idemp.
  - rewrite tolower_idemp, IH. done.
Qed.

Section file_properties.
Context {fs : FileSystem}.

(** X11: the file type does not depend on the case of the extension.  Two
    files that agree in everything [viewer_determine_file_type] reads,
    except that their extensions differ in upper and lower case, get the
    same type. *)
Theorem file_type_ignores_case (file1 file2 : file_info_t) :
  libc.lower (file_info.ext file1) = libc.lower (file_info.ext file2) ->
  file_info.is_regular_file file1 = file_info.is_regular_file file2 ->
  file_info.header file1 = file_info.header file2 ->
  file_info.filesize file1 = file_info.filesize file2 ->
  viewer_determine_file_type file1 = viewer_determine_file_type file2.
Proof.
  intros Hext Hreg Hheader Hsize. unfold viewer_determine_file_type.
  rewrite Hreg, Hheader, Hsize.
  assert (String.length (file_info.ext file1)
          = String.length (file_info.ext file2)) as ->.
  { by rewrite <- (lower_length (file_info.ext file1)), Hext, lower_length. }
  assert (forall lit, libc.strcasecmp (file_info.ext file1) lit
                      = libc.strcasecmp (file_info.ext file2) lit) as E.
  { intros lit.
    by rewrite <- (strcasecmp_lower (file_info.ext file1)), Hext,
      strcasecmp_lower. }
  by rewrite !E.
Qed.

(** X12: what [viewer_get_file_info] returns is consistent.  For every file
    name, [is_image] is set exactly when the type is one of the five image
    types; a type other than unknown is only given to a valid regular
    file; a directory is never a regular file; and a file that is not
    valid is no image.  A name that does not fit in [filename] gives the
    all-zero record. *)
Theorem file_info_consistent (filename : string) :
  let file := viewer_get_file_info filename in
  file_info.is_image file = type_is_image (file_info.type file)
  /\ (file_info.type file <> VIEWER_FILE_TYPE_UNKNOWN ->
      file_info.is_valid file = true
      /\ file_info.is_regular_file file = true
      /\ file_info.is_directory file = false)
  /\ (file_info.is_directory file = true ->
      file_info.is_regular_file file = false)
  /\ (file_info.is_valid file = false -> file_info.is_image file = false)
  /\ (FILENAME_SIZE <= Z.of_nat (String.length filename) ->
      file = zero_file_info).
Proof.
  unfold viewer_get_file_info.
  destruct (Z.leb_spec FILENAME_SIZE (Z.of_nat (String.length filename)))
    as [Hlong|Hshort].
  { simpl. repeat split; done. }
  destruct (platform_stat filename) as [st|];
    [|simpl; repeat split; try done; lia].
  unfold S_ISDIR, S_ISREG.
  destruct (stat.st_mode st); simpl;
    try (repeat split; try done; lia).
  destruct (file_stream_read filename _) as [bytes|];
    [|simpl; repeat split; try done; lia].
  destruct (_ =? _); simpl; repeat split; try done; lia.
Qed.

End file_properties.

(** ** Directories *)

Section directory_properties.
Context {fs : FileSystem} {listings : DirectoryListing}.

Lemma file_info_filename (filename : string) :
  file_info.is_valid (viewer_get_file_info filename) = true ->
  file_info.filename (viewer_get_file_info filename) = filename.
Proof.
  unfold viewer_get_file_info.
  destruct (FILENAME_SIZE <=? _); [done|].
  destruct (platform_stat filename) as [st|]; [|done].
  destruct (S_ISREG _); [|done].
  destruct (file_stream_read filename _) as [bytes|]; [|done].
  by destruct (_ =? _).
Qed.

Lemma scan_entries_spec (recurse : string -> option directory_info_t)
    (path : string) (entries : list string) :
  forall directory : directory_info_t,
  (forall current_filename,
     current_filename ∈ entries ->
     let file := viewer_get_file_info (full_filename_of path current_filename) in
     file_info.is_valid file = true ->
     file_info.is_directory file = true ->
     is_Some (recurse (full_filename_of path current_filename))) ->
  let files :=
    map (fun current_filename =>
           viewer_get_file_info (full_filename_of path current_filename))
      entries in
  scan_entries recurse path entries directory
  = Some (directory_info.mk (directory_info.is_valid directory)
            (directory_info.contains_dicom_files directory
             || existsb is_dicom_file files)
            (directory_info.contains_nondicom_images directory
             || existsb is_nondicom_image files)
            (directory_info.dicom_files directory
             ++ List.filter is_dicom_file files)).
Proof.
  induction entries as [|current entries IH]; intros directory Hsub.
  { simpl. rewrite !orb_false_r, app_nil_r. by destruct directory. }
  assert (forall current_filename,
            current_filename ∈ entries ->
            let file :=
              viewer_get_file_info (full_filename_of path current_filename) in
            file_info.is_valid file = true ->
            file_info.is_directory file = true ->
            is_Some (recurse (full_filename_of path current_filename)))
    as Hsub'.
  { intros e He. apply Hsub. by right. }
  specialize (Hsub current ltac:(by left)). simpl in Hsub.
  cbn [scan_entries map existsb List.filter].
  unfold is_dicom_file at 1 3, is_nondicom_image at 1.
  set (file := viewer_get_file_info (full_filename_of path current)) in *.
  destruct (file_info.is_valid file); simpl;
    [|by rewrite IH].
  destruct (file_info.is_directory file); simpl.
  { destruct (Hsub eq_refl eq_refl) as [subdir ->]. by rewrite IH. }
  destruct (file_info.is_regular_file file); simpl; [|by rewrite IH].
  destruct (bool_decide (file_info.type file = VIEWER_FILE_TYPE_DICOM));
    simpl.
  { rewrite IH by done. simpl. rewrite !orb_true_r, <- app_assoc. done. }
  destruct (file_info.is_image file); simpl; [|by rewrite IH].
  rewrite IH by done. simpl. by rewrite !orb_true_r.
Qed.

(** X13: what [viewer_get_directory_info] reports about a directory.  When
    directories are nested less than [n] deep below [path], the scan
    returns, whatever fuel from [n] on it is given, and its result speaks
    of the entries of [path] itself only: [dicom_files] holds the valid
    regular files of the listing typed as DICOM, in the order of the
    listing, [contains_dicom_files] says whether there is one, and
    [contains_nondicom_images] whether the listing has another image file.
    What lies in a subdirectory is looked at and dropped.  Without a
    listing the result is the all-zero record. *)
Theorem directory_scan_reports_direct_entries (n : nat) (path : string) :
  nesting_below n path ->
  exists directory,
    (forall fuel, (n <= fuel)%nat ->
       viewer_get_directory_info fuel path = Some directory)
    /\ directory_info.is_valid directory
       = bool_decide
           (is_Some (create_directory_listing_and_find_first_file path))
    /\ directory_info.dicom_files directory
       = List.filter is_dicom_file (listed_files path)
    /\ directory_info.contains_dicom_files directory
       = existsb is_dicom_file (listed_files path)
    /\ directory_info.contains_nondicom_images directory
       = existsb is_nondicom_image (listed_files path).
Proof.
  intros Hnest. induction Hnest as [n path Hsub IH].
  unfold listed_files in *.
  destruct (create_directory_listing_and_find_first_file path)
    as [[first rest]|] eqn:Hlisting.
  - set (files :=
           map (fun current_filename =>
                  viewer_get_file_info
                    (full_filename_of path current_filename))
             (first :: rest)) in *.
    exists (directory_info.mk true (existsb is_dicom_file files)
              (existsb is_nondicom_image files)
              (List.filter is_dicom_file files)).
    split; [|by simpl].
    intros [|fuel] Hfuel; [lia|]. cbn [viewer_get_directory_info].
    rewrite Hlisting. rewrite scan_entries_spec; [done|].
    intros current Hcurrent file Hvalid Hdir.
    destruct (IH file) as (subdir & Hrun & _); [|done|done|].
    { apply list_elem_of_fmap. by exists current. }
    unfold file in Hrun. rewrite file_info_filename in Hrun by done.
    rewrite Hrun by lia. done.
  - exists directory_info.zero. split; [|by simpl].
    intros [|fuel] Hfuel; [lia|]. cbn [viewer_get_directory_info].
    by rewrite Hlisting.
Qed.

End directory_properties.

(** ** Annotation attributes *)

Lemma substring_all (s : string) (n : nat) :
  (String.length s <= n)%nat -> String.substring 0 n s = s.
Proof.
  revert n. induction s as [|c s IH]; intros [|n] Hn; simpl in *;
    try done; try lia.
  rewrite IH; [done|lia].
Qed.

(** [%02x] followed by [strtoul] and the cast to [u8] gives the byte
    back. *)
Lemma printf_02x_strtoul (v : Z) :
  0 <= v < 256 ->
  to_u8 (libc.strtoul16 (libc.printf_02x v)).1 = v.
Proof.
  intros Hv.
  pose proof (forallb_seqZ
                (fun v => to_u8 (libc.strtoul16 (libc.printf_02x v)).1 =? v)
                256 ltac:(by vm_compute) v Hv) as E.
  by apply Z.eqb_eq in E.
Qed.

Lemma append_2 (c0 c1 : ascii) (s : string) :
  String.append (String c0 (String c1 EmptyString)) s
  = String c0 (String c1 s).
Proof. reflexivity. Qed.

Lemma parse_color_7 (c1 c2 c3 c4 c5 c6 : ascii) :
  asap_xml_parse_color
    (String "#" (String c1 (String c2 (String c3 (String c4 (String c5
       (String c6 EmptyString)))))))
  = rgba.mk (to_u8 (libc.strtoul16 (temp2 c1 c2)).1)
            (to_u8 (libc.strtoul16 (temp2 c3 c4)).1)
            (to_u8 (libc.strtoul16 (temp2 c5 c6)).1) 255.
Proof. reflexivity. Qed.

(** X14: a colour written by [asap_xml_print_color] is read back by
    [asap_xml_parse_color].  For a buffer of at least 8 bytes (the callers
    pass 32) and any colour, parsing the printed text gives back the red,
    green and blue bytes; alpha, which is not written, comes back as
    255. *)
Theorem color_print_parse_roundtrip (bufsize : Z) (rgba : rgba_t) :
  8 <= bufsize ->
  0 <= rgba.r rgba < 256 ->
  0 <= rgba.g rgba < 256 ->
  0 <= rgba.b rgba < 256 ->
  asap_xml_parse_color (asap_xml_print_color bufsize rgba)
  = rgba.mk (rgba.r rgba) (rgba.g rgba) (rgba.b rgba) 255.
Proof.
  intros Hbuf Hr Hg Hb. unfold asap_xml_print_color, libc.snprintf.
  rewrite substring_all by (simpl; lia).
  unfold libc.printf_02x. rewrite !append_2, parse_color_7.
  change (temp2 (libc.hex_digit (?v / 16)) (libc.hex_digit (?v mod 16)))
    with (libc.printf_02x v).
  by rewrite !printf_02x_strtoul.
Qed.

Section annotation_properties.
Context {store : AnnotationStore}.

(** X15: an annotation type written as [get_annotation_type_name] names it is
    read back by the ["Type"] attribute.  Rectangle, polygon, spline and
    point come back as they were; every other type, which is written as the
    empty string, comes back as a polygon.  Nothing else of the annotation
    or of the annotation set changes. *)
Theorem type_name_roundtrip (annotation_set : annotation_set_t)
    (annotation : annotation_t) (type : annotation_type_enum) :
  annotation_set_attribute annotation_set annotation "Type"
    (get_annotation_type_name type)
  = (annotation_set,
     annotation.mk (annotation.color annotation) (annotation.name annotation)
       (annotation.group_id annotation)
       (match type with
        | ANNOTATION_RECTANGLE | ANNOTATION_SPLINE | ANNOTATION_POINT => type
        | _ => ANNOTATION_POLYGON
        end)).
Proof. by destruct type. Qed.

End annotation_properties.

(** ** Collecting an attribute value *)

Lemma copy_data_spec (data : list byte) :
  forall (attrbuf : list byte) (attrcur : Z),
  0 <= attrcur ->
  copy_data attrbuf attrcur data
  = if attrcur + Z.of_nat (length data) <=? Z.of_nat (length attrbuf)
    then Some (take (Z.to_nat attrcur) attrbuf ++ data
               ++ drop (Z.to_nat attrcur + length data) attrbuf,
               attrcur + Z.of_nat (length data))
    else match data with
         | [] => Some (attrbuf, attrcur)
         | _ => None
         end.
Proof.
  induction data as [|c data IH]; intros attrbuf attrcur Hcur.
  - simpl. rewrite Z.add_0_r, Nat.add_0_r, take_drop.
    by destruct (_ <=? _).
  - cbn [copy_data]. destruct (Z.leb_spec 0 attrcur); [|lia]. simpl andb.
    destruct (Z.ltb_spec attrcur (Z.of_nat (length attrbuf))) as [Hin|Hout].
    + rewrite IH by lia. rewrite length_insert.
      replace (attrcur + 1 + Z.of_nat (length data))
        with (attrcur + Z.of_nat (length (c :: data)))
        by (simpl length; lia).
      destruct (Z.leb_spec (attrcur + Z.of_nat (length (c :: data)))
                  (Z.of_nat (length attrbuf))) as [Hfit|Hno].
      * f_equal. f_equal.
        replace (Z.to_nat (attrcur + 1)) with (S (Z.to_nat attrcur)) by lia.
        destruct (lookup_lt_is_Some_2 attrbuf (Z.to_nat attrcur)
                    ltac:(lia)) as [old Hold].
        rewrite (take_S_r _ _ c)
          by (rewrite list_lookup_insert_eq; [done|lia]).
        rewrite take_insert_ge by lia.
        rewrite <- app_assoc. simpl. f_equal. f_equal.
        rewrite drop_insert_lt by lia.
        by rewrite Nat.add_succ_r.
      * destruct data; [simpl in Hno; lia|done].
    + destruct (Z.leb_spec (attrcur + Z.of_nat (length (c :: data)))
                  (Z.of_nat (length attrbuf))) as [Hfit|Hno]; [|done].
      simpl in Hfit. lia.
Qed.

(** X16: how an attribute value is collected in [attrbuf] (the element
    content is collected in [contentbuf] by the same code).  With [cur]
    bytes collected so far, a token of [x->data] is appended and
    NUL-terminated when it leaves room for the NUL; the load fails when the
    token ends exactly at the end of the buffer; and when the token reaches
    past the end, the copy loop, whose guard compares the start of the
    buffer and not the cursor, stores outside the buffer, which is
    undefined. *)
Theorem attrval_cases (attrbuf : list byte) (cur : Z) (data : list byte) :
  Z.of_nat (length attrbuf) = ATTRBUF_SIZE ->
  0 <= cur < ATTRBUF_SIZE ->
  attrval attrbuf (Some cur) data
  = if cur + Z.of_nat (length data) <? ATTRBUF_SIZE then
      Returned
        (Some (take (Z.to_nat cur) attrbuf ++ data
               ++ x00 :: drop (Z.to_nat cur + length data + 1) attrbuf,
               Some (cur + Z.of_nat (length data))))
    else if cur + Z.of_nat (length data) =? ATTRBUF_SIZE then Returned None
    else Undefined.
Proof.
  intros Hlen Hcur. unfold attrval. rewrite copy_data_spec by lia.
  rewrite Hlen.
  destruct (Z.ltb_spec (cur + Z.of_nat (length data)) ATTRBUF_SIZE)
    as [Hroom|Hfull].
  - destruct (Z.leb_spec (cur + Z.of_nat (length data)) ATTRBUF_SIZE);
      [|lia].
    simpl. destruct (Z.eqb_spec (cur + Z.of_nat (length data)) ATTRBUF_SIZE);
      [lia|].
    set (buf := take (Z.to_nat cur) attrbuf ++ data
                ++ drop (Z.to_nat cur + length data) attrbuf).
    assert (length buf = length attrbuf) as Hbuf.
    { unfold buf. rewrite !length_app, length_take, length_drop. lia. }
    unfold memset. rewrite Hbuf, Hlen.
    destruct (Z.leb_spec 0 (cur + Z.of_nat (length data))); [|lia].
    destruct (Z.leb_spec (cur + Z.of_nat (length data) + 1) ATTRBUF_SIZE);
      [|lia].
    simpl. do 3 f_equal.
    assert (length (take (Z.to_nat cur) attrbuf ++ data)
            = Z.to_nat (cur + Z.of_nat (length data))) as Etake
      by (rewrite length_app, length_take; lia).
    rewrite <- Etake.
    replace (Z.to_nat (cur + Z.of_nat (length data) + 1))
      with (length (take (Z.to_nat cur) attrbuf ++ data) + 1)%nat by lia.
    unfold buf. rewrite app_assoc, take_app_length, drop_app_add.
    rewrite <- app_assoc. do 3 f_equal.
    rewrite drop_drop. f_equal; lia.
  - destruct (Z.eqb_spec (cur + Z.of_nat (length data)) ATTRBUF_SIZE)
      as [Hend|Hpast].
    + destruct (Z.leb_spec (cur + Z.of_nat (length data)) ATTRBUF_SIZE);
        [|lia].
      simpl. by apply Z.eqb_eq in Hend as ->.
    + destruct (Z.leb_spec (cur + Z.of_nat (length data)) ATTRBUF_SIZE);
        [lia|].
      destruct data; [simpl in *; lia|done].
Qed.

(** ** The DICOM dictionary generator *)

(** X17: [get_spaces] returns a string of [length] blanks, of 34 at most.  A
    negative [length] fails the assertion. *)
Theorem get_spaces_blanks (length : Z) :
  0 <= length ->
  get_spaces length
  = Returned
      (string_of_list_ascii (repeat " "%char (Z.to_nat (Z.min length 34)))).
Proof.
  intros Hlen. destruct (Z.lt_ge_cases length 34) as [Hlt|Hge].
  - pose proof (forallb_seqZ
                  (fun n =>
                   match get_spaces n with
                   | Returned s =>
                       String.eqb s
                         (string_of_list_ascii
                            (repeat " "%char (Z.to_nat (Z.min n 34))))
                   | _ => false
                   end) 34 ltac:(by vm_compute) length ltac:(lia)) as E.
    simpl in E. destruct (get_spaces length); try done.
    by apply String.eqb_eq in E as ->.
  - unfold get_spaces. apply Z.leb_le in Hlen as ->. simpl ASSERT.
    cbn [obind]. change (Z.of_nat (String.length spaces + 1) - 1) with 34.
    rewrite (Z.min_l 34) by lia. rewrite Z.min_r by lia. reflexivity.
Qed.

Lemma DICOM_TAG_fields (g e : Z) :
  0 <= g -> 0 <= e ->
  DICOM_TAG g e = (e mod 2 ^ 16) * 2 ^ 16 + g mod 2 ^ 16.
Proof.
  intros Hg He. unfold DICOM_TAG, to_u32, to_u16.
  rewrite Z.shiftl_mul_pow2 by lia.
  assert ((e * 2 ^ 16) mod 2 ^ 32 = (e mod 2 ^ 16) * 2 ^ 16) as ->.
  { change (2 ^ 32) with (2 ^ 16 * 2 ^ 16).
    rewrite Z.mul_mod_distr_r by lia. done. }
  pose proof (Z.mod_pos_bound e (2 ^ 16) ltac:(lia)) as Be.
  pose proof (Z.mod_pos_bound g (2 ^ 16) ltac:(lia)) as Bg.
  set (eh := e mod 2 ^ 16) in *. set (gl := g mod 2 ^ 16) in *.
  assert (Z.land (eh * 2 ^ 16) gl = 0) as Hdisjoint.
  { apply Z.bits_inj'. intros n Hn. rewrite Z.land_spec, Z.bits_0.
    destruct (Z.lt_ge_cases n 16) as [Hlow|Hhigh].
    - rewrite Z.mul_pow2_bits_low by lia. done.
    - rewrite (Z.bits_above_log2 gl n); [by rewrite andb_false_r|lia|].
      destruct (Z.eq_dec gl 0) as [->|Hnz]; [simpl; lia|].
      apply Z.lt_le_trans with 16; [apply Z.log2_lt_pow2; lia|lia]. }
  rewrite <- Z.lxor_lor by done. rewrite <- Z.add_nocarry_lxor by done.
  apply Z.mod_small. lia.
Qed.

Lemma substring_length_le (s : string) (n : nat) :
  (String.length (String.substring 0 n s) <= n)%nat.
Proof.
  revert n. induction s as [|c s IH]; intros [|n]; simpl; try lia.
  specialize (IH n). lia.
Qed.

Lemma clean_loop_length (s : string) (b : bool) :
  (String.length (clean_loop s b) <= String.length s)%nat.
Proof.
  revert b. induction s as [|c s IH]; intros b; simpl; [lia|].
  pose proof (IH b). pose proof (IH false).
  repeat case_match; simpl; lia.
Qed.

Lemma clean_loop_ascii (s : string) (b : bool) :
  Forall (fun c => libc.code c < 128)
    (list_ascii_of_string (clean_loop s b)).
Proof.
  revert b. induction s as [|c s IH]; intros b; simpl; [constructor|].
  destruct (Z.leb_spec 128 (libc.code c)); [apply IH|].
  repeat case_match; simpl; try apply IH; constructor; try apply IH; lia.
Qed.

Lemma clean_loop_head (s : string) :
  match clean_loop s true with
  | String c _ => is_whitespace c = false
  | EmptyString => True
  end.
Proof.
  induction s as [|c s IH]; simpl; [done|].
  destruct (128 <=? libc.code c); [done|].
  fold (is_whitespace c). by destruct (is_whitespace c) eqn:Hws.
Qed.

Lemma clean_loop_fixed (s : string) :
  Forall (fun c => libc.code c < 128) (list_ascii_of_string s) ->
  clean_loop s false = s.
Proof.
  induction s as [|c s IH]; simpl; [done|].
  intros [Hc Hs]%Forall_cons. destruct (Z.leb_spec 128 (libc.code c)); [lia|].
  rewrite IH by done. by repeat case_match.
Qed.

(** X18: what the cleaning loop leaves of an element's content.  The result
    fits in [cleaned] with its NUL (at most 255 characters), holds no byte
    from 128 on, and does not start with white space. *)
Theorem cleaned_shape (content : string) :
  (String.length (cleaned content) <= 255)%nat
  /\ Forall (fun c => libc.code c < 128)
       (list_ascii_of_string (cleaned content))
  /\ match cleaned content with
     | String c _ => is_whitespace c = false
     | EmptyString => True
     end.
Proof.
  unfold cleaned. split; [|split].
  - etrans; [apply clean_loop_length|].
    etrans; [apply substring_length_le|]. lia.
  - apply clean_loop_ascii.
  - apply clean_loop_head.
Qed.

(** X19: cleaning is idempotent: content that has been cleaned is left as it
    is when cleaned again. *)
Theorem cleaned_idempotent (content : string) :
  cleaned (cleaned content) = cleaned content.
Proof.
  assert (String.length (cleaned content) <= 255)%nat as Hlen.
  { unfold cleaned. etrans; [apply clean_loop_length|].
    etrans; [apply substring_length_le|]. lia. }
  pose proof (clean_loop_ascii
                (String.substring 0
                   (Z.to_nat
                      (Z.min (Z.of_nat (String.length content)) (256 - 1)))
                   content) true) as Hascii.
  pose proof (clean_loop_head
                (String.substring 0
                   (Z.to_nat
                      (Z.min (Z.of_nat (String.length content)) (256 - 1)))
                   content)) as Hhead.
  fold (cleaned content) in Hascii, Hhead.
  set (s := cleaned content) in *. unfold cleaned at 1.
  rewrite substring_all by lia.
  destruct s as [|c s]; [done|]. simpl.
  apply Forall_cons in Hascii as [Hc Hs].
  destruct (Z.leb_spec 128 (libc.code c)); [lia|].
  fold (is_whitespace c). rewrite Hhead. simpl.
  by rewrite clean_loop_fixed.
Qed.

Lemma digit_value_props (c : ascii) (v : Z) :
  libc.digit_value c = Some v ->
  libc.isspace c = false
  /\ Ascii.eqb c "-" = false /\ Ascii.eqb c "+" = false
  /\ Ascii.eqb c "x" = false /\ Ascii.eqb c "X" = false
  /\ 0 <= v < 16.
Proof.
  intros H.
  destruct c as [[] [] [] [] [] [] [] []]; vm_compute in H; try discriminate;
    injection H as <-; repeat split; try reflexivity; lia.
Qed.

Lemma strtoul16_4_digits (c1 c2 c3 c4 stop : ascii) (rest : string)
    (v1 v2 v3 v4 : Z) :
  libc.digit_value c1 = Some v1 -> libc.digit_value c2 = Some v2 ->
  libc.digit_value c3 = Some v3 -> libc.digit_value c4 = Some v4 ->
  libc.digit_value stop = None ->
  libc.strtoul16
    (String c1 (String c2 (String c3 (String c4 (String stop rest)))))
  = (hex4 v1 v2 v3 v4, 4).
Proof.
  intros H1 H2 H3 H4 Hstop.
  destruct (digit_value_props _ _ H1) as (S1 & M1 & P1 & _ & _ & R1).
  destruct (digit_value_props _ _ H2) as (_ & _ & _ & X2 & X2' & R2).
  destruct (digit_value_props _ _ H3) as (_ & _ & _ & _ & _ & R3).
  destruct (digit_value_props _ _ H4) as (_ & _ & _ & _ & _ & R4).
  unfold libc.strtoul16. cbn [libc.skip_space]. rewrite S1, M1, P1.
  rewrite X2, X2'. rewrite andb_false_r. cbn [andb].
  cbn [libc.digits16]. rewrite H1, H2, H3, H4, Hstop.
  change (0 + 1 + 1 + 1 + 1) with 4. cbn [Z.eqb].
  change (0 * 16 + v1) with v1. fold (hex4 v1 v2 v3 v4).
  assert (0 <= hex4 v1 v2 v3 v4 < 65536) as R by (unfold hex4; lia).
  destruct (Z.ltb_spec libc.ULONG_MAX (hex4 v1 v2 v3 v4));
    [unfold libc.ULONG_MAX in *; lia|done].
Qed.

Section dicom_properties.
Context {vrs : DicomVR}.

(** X20: a tag cell is parsed into its group and element.  When the first
    cell of a row holds [(GGGG,EEEE)], four hexadecimal digits each, in
    either case, [dicom_dict_xml_parse_tag_td] stores the two numbers,
    leaves the row's invalid mark as it was and moves on to the next cell;
    [DICOM_TAG] then packs them without loss, the element in the high and
    the group in the low 16 bits. *)
Theorem tag_cell_parsed (parser : dicom_dict_parser_t)
    (g1 g2 g3 g4 e1 e2 e3 e4 : ascii) (vg1 vg2 vg3 vg4 ve1 ve2 ve3 ve4 : Z) :
  libc.digit_value g1 = Some vg1 -> libc.digit_value g2 = Some vg2 ->
  libc.digit_value g3 = Some vg3 -> libc.digit_value g4 = Some vg4 ->
  libc.digit_value e1 = Some ve1 -> libc.digit_value e2 = Some ve2 ->
  libc.digit_value e3 = Some ve3 -> libc.digit_value e4 = Some ve4 ->
  parser.td_index parser = 0 ->
  parser.current_cleaned_content parser
  = tag_cell g1 g2 g3 g4 e1 e2 e3 e4 ->
  parser.current_cleaned_content_len parser = 11 ->
  let parser' := dicom_dict_xml_parse_tag_td parser in
  parser.current_dicom_group parser' = hex4 vg1 vg2 vg3 vg4
  /\ parser.current_dicom_element parser' = hex4 ve1 ve2 ve3 ve4
  /\ parser.current_dicom_invalid parser'
     = parser.current_dicom_invalid parser
  /\ parser.td_index parser' = 1
  /\ DICOM_TAG (parser.current_dicom_group parser')
       (parser.current_dicom_element parser')
     = hex4 ve1 ve2 ve3 ve4 * 2 ^ 16 + hex4 vg1 vg2 vg3 vg4.
Proof.
  intros G1 G2 G3 G4 E1 E2 E3 E4 Htd Hcontent Hlen parser'.
  assert (0 <= hex4 vg1 vg2 vg3 vg4 < 65536) as Rg.
  { destruct (digit_value_props _ _ G1) as (_ & _ & _ & _ & _ & ?).
    destruct (digit_value_props _ _ G2) as (_ & _ & _ & _ & _ & ?).
    destruct (digit_value_props _ _ G3) as (_ & _ & _ & _ & _ & ?).
    destruct (digit_value_props _ _ G4) as (_ & _ & _ & _ & _ & ?).
    unfold hex4. lia. }
  assert (0 <= hex4 ve1 ve2 ve3 ve4 < 65536) as Re.
  { destruct (digit_value_props _ _ E1) as (_ & _ & _ & _ & _ & ?).
    destruct (digit_value_props _ _ E2) as (_ & _ & _ & _ & _ & ?).
    destruct (digit_value_props _ _ E3) as (_ & _ & _ & _ & _ & ?).
    destruct (digit_value_props _ _ E4) as (_ & _ & _ & _ & _ & ?).
    unfold hex4. lia. }
  assert (parser.current_dicom_group parser' = hex4 vg1 vg2 vg3 vg4
          /\ parser.current_dicom_element parser' = hex4 ve1 ve2 ve3 ve4
          /\ parser.current_dicom_invalid parser'
             = parser.current_dicom_invalid parser
          /\ parser.td_index parser' = 1) as (Hg & He & Hi & Ht).
  { unfold parser', dicom_dict_xml_parse_tag_td.
    rewrite Htd, Hcontent, Hlen. unfold tag_cell.
    change (string_from _ 1)
      with (String g1 (String g2 (String g3 (String g4 (String ","
              (String e1 (String e2 (String e3 (String e4 (String ")"
                 EmptyString)))))))))).
    change (string_from _ 6)
      with (String e1 (String e2 (String e3 (String e4 (String ")"
              EmptyString))))).
    rewrite (strtoul16_4_digits g1 g2 g3 g4 "," _ _ _ _ _ G1 G2 G3 G4
               eq_refl).
    rewrite (strtoul16_4_digits e1 e2 e3 e4 ")" _ _ _ _ _ E1 E2 E3 E4
               eq_refl).
    simpl. unfold to_u32. rewrite !Z.mod_small by lia. rewrite Htd. done. }
  repeat split; try done.
  rewrite Hg, He, DICOM_TAG_fields by lia.
  rewrite !Z.mod_small by lia. done.
Qed.

(** X21: no cell of a row takes the invalid mark away, and every cell moves
    the cell counter on by one.  The cleaned content of the cell is not
    touched. *)
Theorem cell_keeps_invalid_mark (parser : dicom_dict_parser_t) :
  let parser' := dicom_dict_xml_parse_tag_td parser in
  parser.td_index parser' = wrap32 (parser.td_index parser + 1)
  /\ (parser.current_dicom_invalid parser = true ->
      parser.current_dicom_invalid parser' = true)
  /\ parser.current_cleaned_content parser'
     = parser.current_cleaned_content parser
  /\ parser.current_cleaned_content_len parser'
     = parser.current_cleaned_content_len parser.
Proof.
  unfold dicom_dict_xml_parse_tag_td.
  destruct (libc.strtoul16
              (string_from (parser.current_cleaned_content parser) 1))
    as [p1 k1].
  destruct (libc.strtoul16
              (string_from (parser.current_cleaned_content parser) 6))
    as [p6 k6].
  repeat case_match; simpl; repeat split; try done;
    by repeat case_match.
Qed.

End dicom_properties.

(** ** Collecting element content *)

Lemma content_loop_spec (realloc : list byte -> Z -> option (list byte))
    (data : list byte) :
  realloc_succeeds realloc ->
  forall (contentbuf : list byte) (contentlen contentbuf_capacity : Z),
  0 <= contentlen < contentbuf_capacity ->
  Z.of_nat (length contentbuf) = contentbuf_capacity ->
  2 * (contentlen + Z.of_nat (length data)) < 2 ^ 64 ->
  exists contentbuf' capacity',
    content_loop realloc data contentbuf contentlen contentlen
      contentbuf_capacity
    = Returned
        (content.mk contentbuf'
           (Some (contentlen + Z.of_nat (length data)))
           (contentlen + Z.of_nat (length data)) capacity')
    /\ contentlen + Z.of_nat (length data) < capacity'
    /\ Z.of_nat (length contentbuf') = capacity'
    /\ contentbuf_capacity <= capacity'
    /\ take (Z.to_nat (contentlen + Z.of_nat (length data))) contentbuf'
       = take (Z.to_nat contentlen) contentbuf ++ data.
Proof.
  intros Hrealloc. induction data as [|c data IH];
    intros buf len cap Hlen Hcap Hfit.
  { exists buf, cap. simpl. rewrite Z.add_0_r, app_nil_r.
    repeat split; try done; lia. }
  cbn [content_loop]. cbn [length] in Hfit.
  destruct (Z.ltb_spec len cap); [|lia].
  destruct (Z.leb_spec 0 len); [|lia].
  destruct (Z.ltb_spec len (Z.of_nat (length buf))); [|lia].
  cbn [andb]. unfold to_size_t. rewrite (Z.mod_small (len + 1)) by lia.
  assert (take (Z.to_nat (len + 1)) (<[Z.to_nat len := c]> buf)
          = take (Z.to_nat len) buf ++ [c]) as Htake.
  { replace (Z.to_nat (len + 1)) with (S (Z.to_nat len)) by lia.
    rewrite (take_S_r _ _ c) by (apply list_lookup_insert_eq; lia).
    by rewrite take_insert_ge by lia. }
  replace (len + Z.of_nat (length (c :: data)))
    with (len + 1 + Z.of_nat (length data)) by (cbn [length]; lia).
  destruct (Z.eqb_spec (len + 1) cap) as [Hfull|Hroom].
  - rewrite (Z.mod_small (cap * 2)) by lia.
    destruct (Hrealloc (<[Z.to_nat len := c]> buf) (cap * 2))
      as (buf2 & -> & Hlen2 & Hold); [rewrite length_insert; lia|].
    destruct (IH buf2 (len + 1) (cap * 2) ltac:(lia) Hlen2 ltac:(lia))
      as (buf' & cap' & -> & Hlt & Hlen' & Hcap' & Hprefix).
    exists buf', cap'. split; [done|]. split; [done|]. split; [done|].
    split; [lia|]. rewrite Hprefix. change (c :: data) with ([c] ++ data).
    rewrite app_assoc. f_equal.
    rewrite <- Htake. rewrite <- Hold. rewrite length_insert.
    rewrite take_take. f_equal. lia.
  - destruct (IH (<[Z.to_nat len := c]> buf) (len + 1) cap ltac:(lia)
                ltac:(rewrite length_insert; lia) ltac:(lia))
      as (buf' & cap' & -> & Hlt & Hlen' & Hcap' & Hprefix).
    exists buf', cap'. split; [done|]. split; [done|]. split; [done|].
    split; [done|]. by rewrite Hprefix, Htake, <- app_assoc.
Qed.

(** X22: element content collected by [parse_dicom_part06_xml] is never cut
    short and never overruns its buffer.  From a state where [contentcur]
    stands [contentlen] bytes into a buffer of [contentbuf_capacity] bytes,
    with room left, and as long as [realloc] succeeds, a token of
    [x->data] is appended whole and NUL-terminated: the buffer is doubled
    whenever it fills up, so that afterwards there is room left again. *)
Theorem content_token_appends
    (realloc : list byte -> Z -> option (list byte)) (data : list byte)
    (parser : content_t) :
  realloc_succeeds realloc ->
  content.contentcur parser = Some (content.contentlen parser) ->
  0 <= content.contentlen parser < content.contentbuf_capacity parser ->
  Z.of_nat (length (content.contentbuf parser))
  = content.contentbuf_capacity parser ->
  2 * (content.contentlen parser + Z.of_nat (length data)) < 2 ^ 64 ->
  exists parser',
    content_token realloc data parser = Returned parser'
    /\ content.contentlen parser'
       = content.contentlen parser + Z.of_nat (length data)
    /\ content.contentcur parser' = Some (content.contentlen parser')
    /\ content.contentlen parser' < content.contentbuf_capacity parser'
    /\ Z.of_nat (length (content.contentbuf parser'))
       = content.contentbuf_capacity parser'
    /\ content.contentbuf_capacity parser
       <= content.contentbuf_capacity parser'
    /\ take (Z.to_nat (content.contentlen parser'))
         (content.contentbuf parser')
       = take (Z.to_nat (content.contentlen parser))
           (content.contentbuf parser) ++ data
    /\ content.contentbuf parser'
         !! Z.to_nat (content.contentlen parser') = Some x00.
Proof.
  intros Hrealloc Hcur Hlen Hcap Hfit. unfold content_token. rewrite Hcur.
  destruct (content_loop_spec realloc data Hrealloc _ _ _ Hlen Hcap Hfit)
    as (buf' & cap' & -> & Hlt & Hlen' & Hcap' & Hprefix).
  cbn [obind content.contentcur content.contentbuf content.contentlen
       content.contentbuf_capacity].
  set (len' := content.contentlen parser + Z.of_nat (length data)) in *.
  destruct (memset_spec buf' len' x00 1 ltac:(lia) ltac:(lia) ltac:(lia))
    as (buf'' & -> & Hlen'' & Hbytes).
  eexists. split; [done|]. simpl.
  split; [done|]. split; [done|]. split; [done|].
  split; [lia|]. split; [done|]. split.
  - rewrite <- Hprefix. apply list_eq. intros j.
    destruct (decide (j < Z.to_nat len')%nat) as [Hj|Hj].
    + rewrite !lookup_take_lt by done.
      specialize (Hbytes (Z.of_nat j) ltac:(lia)).
      rewrite Nat2Z.id in Hbytes. rewrite Hbytes.
      destruct (Z.leb_spec len' (Z.of_nat j)); [lia|done].
    + rewrite !lookup_take_ge by lia. done.
  - specialize (Hbytes len' ltac:(lia)). rewrite Hbytes.
    destruct (Z.leb_spec len' len'); [|lia].
    destruct (Z.ltb_spec len' (len' + 1)); [done|lia].
Qed.

(** ** Worker threads *)

Section thread_properties.
Context {threads : Threads}.

Lemma spawn_workers_spec (n : nat) :
  forall (i : Z) (thread_infos started : list Z),
  1 <= i -> i + Z.of_nat n <= Z.of_nat (length thread_infos) ->
  i + Z.of_nat n <= INT32_MAX ->
  exists thread_infos',
    spawn_workers n i thread_infos started
    = Returned
        (thread_infos',
         started ++ List.filter pthread_create (seqZ i (Z.of_nat n)))
    /\ length thread_infos' = length thread_infos
    /\ (forall j, 0 <= j ->
          thread_infos' !! Z.to_nat j
          = if (i <=? j) && (j <? i + Z.of_nat n) then Some j
            else thread_infos !! Z.to_nat j).
Proof.
  induction n as [|n IH]; intros i infos started Hi Hfit Hmax.
  { exists infos. simpl. rewrite app_nil_r.
    repeat split; try done. intros j Hj.
    destruct (Z.leb_spec i j), (Z.ltb_spec j (i + Z.of_nat 0)); simpl;
      try done; lia. }
  cbn [spawn_workers].
  destruct (Z.leb_spec 0 i); [|lia].
  destruct (Z.ltb_spec i (Z.of_nat (length infos))); [|lia].
  cbn [andb]. rewrite wrap32_id by (unfold INT32_MIN, INT32_MAX in *; lia).
  destruct (IH (i + 1) (<[Z.to_nat i := i]> infos)
              (if pthread_create i then started ++ [i] else started)
              ltac:(lia) ltac:(rewrite length_insert; lia) ltac:(lia))
    as (infos' & -> & Hlen & Hslots).
  exists infos'. rewrite length_insert in Hlen.
  replace (Z.of_nat (S n)) with (Z.succ (Z.of_nat n)) by lia.
  rewrite (seqZ_cons i) by lia. rewrite Z.pred_succ. cbn [List.filter].
  replace (Z.succ i) with (i + 1) by lia. split.
  - destruct (pthread_create i); [by rewrite <- app_assoc|done].
  - split; [done|]. intros j Hj. rewrite Hslots by done.
    destruct (Z.leb_spec (i + 1) j), (Z.ltb_spec j (i + 1 + Z.of_nat n)),
      (Z.leb_spec i j), (Z.ltb_spec j (i + Z.succ (Z.of_nat n)));
      simpl; try done; try lia.
    + apply list_lookup_insert_ne. lia.
    + assert (j = i) as -> by lia. apply list_lookup_insert_eq. lia.
    + apply list_lookup_insert_ne. lia.
Qed.

(** X23: every worker that [linux_init_multithreading] starts is enabled.
    For a thread count that fits the thread table, the call returns with
    [global_worker_thread_count] and [global_active_worker_thread_count]
    both one less than the count; the workers started are those of the
    slots 1 to that number whose thread could be created, slot [i] holding
    [logical_thread_index = i]; and as long as the active count stays as
    it is, none of them takes the "disabled" branch of [worker_thread]:
    each turn of its loop ends in [do_worker_work]. *)
Theorem started_workers_are_enabled (suggested_total_thread_count : Z) :
  1 <= suggested_total_thread_count <= MAX_THREAD_COUNT ->
  MAX_THREAD_COUNT <= INT32_MAX ->
  exists state,
    linux_init_multithreading suggested_total_thread_count = Returned state
    /\ threading.global_worker_thread_count state
       = suggested_total_thread_count - 1
    /\ threading.global_active_worker_thread_count state
       = suggested_total_thread_count - 1
    /\ threading.started state
       = List.filter pthread_create
           (seqZ 1 (suggested_total_thread_count - 1))
    /\ (forall i, i ∈ threading.started state ->
          threading.thread_infos state !! Z.to_nat i = Some i
          /\ forall work_waiting,
               worker_thread_turn i
                 (threading.global_active_worker_thread_count state)
                 work_waiting
                 (threading.global_active_worker_thread_count state)
               = TURN_WORK).
Proof.
  intros Htotal Hmax. unfold linux_init_multithreading.
  destruct (spawn_workers_spec (Z.to_nat (suggested_total_thread_count - 1))
              1 (replicate (Z.to_nat MAX_THREAD_COUNT) 0) []
              ltac:(lia) ltac:(rewrite length_replicate; lia) ltac:(lia))
    as (infos & -> & Hlen & Hslots).
  rewrite Z2Nat.id in * by lia. simpl.
  rewrite wrap32_id by (unfold INT32_MIN, INT32_MAX in *; lia).
  eexists. split; [done|]. simpl. split; [done|]. split; [done|].
  split; [done|]. intros i Hi.
  apply list_elem_of_In, filter_In in Hi as [Hi _].
  apply list_elem_of_In, elem_of_seqZ in Hi.
  split.
  - rewrite Hslots by lia.
    destruct (Z.leb_spec 1 i), (Z.ltb_spec i (1 + (suggested_total_thread_count - 1)));
      simpl; try done; lia.
  - intros work_waiting. unfold worker_thread_turn.
    destruct (Z.ltb_spec (suggested_total_thread_count - 1) i); [lia|].
    by destruct work_waiting.
Qed.

End thread_properties.

(** * Trimming, by the geometry of the tile *)

Section trimming.
Context {platform : Platform}.


End trimming.

(** * The worker pool at work *)





(** * The properties on the example slides *)

Lemma openslide_mpp_default_witness :
  image.mpp_x slide.img = F32.of_double (double_ratio 1 4)
  /\ image.mpp_y slide.img = F32.one
  /\ image.is_mpp_known slide.img = true
  /\ image.height_in_um slide.img = F32.of_Z 8000.
Proof.
  destruct (openslide_mpp_default (platform := slide.platform) false true 7
              VIEWER_FILE_TYPE_OPENSLIDE_COMPATIBLE slide.filename slide.img
              ltac:(reflexivity) ltac:(vm_compute; reflexivity)
              ltac:(reflexivity))
    as (osr & Hosr & Hx0 & Hy & Hx & Hy' & Hknown & Hwidth & Hheight).
  injection Hosr as <-.
  split; [apply Hx; vm_compute; reflexivity|].
  pose proof (Hy ltac:(vm_compute; reflexivity)) as Hone.
  split; [exact Hone|].
  split; [apply Hknown; left; vm_compute; eauto|].
  rewrite Hheight, Hone. vm_compute. reflexivity.
Defined.

Lemma too_many_native_levels_abort_witness :
  load_image_from_file (platform := flat.platform) false true 7
    VIEWER_FILE_TYPE_OPENSLIDE_COMPATIBLE slide.filename = Panicked.
Proof.
  exact (proj1 (too_many_native_levels_abort (platform := flat.platform)
                  false 7 VIEWER_FILE_TYPE_OPENSLIDE_COMPATIBLE slide.filename
                  flat.w 1%nat ltac:(reflexivity)
                  ltac:(vm_compute; reflexivity) ltac:(reflexivity)
                  ltac:(vm_compute; reflexivity))).
Defined.

Lemma slide_grids_fit (osr : nat) (i : Z) :
  wsi.osr (image.wsi slide.img) = Some osr ->
  0 <= i < wsi.level_count (image.wsi slide.img) ->
  tile_grid_fits_i32 (platform := slide.platform)
    (openslide_get_level_dimensions slide.api osr i).1
    (openslide_get_level_dimensions slide.api osr i).2.
Proof.
  intros _ Hi. simpl in Hi.
  assert (i = 0 \/ i = 1) as [-> | ->] by lia; by vm_compute.
Defined.

Lemma tile_count_is_grid_product_witness :
  (exists li,
     image.level_images slide.img !! 2%nat = Some li
     /\ level_image.exists_ li = true
     /\ level_image.pyramid_image_index li = 1
     /\ level_image.width_in_tiles li = ceil_div 2500 256
     /\ level_image.height_in_tiles li = ceil_div 2000 256
     /\ level_image.width_in_tiles li = 10
     /\ level_image.height_in_tiles li = 8
     /\ level_image.tile_count li = 80)
  /\ (exists li,
        image.level_images slide.img !! 1%nat = Some li
        /\ level_image.exists_ li = false
        /\ level_image.width_in_tiles li = 0
        /\ level_image.height_in_tiles li = 0
        /\ level_image.tile_count li = 0).
Proof.
  split.
  - destruct (tile_count_is_grid_product (platform := slide.platform) false
                true 7 VIEWER_FILE_TYPE_OPENSLIDE_COMPATIBLE slide.filename
                slide.img ltac:(reflexivity) ltac:(reflexivity)
                ltac:(vm_compute; reflexivity) slide_grids_fit
                2 ltac:(vm_compute; split; [discriminate|reflexivity]))
      as (li & Hli & Hcount & Hgrid & _).
    exists li. split; [exact Hli|].
    vm_compute in Hli. injection Hli as <-.
    destruct (Hgrid eq_refl 1%nat eq_refl) as [Hw Hh].
    split; [reflexivity|]. split; [reflexivity|].
    split; [exact Hw|]. split; [exact Hh|].
    split; [exact Hw|]. split; [exact Hh|]. exact Hcount.
  - destruct (tile_count_is_grid_product (platform := slide.platform) false
                true 7 VIEWER_FILE_TYPE_OPENSLIDE_COMPATIBLE slide.filename
                slide.img ltac:(reflexivity) ltac:(reflexivity)
                ltac:(vm_compute; reflexivity) slide_grids_fit
                1 ltac:(vm_compute; split; [discriminate|reflexivity]))
      as (li & Hli & Hcount & _ & Hempty).
    exists li. split; [exact Hli|].
    vm_compute in Hli. injection Hli as <-.
    destruct (Hempty eq_refl) as [Hw Hh].
    split; [reflexivity|]. split; [exact Hw|]. split; [exact Hh|].
    exact Hcount.
Defined.

Lemma native_level_used_once_witness :
  level_image.pyramid_image_index (image.level_images slide.img !!! 0%nat)
  < level_image.pyramid_image_index (image.level_images slide.img !!! 2%nat).
Proof.
  apply (native_level_used_once (platform := slide.platform) false true 7
           VIEWER_FILE_TYPE_OPENSLIDE_COMPATIBLE slide.filename slide.img
           ltac:(reflexivity) ltac:(vm_compute; reflexivity)
           0 2 (image.level_images slide.img !!! 0%nat)
           (image.level_images slide.img !!! 2%nat)
           ltac:(vm_compute; split; [discriminate|reflexivity])
           ltac:(vm_compute; split; [discriminate|reflexivity])
           ltac:(reflexivity) ltac:(reflexivity)
           ltac:(reflexivity) ltac:(reflexivity)).
  reflexivity.
Defined.

Lemma level_stack_dense_powers_of_two_witness :
  exists li,
    image.level_images slide.img !! 1%nat = Some li
    /\ level_image.downsample_factor li = F32.exp2f_int 1
    /\ F32.exact_Z (level_image.downsample_factor li) = Some 2
    /\ (level_image.exists_ li = false ->
        level_image.tile_width li = image.tile_width slide.img
        /\ level_image.tile_height li = image.tile_height slide.img
        /\ level_image.um_per_pixel_x li
           = F32.mul (image.mpp_x slide.img) (F32.exp2f_int 1)
        /\ level_image.um_per_pixel_y li
           = F32.mul (image.mpp_y slide.img) (F32.exp2f_int 1)).
Proof.
  exact (proj2 (level_stack_dense_powers_of_two (platform := slide.platform)
                  false true 7 VIEWER_FILE_TYPE_OPENSLIDE_COMPATIBLE
                  slide.filename slide.img
                  ltac:(vm_compute; discriminate) ltac:(reflexivity)
                  ltac:(vm_compute; reflexivity))
               1 ltac:(vm_compute; split; [discriminate|reflexivity])).
Defined.

Lemma tiles_self_consistent_witness :
  exists t,
    level_image.tiles (image.level_images slide.img !!! 0%nat) !! 45%nat
    = Some t
    /\ tile.tile_index t = 45
    /\ tile.tile_x t = 5
    /\ tile.tile_y t = 1.
Proof.
  exact (tiles_self_consistent (platform := slide.platform) false true 7
           VIEWER_FILE_TYPE_OPENSLIDE_COMPATIBLE slide.filename slide.img
           ltac:(reflexivity) ltac:(vm_compute; reflexivity)
           0 (image.level_images slide.img !!! 0%nat)
           ltac:(vm_compute; split; [discriminate|reflexivity])
           ltac:(reflexivity) ltac:(reflexivity)
           45 ltac:(vm_compute; split; [discriminate|reflexivity])).
Defined.

Lemma placeholder_level_rejected_witness :
  load_tile_func (platform := edge.platform) 1 edge.placeholder_task
    edge.world0 = AssertionFailed.
Proof.
  apply (placeholder_level_rejected (platform := edge.platform) 1
           edge.placeholder_task edge.world0
           (image.level_images slide.img !!! 1%nat));
    vm_compute; reflexivity.
Defined.

(** C1 as stated fails: the DICOM decoder returns a null result for the
    job, and afterwards the completion queue, empty before, holds a message
    for the tile, with a null [pixel_memory]. *)
Lemma failed_decode_is_still_enqueued :
  backend_decode_failed (platform := slide.platform) 1
    (edge.task IMAGE_BACKEND_DICOM) edge.li = true
  /\ work_queue.entries (world.global_completion_queue edge.world0) = []
  /\ exists s',
       load_tile_func (platform := slide.platform) 1
         (edge.task IMAGE_BACKEND_DICOM) edge.world0 = Returned s'
       /\ work_queue.entries (world.global_completion_queue s')
          = [(CB_viewer_notify_load_tile_completed,
              completion_message (edge.task IMAGE_BACKEND_DICOM) edge.li None)].
Proof.
  split; [reflexivity|]. split; [reflexivity|].
  eexists. split; [vm_compute; reflexivity|reflexivity].
Qed.

Lemma failed_decode_notifies_with_null_buffer_witness :
  load_tile_func (platform := slide.platform) 1 (edge.task IMAGE_BACKEND_TIFF)
    edge.world0
  = Returned
      {| world.heap := ∅;
         world.next_block := 1;
         world.global_completion_queue :=
           work_queue.mk
             [(CB_viewer_notify_load_tile_completed,
               completion_message (edge.task IMAGE_BACKEND_TIFF) edge.li None)]
             1024 |}.
Proof.
  exact (failed_decode_notifies_with_null_buffer (platform := slide.platform)
           1 (edge.task IMAGE_BACKEND_TIFF) edge.world0 edge.li
           ltac:(reflexivity) ltac:(reflexivity)
           ltac:(vm_compute; reflexivity) ltac:(vm_compute; reflexivity)
           ltac:(vm_compute; discriminate) ltac:(reflexivity)
           ltac:(reflexivity)
           ltac:(intros _; eexists; vm_compute; reflexivity)
           ltac:(reflexivity) ltac:(reflexivity)).
Defined.

(** * The further properties on the examples *)

Lemma slide_ladder_sorted :
  ladder_sorted (image.wsi slide.img).
Proof.
  split; [by vm_compute|].
  intros i j Hi Hij Hj. change (wsi.level_count (image.wsi slide.img)) with 2 in Hj.
  assert (i = 0 /\ j = 1) as [-> ->] by lia. by vm_compute.
Defined.

Lemma opened_image_level_bounds_witness :
  1 <= wsi.level_count (image.wsi slide.img)
  /\ wsi.level_count (image.wsi slide.img) <= image.level_count slide.img
  /\ image.level_count slide.img <= 16
  /\ Z.of_nat (length (image.level_images slide.img)) = 16.
Proof.
  exact (opened_image_level_bounds (platform := slide.platform) false true 7
           VIEWER_FILE_TYPE_OPENSLIDE_COMPATIBLE slide.filename slide.img
           ltac:(reflexivity) ltac:(vm_compute; reflexivity)
           ltac:(reflexivity)).
Defined.

Lemma logical_ladder_height_witness :
  native_downsample_level (image.wsi slide.img) 1 < image.level_count slide.img.
Proof.
  apply (proj1 (logical_ladder_height (platform := slide.platform) false true
                  7 VIEWER_FILE_TYPE_OPENSLIDE_COMPATIBLE slide.filename
                  slide.img ltac:(reflexivity) ltac:(vm_compute; reflexivity)
                  ltac:(reflexivity)) 1).
  vm_compute. split; [discriminate|reflexivity].
Defined.

Lemma sorted_ladder_fully_mapped_witness :
  exists li,
    image.level_images slide.img !! 2%nat = Some li
    /\ level_image.exists_ li = true
    /\ level_image.pyramid_image_index li = 1.
Proof.
  exact (proj2 (sorted_ladder_fully_mapped (platform := slide.platform) false
                  true 7 VIEWER_FILE_TYPE_OPENSLIDE_COMPATIBLE slide.filename
                  slide.img ltac:(reflexivity) ltac:(vm_compute; reflexivity)
                  ltac:(reflexivity) slide_ladder_sorted 1
                  ltac:(vm_compute; split; [discriminate|reflexivity]))).
Defined.

Lemma existing_level_matches_native_witness :
  native_downsample_level (image.wsi slide.img)
    (level_image.pyramid_image_index (image.level_images slide.img !!! 2%nat))
  = 2
  /\ level_image.tile_count (image.level_images slide.img !!! 2%nat) = 80.
Proof.
  destruct (existing_level_matches_native (platform := slide.platform) false
              true 7 VIEWER_FILE_TYPE_OPENSLIDE_COMPATIBLE slide.filename
              slide.img ltac:(reflexivity) ltac:(vm_compute; reflexivity)
              2 (image.level_images slide.img !!! 2%nat)
              ltac:(vm_compute; split; [discriminate|reflexivity])
              ltac:(reflexivity) ltac:(reflexivity))
    as (_ & Hlevel & Hcount & _).
  split; [exact Hlevel|]. rewrite Hcount. vm_compute. reflexivity.
Defined.

Lemma open_failure_gives_invalid_image_witness :
  exists img,
    load_image_from_file (platform := closed.platform) false true 7
      VIEWER_FILE_TYPE_OPENSLIDE_COMPATIBLE closed.filename = Returned img
    /\ image.is_valid img = false
    /\ wsi.osr (image.wsi img) = None
    /\ image.level_count img = 0
    /\ image.resource_id img = 7.
Proof.
  apply (open_failure_gives_invalid_image (platform := closed.platform) false
           true 7 VIEWER_FILE_TYPE_OPENSLIDE_COMPATIBLE closed.filename
           ltac:(reflexivity)).
  right. left. reflexivity.
Defined.

Lemma opened_level_decodes_through_openslide_witness :
  exists osr,
    wsi.osr (image.wsi slide.img) = Some osr
    /\ load_tile_func (platform := slide.platform) 1 coarse.task edge.world0
       = Returned
           {| world.heap :=
                {[ 0%nat := replicate (Z.to_nat (256 * 256 * 4)) xff ]};
              world.next_block := 1;
              world.global_completion_queue :=
                (add_work_queue_entry (work_queue.mk [] 1024)
                   CB_viewer_notify_load_tile_completed
                   (completion_message coarse.task (image.level_images slide.img !!! 2%nat)
                      (Some 0%nat))).1 |}.
Proof.
  destruct (opened_level_decodes_through_openslide (platform := slide.platform)
              false true 7 VIEWER_FILE_TYPE_OPENSLIDE_COMPATIBLE
              slide.filename slide.img 1 coarse.task edge.world0
              (image.level_images slide.img !!! 2%nat)
              ltac:(reflexivity) ltac:(vm_compute; reflexivity)
              ltac:(reflexivity) ltac:(reflexivity)
              ltac:(vm_compute; discriminate) ltac:(reflexivity)
              ltac:(vm_compute; split; [discriminate|reflexivity])
              ltac:(reflexivity) ltac:(reflexivity) ltac:(reflexivity)
              ltac:(reflexivity))
    as (osr & Hosr & Hrun).
  exists osr. split; [exact Hosr|]. rewrite Hrun. reflexivity.
Defined.

Lemma dicom_tile_passed_through_witness :
  load_tile_func (platform := edge.platform) 1
    (edge.task IMAGE_BACKEND_DICOM) edge.world0
  = Returned
      {| world.heap := {[ 1%nat := edge.decoded ]};
         world.next_block := 2;
         world.global_completion_queue :=
           (add_work_queue_entry (work_queue.mk [] 1024)
              CB_viewer_notify_load_tile_completed
              (completion_message (edge.task IMAGE_BACKEND_DICOM) edge.li (Some 1%nat))).1 |}.
Proof.
  exact (dicom_tile_passed_through (platform := edge.platform) 1
           (edge.task IMAGE_BACKEND_DICOM) edge.world0 edge.li edge.decoded
           ltac:(reflexivity) ltac:(reflexivity)
           ltac:(vm_compute; reflexivity) ltac:(vm_compute; reflexivity)
           ltac:(vm_compute; discriminate) ltac:(reflexivity)
           ltac:(reflexivity) ltac:(reflexivity) ltac:(reflexivity)
           ltac:(reflexivity)).
Defined.

Lemma excess_count_never_negative_witness :
  excess_count (tile_y_excess_of (edge.task IMAGE_BACKEND_TIFF) edge.li)
    (level_image.y_tile_side_in_um edge.li) 4 = Some 2
  /\ 0 <= 2.
Proof.
  split; [vm_compute; reflexivity|].
  apply (excess_count_never_negative
           (tile_y_excess_of (edge.task IMAGE_BACKEND_TIFF) edge.li)
           (level_image.y_tile_side_in_um edge.li) 4 2).
  - vm_compute. reflexivity.
  - vm_compute. reflexivity.
  - lia.
  - vm_compute. reflexivity.
Defined.

Lemma load_tile_assertion_causes_witness :
  level_image.exists_ (image.level_images slide.img !!! 1%nat) = false
  \/ F32.gtb
       (level_image.x_tile_side_in_um (image.level_images slide.img !!! 1%nat))
       F32.zero = false
  \/ F32.gtb
       (level_image.y_tile_side_in_um (image.level_images slide.img !!! 1%nat))
       F32.zero = false
  \/ image.type slide.img <> IMAGE_TYPE_WSI
  \/ image.backend slide.img = IMAGE_BACKEND_ISYNTAX
  \/ image.backend slide.img = IMAGE_BACKEND_STBI
  \/ load_tile_task.completion_callback edge.placeholder_task = None.
Proof.
  apply (load_tile_assertion_causes (platform := edge.platform) 1
           edge.placeholder_task edge.world0
           (image.level_images slide.img !!! 1%nat)).
  - reflexivity.
  - vm_compute. discriminate.
  - vm_compute. discriminate.
  - vm_compute. reflexivity.
Defined.

Lemma tile_release_is_idempotent_witness :
  exists tile' s',
    tile_release_cache (Some cached.tile) cached.world = Returned (tile', s')
    /\ world.heap s' = delete 0%nat (world.heap cached.world)
    /\ world.next_block s' = 1%nat
    /\ tile.pixels tile' = None
    /\ tile.is_cached tile' = false
    /\ tile.need_keep_in_cache tile' = false
    /\ tile.tile_index tile' = 45
    /\ tile.tile_x tile' = 5
    /\ tile.tile_y tile' = 1
    /\ tile_release_cache (Some tile') s' = Returned (tile', s').
Proof.
  apply (tile_release_is_idempotent cached.tile cached.world).
  intros p [= <-]. exists edge.decoded. reflexivity.
Defined.

Lemma file_type_ignores_case_witness :
  viewer_determine_file_type (fs := scans.fs) scans.upper
  = viewer_determine_file_type (fs := scans.fs) scans.lower.
Proof.
  apply (file_type_ignores_case (fs := scans.fs) scans.upper scans.lower);
    reflexivity.
Defined.

Lemma color_print_parse_roundtrip_witness :
  asap_xml_parse_color (asap_xml_print_color 32 (rgba.mk 255 128 0 255))
  = rgba.mk 255 128 0 255.
Proof.
  apply (color_print_parse_roundtrip 32 (rgba.mk 255 128 0 255)); simpl; lia.
Defined.

Lemma attrval_cases_witness :
  attrval (replicate 128 x00) (Some 127) [xc3; xa9] = Undefined.
Proof.
  exact (attrval_cases (replicate 128 x00) 127 [xc3; xa9]
           ltac:(reflexivity) ltac:(unfold ATTRBUF_SIZE; lia)).
Defined.

Lemma get_spaces_blanks_witness :
  get_spaces 100 = Returned spaces.
Proof.
  exact (get_spaces_blanks 100 ltac:(lia)).
Defined.

Lemma tag_cell_parsed_witness :
  parser.current_dicom_group
    (dicom_dict_xml_parse_tag_td (vrs := row.vrs) row.parser0) = 12298
  /\ parser.current_dicom_element
       (dicom_dict_xml_parse_tag_td (vrs := row.vrs) row.parser0) = 162
  /\ parser.current_dicom_invalid
       (dicom_dict_xml_parse_tag_td (vrs := row.vrs) row.parser0) = false
  /\ parser.td_index
       (dicom_dict_xml_parse_tag_td (vrs := row.vrs) row.parser0) = 1
  /\ DICOM_TAG
       (parser.current_dicom_group
          (dicom_dict_xml_parse_tag_td (vrs := row.vrs) row.parser0))
       (parser.current_dicom_element
          (dicom_dict_xml_parse_tag_td (vrs := row.vrs) row.parser0))
     = 162 * 2 ^ 16 + 12298.
Proof.
  exact (tag_cell_parsed (vrs := row.vrs) row.parser0
           "3" "0" "0" "A" "0" "0" "A" "2" 3 0 0 10 0 0 10 2
           ltac:(reflexivity) ltac:(reflexivity) ltac:(reflexivity)
           ltac:(reflexivity) ltac:(reflexivity) ltac:(reflexivity)
           ltac:(reflexivity) ltac:(reflexivity) ltac:(reflexivity)
           ltac:(reflexivity) ltac:(reflexivity)).
Defined.

Lemma study_nesting :
  nesting_below (fs := study.fs) (listings := study.listings) 2 "study".
Proof.
  constructor. intros file Hin Hvalid Hdir.
  apply list_elem_of_In in Hin. vm_compute in Hin.
  destruct Hin as [<-|[<-|[<-|[]]]]; try (vm_compute in Hdir; discriminate).
  constructor. intros file Hin Hvalid' Hdir'.
  apply list_elem_of_In in Hin. vm_compute in Hin.
  destruct Hin as [<-|[]]. vm_compute in Hdir'. discriminate.
Defined.

Lemma directory_scan_reports_direct_entries_witness :
  exists directory,
    viewer_get_directory_info (fs := study.fs) (listings := study.listings)
      2 "study" = Some directory
    /\ map file_info.filename (directory_info.dicom_files directory)
       = ["study/a.dcm"%string]
    /\ directory_info.contains_nondicom_images directory = true.
Proof.
  destruct (directory_scan_reports_direct_entries (fs := study.fs)
              (listings := study.listings) 2 "study" study_nesting)
    as (directory & Hrun & _ & Hfiles & _ & Himages).
  exists directory. split; [apply Hrun; lia|].
  rewrite Hfiles, Himages. vm_compute. split; reflexivity.
Defined.

Lemma growing_realloc_succeeds : realloc_succeeds growing.realloc.
Proof.
  intros block size Hsize. eexists. split; [reflexivity|].
  split.
  - rewrite length_take, length_app, length_replicate. lia.
  - rewrite take_take, Nat.min_l by lia. by rewrite take_app_length.
Defined.

Lemma content_token_appends_witness :
  exists parser',
    content_token growing.realloc [x30; x38] growing.parser = Returned parser'
    /\ content.contentlen parser' = 5
    /\ take 5 (content.contentbuf parser') = [x28; x30; x30; x30; x38]
    /\ content.contentbuf parser' !! 5%nat = Some x00.
Proof.
  destruct (content_token_appends growing.realloc [x30; x38] growing.parser
              growing_realloc_succeeds ltac:(reflexivity)
              ltac:(simpl; lia) ltac:(reflexivity) ltac:(simpl; lia))
    as (parser' & Hrun & Hlen & _ & _ & _ & _ & Hprefix & Hnul).
  exists parser'. rewrite Hlen in Hprefix, Hnul.
  split; [exact Hrun|]. split; [exact Hlen|].
  split; [exact Hprefix|exact Hnul].
Defined.

Lemma started_workers_are_enabled_witness :
  exists state,
    linux_init_multithreading (threads := pool.threads) 4 = Returned state
    /\ threading.global_active_worker_thread_count state = 3
    /\ threading.started state = [1; 2; 3].
Proof.
  destruct (started_workers_are_enabled (threads := pool.threads) 4
              ltac:(simpl; lia) ltac:(vm_compute; discriminate))
    as (state & Hrun & _ & Hactive & Hstarted & _).
  exists state. split; [exact Hrun|]. split; [exact Hactive|].
  rewrite Hstarted. reflexivity.
Defined.

(** * The claims that fail as stated, at concrete inputs *)



(** C3 as stated fails.  With two native levels against a logical ladder
    of one, opening the slide ends in [panic()]: the call does not come
    back, so the caller is handed no failed open, that is no image with
    [is_valid = false], to act upon. *)
Lemma too_many_native_levels_is_a_panic :
  wsi.level_count flat.w = 2
  /\ wrap32 (wsi.max_downsample_level flat.w + 1) = 1
  /\ load_image_from_file (platform := flat.platform) false true 7
       VIEWER_FILE_TYPE_OPENSLIDE_COMPATIBLE slide.filename = Panicked
  /\ ~ exists img,
         load_image_from_file (platform := flat.platform) false true 7
           VIEWER_FILE_TYPE_OPENSLIDE_COMPATIBLE slide.filename
         = Returned img
         /\ image.is_valid img = false.
Proof.
  assert (load_image_from_file (platform := flat.platform) false true 7
            VIEWER_FILE_TYPE_OPENSLIDE_COMPATIBLE slide.filename = Panicked)
    as E by (vm_compute; reflexivity).
  split; [reflexivity|]. split; [reflexivity|]. split; [exact E|].
  intros (img & E' & _). rewrite E in E'. discriminate.
Qed.

(** C4 as stated fails at a placeholder.  Logical level 1 of the example
    slide has no native level: its grid is the 0 x 0 of the zeroed struct,
    which is the ceiling division of no positive pixel dimension by its
    tile size (the level between 10000 x 8000 and 2500 x 2000 would
    measure 5000 x 4000 pixels, 20 x 16 tiles of 256 pixels). *)
Lemma placeholder_level_has_empty_grid :
  load_image_from_file (platform := slide.platform) false true 7
    VIEWER_FILE_TYPE_OPENSLIDE_COMPATIBLE slide.filename = Returned slide.img
  /\ exists li,
       image.level_images slide.img !! 1%nat = Some li
       /\ level_image.exists_ li = false
       /\ level_image.tile_count li = 0
       /\ level_image.width_in_tiles li = 0
       /\ level_image.height_in_tiles li = 0
       /\ ceil_div (10000 / 2) (WSI_TILE_DIM (Platform := slide.platform)) = 20
       /\ ceil_div (8000 / 2) (WSI_TILE_DIM (Platform := slide.platform)) = 16
       /\ forall width height tile_width tile_height,
            0 < width -> 0 < height -> 0 < tile_width -> 0 < tile_height ->
            level_image.width_in_tiles li <> ceil_div width tile_width
            /\ level_image.height_in_tiles li <> ceil_div height tile_height.
Proof.
  split; [vm_compute; reflexivity|].
  eexists. split; [reflexivity|].
  split; [reflexivity|]. split; [reflexivity|]. split; [reflexivity|].
  split; [reflexivity|]. split; [reflexivity|]. split; [reflexivity|].
  intros width height tile_width tile_height Hw Hh Htw Hth.
  pose proof (ceil_div_pos width tile_width Hw Htw).
  pose proof (ceil_div_pos height tile_height Hh Hth).
  cbn [level_image.width_in_tiles level_image.height_in_tiles]. lia.
Qed.

